(** * Bank-statement import: a shallow embedding of [import_service.py]

    The development follows [backend/app/services/import_service.py]:
    the record types [TransaccionBancaria] and [EstadoCuentaImportado],
    the class [ParserBancarioMX] and the class [ImportadorEstadoCuenta].

    Python values are embedded as follows.
    - A [str] is a list of Unicode code points ([N]).  Case mapping and
      the classes [\d], [\w], [\s] are written out for Basic Latin and
      Latin-1 (U+0000..U+00FF), white space for the whole of Unicode;
      the tables of the other blocks are not reproduced.
    - [re] is a backtracking matcher with Python's priorities (greedy and
      lazy repetition, ordered alternation, numbered groups).
    - A [Decimal] is a finite decimal number, a signed coefficient and an
      exponent, with exact arithmetic: the amounts of a statement stay far
      below the 28 significant digits of the default context, where
      Python's arithmetic is exact as well.  The literals [Infinity] and
      [NaN], which denote no amount, are not part of the embedding.
      The property [balance_verificado] is embedded a second time on the
      arithmetic of the library itself (module [DecPy]): special values,
      rounding to 28 digits, trapped signals.
    - Exceptions are values: a computation answers [Ok] or [Raise].
    - The attribute [self.errores] is threaded as explicit state. *)

From Stdlib Require Import List ZArith NArith QArith Qabs Qpower Lia Bool String Ascii.
From Stdlib Require Import DecimalString Sorted Permutation.
Import ListNotations.

Set Implicit Arguments.
Close Scope Q_scope.

(* ================================================================== *)
(** * Text *)
(* ================================================================== *)

Module Texto.

(** A Python [str]: its code points. *)
Definition str := list N.

Local Open Scope N_scope.

(** Decoding of a source literal (UTF-8 bytes) into code points; used
    to write the string constants of the program. *)
Fixpoint utf8 (fuel : nat) (bs : list N) : str :=
  match fuel with
  | O => []
  | S fuel' =>
    match bs with
    | [] => []
    | b0 :: r0 =>
      if b0 <? 128 then b0 :: utf8 fuel' r0
      else if (192 <=? b0) && (b0 <? 224) then
        match r0 with
        | b1 :: r1 => ((b0 - 192) * 64 + (b1 - 128)) :: utf8 fuel' r1
        | [] => [b0]
        end
      else if (224 <=? b0) && (b0 <? 240) then
        match r0 with
        | b1 :: b2 :: r2 =>
          ((b0 - 224) * 4096 + (b1 - 128) * 64 + (b2 - 128)) :: utf8 fuel' r2
        | _ => b0 :: utf8 fuel' r0
        end
      else
        match r0 with
        | b1 :: b2 :: b3 :: r3 =>
          ((b0 - 240) * 262144 + (b1 - 128) * 4096 + (b2 - 128) * 64 + (b3 - 128))
            :: utf8 fuel' r3
        | _ => b0 :: utf8 fuel' r0
        end
    end
  end.

Definition bytes_of_string (s : string) : list N :=
  map N_of_ascii (list_ascii_of_string s).

Definition lit (s : string) : str :=
  let bs := bytes_of_string s in utf8 (List.length bs) bs.

Definition str_eqb (a b : str) : bool :=
  if list_eq_dec N.eq_dec a b then true else false.

(** ** Character classes *)

Definition between (lo hi c : N) : bool := (lo <=? c) && (c <=? hi).

Definition is_digit (c : N) : bool := between 48 57 c.
Definition is_AZ (c : N) : bool := between 65 90 c.
Definition is_az (c : N) : bool := between 97 122 c.

(** [str.isspace]: the code points Python strips and [\s] matches. *)
Definition is_space (c : N) : bool :=
  between 9 13 c || between 28 32 c || (c =? 133) || (c =? 160)
  || (c =? 5760) || between 8192 8202 c || (c =? 8232) || (c =? 8233)
  || (c =? 8239) || (c =? 8287) || (c =? 12288).

(** [\w] on Basic Latin and Latin-1: alphanumeric or underscore. *)
Definition is_word (c : N) : bool :=
  is_digit c || is_AZ c || is_az c || (c =? 95)
  || (c =? 170) || (c =? 178) || (c =? 179) || (c =? 181) || (c =? 185)
  || (c =? 186) || between 188 190 c
  || between 192 214 c || between 216 246 c || between 248 255 c.

(** ** Case mapping *)

Definition lower_cp (c : N) : N :=
  if is_AZ c then c + 32
  else if between 192 222 c && negb (c =? 215) then c + 32
  else c.

Definition upper_cp (c : N) : list N :=
  if is_az c then [c - 32]
  else if between 224 254 c && negb (c =? 247) then [c - 32]
  else if c =? 223 then [83; 83]
  else if c =? 255 then [376]
  else if c =? 181 then [924]
  else [c].

(** [s.lower()] and [s.upper()]. *)
Definition lower (s : str) : str := map lower_cp s.
Definition upper (s : str) : str := flat_map upper_cp s.

(** ** Slices, strip, replace, substring test *)

(** [s[a:b]] for [0 <= a <= b]. *)
Definition slice (s : str) (a b : nat) : str := firstn (b - a) (skipn a s).

Fixpoint lstrip (s : str) : str :=
  match s with
  | c :: s' => if is_space c then lstrip s' else s
  | [] => []
  end.

Definition rstrip (s : str) : str := rev (lstrip (rev s)).

(** [s.strip()]. *)
Definition strip (s : str) : str := rstrip (lstrip s).

(** [s.replace(c, "")] for a one-character [c]. *)
Definition remove_char (c : N) (s : str) : str :=
  filter (fun x => negb (x =? c)) s.

Fixpoint starts_with (p s : str) : bool :=
  match p, s with
  | [], _ => true
  | a :: p', b :: s' => (a =? b) && starts_with p' s'
  | _ :: _, [] => false
  end.

(** [p in s]. *)
Fixpoint contains (p s : str) : bool :=
  starts_with p s ||
  match s with
  | [] => false
  | _ :: s' => contains p s'
  end.

(** [s.count(c)] for a one-character [c]. *)
Definition count_char (c : N) (s : str) : nat :=
  List.length (filter (fun x => x =? c) s).

(** [s.split("\n")]. *)
Fixpoint split_lines_aux (cur : str) (s : str) : list str :=
  match s with
  | [] => [rev cur]
  | c :: s' =>
    if c =? 10 then rev cur :: split_lines_aux [] s'
    else split_lines_aux (c :: cur) s'
  end.

Definition split_lines (s : str) : list str := split_lines_aux [] s.

(** ** Decimal digits *)

Definition digit_val (c : N) : Z := Z.of_N (c - 48).

(** [int(s)] for a string of digits. *)
Definition digits_to_Z (s : str) : Z :=
  fold_left (fun acc c => (10 * acc + digit_val c)%Z) s 0%Z.

End Texto.

(* ================================================================== *)
(** * Regular expressions: the fragment of [re] the program uses *)
(* ================================================================== *)

Module Re.
Import Texto.

(** Abstract syntax of a pattern.  [Rep greedy lo hi r] is [r{lo,hi}]
    ([hi = None] for an open bound), lazy when [greedy] is false;
    [Grp i r] is the capturing group number [i]. *)
Inductive regex : Type :=
| Eps
| Chr (p : N -> bool)
| Seq (r1 r2 : regex)
| Alt (r1 r2 : regex)
| Rep (greedy : bool) (lo : nat) (hi : option nat) (r : regex)
| Grp (i : nat) (r : regex).

(** Captured groups, most recent first: number, start, end. *)
Definition caps := list (nat * (nat * nat)).

Fixpoint cap_lookup (i : nat) (g : caps) : option (nat * nat) :=
  match g with
  | [] => None
  | (j, se) :: g' => if Nat.eqb i j then Some se else cap_lookup i g'
  end.

Section Matcher.
Variable A : Type.

(** What remains to be matched after a sub-pattern: the rest of the
    input, the position reached and the groups captured so far. *)
Definition cont := str -> nat -> caps -> option A.
Definition matcher := str -> nat -> caps -> cont -> option A.

Definition orelse (x y : option A) : option A :=
    match x with Some _ => x | None => y end.

(** [n] compulsory iterations. *)
Fixpoint rep_req (mr : matcher) (n : nat) : matcher :=
    fun s pos g k =>
      match n with
      | O => k s pos g
      | S n' => mr s pos g (fun s' p' g' => rep_req mr n' s' p' g' k)
      end.

(** At most [n] further iterations, each consuming input; the greedy
    form tries one more iteration first, the lazy form the rest of the
    pattern first. *)
Fixpoint rep_opt (mr : matcher) (greedy : bool) (n : nat) : matcher :=
    fun s pos g k =>
      match n with
      | O => k s pos g
      | S n' =>
        let more :=
          mr s pos g (fun s' p' g' =>
            if Nat.eqb p' pos then None else rep_opt mr greedy n' s' p' g' k) in
        if greedy then orelse more (k s pos g) else orelse (k s pos g) more
      end.

Fixpoint run (r : regex) : matcher :=
    fun s pos g k =>
      match r with
      | Eps => k s pos g
      | Chr p =>
        match s with
        | c :: s' => if p c then k s' (S pos) g else None
        | [] => None
        end
      | Seq r1 r2 => run r1 s pos g (fun s' p' g' => run r2 s' p' g' k)
      | Alt r1 r2 => orelse (run r1 s pos g k) (run r2 s pos g k)
      | Rep greedy lo hi r1 =>
        let extra :=
          match hi with
          | Some h => h - lo
          | None => List.length s
          end in
        rep_req (run r1) lo s pos g
          (fun s' p' g' => rep_opt (run r1) greedy extra s' p' g' k)
      | Grp i r1 =>
        run r1 s pos g (fun s' p' g' => k s' p' ((i, (pos, p')) :: g'))
      end.
End Matcher.

(** A match object: [start()], [end()] and the groups. *)
Record rmatch := mkMatch { m_start : nat; m_end : nat; m_caps : caps }.

Definition match_at (r : regex) (s : str) (pos : nat) : option rmatch :=
  run r s pos [] (fun _ p' g' => Some (mkMatch pos p' g')).

Fixpoint search_from (r : regex) (s : str) (pos : nat) : option rmatch :=
  match match_at r s pos with
  | Some m => Some m
  | None =>
    match s with
    | [] => None
    | _ :: s' => search_from r s' (S pos)
    end
  end.

(** [re.search(r, s)]: the match at the leftmost position that has one. *)
Definition search (r : regex) (s : str) : option rmatch := search_from r s 0.

(** [re.match(r, s)]: a match at position 0. *)
Definition match_ (r : regex) (s : str) : option rmatch := match_at r s 0.

(** A match of the pattern followed by the end of the input
    (the pattern closed by [\Z]). *)
Definition fullmatch (r : regex) (s : str) : option rmatch :=
  run r s 0 []
    (fun rest p' g' => match rest with [] => Some (mkMatch 0 p' g') | _ => None end).

(** [m.group()] and [m.group(i)] on the searched string [s]. *)
Definition group0 (s : str) (m : rmatch) : str := slice s (m_start m) (m_end m).

Definition group (s : str) (m : rmatch) (i : nat) : option str :=
  match cap_lookup i (m_caps m) with
  | Some (a, b) => Some (slice s a b)
  | None => None
  end.

(** ** Pattern constructors *)

Definition chr (c : N) : regex := Chr (N.eqb c).

(** A literal character under [re.IGNORECASE]. *)
Definition chr_i (c : N) : regex := Chr (fun x => N.eqb (lower_cp x) (lower_cp c)).

Fixpoint seqs (rs : list regex) : regex :=
  match rs with
  | [] => Eps
  | [r] => r
  | r :: rs' => Seq r (seqs rs')
  end.

Fixpoint alts (rs : list regex) : regex :=
  match rs with
  | [] => Chr (fun _ => false)
  | [r] => r
  | r :: rs' => Alt r (alts rs')
  end.

(** A literal string, and a literal string under [re.IGNORECASE]. *)
Definition text (s : string) : regex := seqs (map chr (lit s)).
Definition text_i (s : string) : regex := seqs (map chr_i (lit s)).

(** [.] (any character but a newline), [\d], [\w], [\s]. *)
Definition dot : regex := Chr (fun c => negb (N.eqb c 10)).
Definition d_ : regex := Chr is_digit.
Definition s_ : regex := Chr is_space.

(** One character of a set given by its members. *)
Definition one_of (s : string) : regex :=
  Chr (fun c => existsb (N.eqb c) (lit s)).

Definition star (r : regex) : regex := Rep true 0 None r.
Definition plus (r : regex) : regex := Rep true 1 None r.
Definition opt (r : regex) : regex := Rep true 0 (Some 1) r.
Definition rep (lo hi : nat) (r : regex) : regex := Rep true lo (Some hi) r.
Definition star_lazy (r : regex) : regex := Rep false 0 None r.
Definition plus_lazy (r : regex) : regex := Rep false 1 None r.

(** ** The language of a pattern *)

Fixpoint iter (P : str -> Prop) (n : nat) (w : str) : Prop :=
  match n with
  | O => w = []
  | S n' => exists w1 w2, w = w1 ++ w2 /\ P w1 /\ iter P n' w2
  end.

Fixpoint matches (r : regex) (w : str) : Prop :=
  match r with
  | Eps => w = []
  | Chr p => exists c, w = [c] /\ p c = true
  | Seq r1 r2 => exists w1 w2, w = w1 ++ w2 /\ matches r1 w1 /\ matches r2 w2
  | Alt r1 r2 => matches r1 w \/ matches r2 w
  | Rep _ lo hi r1 =>
    exists n, lo <= n /\
      match hi with Some h => n <= Nat.max lo h | None => True end /\
      iter (matches r1) n w
  | Grp _ r1 => matches r1 w
  end.

End Re.

(* ================================================================== *)
(** * Python values and exceptions *)
(* ================================================================== *)

Module Py.
Import Texto.

(** The exception classes the program meets. *)
Inductive clase : Type :=
| AttributeError
| InvalidOperation
| ValueError
| IndexError
| ImportError
| UnicodeDecodeError
| LibraryError.

(** An exception: its class and [str(e)]. *)
Record excepcion := mkExc { exc_clase : clase; exc_msg : str }.

(** The outcome of a call: a value or a raised exception. *)
Inductive resultado (A : Type) : Type :=
| Ok (a : A)
| Raise (e : excepcion).

Arguments Ok {A} a.
Arguments Raise {A} e.

Definition bind {A B} (x : resultado A) (f : A -> resultado B) : resultado B :=
  match x with
  | Ok a => f a
  | Raise e => Raise e
  end.

Definition raises {A} (x : resultado A) : bool :=
  match x with Ok _ => false | Raise _ => true end.

End Py.

(* ================================================================== *)
(** * [decimal.Decimal] *)
(* ================================================================== *)

Module Dec.
Import Texto Re.

Local Open Scope Z_scope.

(** The number [coef * 10 ^ expo]. *)
Record Decimal := mkDec { coef : Z; expo : Z }.

Definition zero : Decimal := mkDec 0 0.

(** The coefficient of [d] once written with the exponent [e <= expo d]. *)
Definition align (d : Decimal) (e : Z) : Z := coef d * 10 ^ (expo d - e).

(** [a + b]: both operands are brought to the smaller exponent. *)
Definition add (a b : Decimal) : Decimal :=
  let e := Z.min (expo a) (expo b) in mkDec (align a e + align b e) e.

Definition neg (a : Decimal) : Decimal := mkDec (- coef a) (expo a).

(** [a - b]. *)
Definition sub (a b : Decimal) : Decimal := add a (neg b).

(** [abs(a)]. *)
Definition abs (a : Decimal) : Decimal := mkDec (Z.abs (coef a)) (expo a).

(** [a < b]. *)
Definition ltb (a b : Decimal) : bool :=
  let e := Z.min (expo a) (expo b) in align a e <? align b e.

(** [a == b]. *)
Definition eqb (a b : Decimal) : bool :=
  let e := Z.min (expo a) (expo b) in align a e =? align b e.

(** [bool(a)]: a Decimal is false exactly when it is zero. *)
Definition truthy (a : Decimal) : bool := negb (coef a =? 0).

(** [sum(ds)]: the fold of [+] from the integer [0]. *)
Definition sum (ds : list Decimal) : Decimal := fold_left add ds zero.

(** The rational number a Decimal denotes. *)
Definition diez : Q := 10 # 1.

Definition value (d : Decimal) : Q := (inject_Z (coef d) * Qpower diez (expo d))%Q.

(** ** [Decimal(s)] for a string

    The numeric syntax of the constructor: an optional sign, digits with
    an optional decimal point (at least one digit), an optional
    exponent; surrounding white space is stripped and underscores are
    dropped.  Groups: 1 sign, 2 integer part, 3 fraction, 4 exponent. *)
Definition numero : regex :=
  seqs [ opt (Grp 1 (one_of "-+"));
         Alt (Seq (Grp 2 (plus d_)) (opt (Seq (chr 46%N) (Grp 3 (star d_)))))
             (Seq (chr 46%N) (Grp 3 (plus d_)));
         opt (Seq (one_of "eE") (Grp 4 (Seq (opt (one_of "-+")) (plus d_)))) ].

(** [int(s)] for an optionally signed string of digits. *)
Definition signed_to_Z (s : str) : Z :=
  match s with
  | 45%N :: s' => - digits_to_Z s'
  | 43%N :: s' => digits_to_Z s'
  | _ => digits_to_Z s
  end.

(** [Decimal(s)]; [None] stands for [InvalidOperation].  The literals
    [Infinity], [NaN] and [sNaN], which the constructor also accepts and
    which denote no number, are outside the embedding. *)
Definition of_str (s : str) : option Decimal :=
  let t := remove_char 95%N (strip s) in
  match fullmatch numero t with
  | None => None
  | Some m =>
    let intpart := match group t m 2 with Some x => x | None => [] end in
    let fracpart := match group t m 3 with Some x => x | None => [] end in
    let e := match group t m 4 with Some x => signed_to_Z x | None => 0 end in
    let c := digits_to_Z (intpart ++ fracpart) in
    let negative := match group t m 1 with Some [45%N] => true | _ => false end in
    Some (mkDec (if negative then - c else c) (e - Z.of_nat (List.length fracpart)))
  end.

(** [Decimal(str(z))] for an [int]. *)
Definition of_Z (z : Z) : Decimal := mkDec z 0.

(** [str(e)] of the [InvalidOperation] that [Decimal] raises on a string
    that is no number. *)
Definition conversion_syntax : Py.excepcion :=
  Py.mkExc Py.InvalidOperation (lit "[<class 'decimal.ConversionSyntax'>]").

End Dec.

(* ================================================================== *)
(** * [datetime.date] and [datetime.strptime] *)
(* ================================================================== *)

Module Fecha.
Import Texto Re.

Local Open Scope Z_scope.

Record date := mkDate { anio : Z; mes : Z; dia : Z }.

Definition is_leap (y : Z) : bool :=
  ((y mod 4 =? 0) && negb (y mod 100 =? 0)) || (y mod 400 =? 0).

Definition days_in_month (y m : Z) : Z :=
  if m =? 2 then (if is_leap y then 29 else 28)
  else if (m =? 4) || (m =? 6) || (m =? 9) || (m =? 11) then 30
  else 31.

(** The check of the [date] constructor ([MINYEAR = 1], [MAXYEAR = 9999]). *)
Definition valid (y m d : Z) : bool :=
  (1 <=? y) && (y <=? 9999) && (1 <=? m) && (m <=? 12)
  && (1 <=? d) && (d <=? days_in_month y m).

(** [a <= b] on dates. *)
Definition leb (a b : date) : bool :=
  (anio a <? anio b)
  || ((anio a =? anio b)
      && ((mes a <? mes b) || ((mes a =? mes b) && (dia a <=? dia b)))).

Definition eqb (a b : date) : bool :=
  (anio a =? anio b) && (mes a =? mes b) && (dia a =? dia b).

(** The directives of a format string. *)
Inductive directiva : Type :=
| DirD            (* %d *)
| DirM            (* %m *)
| DirY4           (* %Y *)
| DirY2           (* %y *)
| DirLit (c : N).

Fixpoint parse_format (s : str) : list directiva :=
  match s with
  | [] => []
  | c :: s' =>
    if N.eqb c 37 then
      match s' with
      | x :: s'' =>
        (if N.eqb x 100 then DirD
         else if N.eqb x 109 then DirM
         else if N.eqb x 89 then DirY4
         else if N.eqb x 121 then DirY2
         else DirLit x) :: parse_format s''
      | [] => [DirLit c]
      end
    else DirLit c :: parse_format s'
  end.

Definition range_ (lo hi : string) : regex :=
  match lit lo, lit hi with
  | [a], [b] => Chr (between a b)
  | _, _ => Chr (fun _ => false)
  end.

(** The pattern [_strptime] compiles a directive into.
    Groups: 1 day, 2 month, 3 four-digit year, 4 two-digit year. *)
Definition directiva_re (d : directiva) : regex :=
  match d with
  | DirD =>
    Grp 1 (alts [ Seq (text "3") (range_ "0" "1");
                  Seq (range_ "1" "2") d_;
                  Seq (text "0") (range_ "1" "9");
                  range_ "1" "9";
                  Seq (text " ") (range_ "1" "9") ])
  | DirM =>
    Grp 2 (alts [ Seq (text "1") (range_ "0" "2");
                  Seq (text "0") (range_ "1" "9");
                  range_ "1" "9" ])
  | DirY4 => Grp 3 (seqs [d_; d_; d_; d_])
  | DirY2 => Grp 4 (seqs [d_; d_])
  | DirLit c => chr_i c
  end.

Definition format_re (fmt : str) : regex :=
  seqs (map directiva_re (parse_format fmt)).

(** [datetime.strptime(data, fmt).date()]; [None] stands for the
    [ValueError] of a string that does not match the format, leaves
    unconverted data, or names no calendar day. *)
Definition strptime (data fmt : str) : option date :=
  match match_ (format_re fmt) data with
  | None => None
  | Some m =>
    if negb (Nat.eqb (m_end m) (List.length data)) then None
    else
      let num i := match group data m i with
                   | Some x => Some (digits_to_Z (strip x))
                   | None => None
                   end in
      let year :=
        match num 3%nat, num 4%nat with
        | Some y, _ => y
        | None, Some y => if y <=? 68 then y + 2000 else y + 1900
        | None, None => 1900
        end in
      let month := match num 2%nat with Some x => x | None => 1 end in
      let day := match num 1%nat with Some x => x | None => 1 end in
      if valid year month day then Some (mkDate year month day) else None
  end.

(** [str(d)]: [YYYY-MM-DD]. *)
Definition pad (width : nat) (z : Z) : str :=
  let s := lit (NilZero.string_of_uint (N.to_uint (Z.to_N z))) in
  repeat 48%N (width - List.length s) ++ s.

Definition to_str (d : date) : str :=
  pad 4 (anio d) ++ [45%N] ++ pad 2 (mes d) ++ [45%N] ++ pad 2 (dia d).

End Fecha.

(* ================================================================== *)
(** * Cell values: what a CSV field or a spreadsheet cell holds *)
(* ================================================================== *)

Module Valores.
Import Texto.

(** The Python objects that reach [_parsear_fecha] and [_parsear_monto].
    A [float] is carried by its [repr], the only thing the program reads
    of it; a [datetime] is a [date] for [isinstance]. *)
Inductive valor : Type :=
| VNone
| VStr (s : str)
| VInt (z : Z)
| VBool (b : bool)
| VFloat (repr : str)
| VDate (d : Fecha.date).

(** [bool(v)]. *)
Definition truthy (v : valor) : bool :=
  match v with
  | VNone => false
  | VStr s => match s with [] => false | _ => true end
  | VInt z => negb (Z.eqb z 0)
  | VBool b => b
  | VFloat r => negb (str_eqb r (lit "0.0") || str_eqb r (lit "-0.0"))
  | VDate _ => true
  end.

(** [str(v)]. *)
Definition py_str (v : valor) : str :=
  match v with
  | VNone => lit "None"
  | VStr s => s
  | VInt z => lit (NilZero.string_of_int (Z.to_int z))
  | VBool true => lit "True"
  | VBool false => lit "False"
  | VFloat r => r
  | VDate d => Fecha.to_str d
  end.

(** [isinstance(v, (int, float))]: [bool] is a subclass of [int]. *)
Definition is_number (v : valor) : bool :=
  match v with
  | VInt _ | VBool _ | VFloat _ => true
  | _ => false
  end.

End Valores.

(* ================================================================== *)
(** * The records of the program *)
(* ================================================================== *)

Module Modelo.
Import Texto.

(** [TransaccionBancaria]. *)
Record TransaccionBancaria := mkTrans {
  fecha : Fecha.date;
  descripcion : str;
  referencia : str;
  cargo : Dec.Decimal;
  abono : Dec.Decimal;
  saldo : option Dec.Decimal;
  concepto_limpio : str;
  categoria_sugerida : str;
  es_transferencia_interna : bool;
  beneficiario_detectado : str;
  rfc_detectado : option str
}.

(** [monto_neto]. *)
Definition monto_neto (t : TransaccionBancaria) : Dec.Decimal :=
  Dec.sub (abono t) (cargo t).

(** [EstadoCuentaImportado]. *)
Record EstadoCuentaImportado := mkEstado {
  banco : str;
  cuenta : str;
  moneda : str;
  fecha_inicio : Fecha.date;
  fecha_fin : Fecha.date;
  saldo_inicial : Dec.Decimal;
  saldo_final : Dec.Decimal;
  transacciones : list TransaccionBancaria;
  total_cargos : Dec.Decimal;
  total_abonos : Dec.Decimal
}.

(** [Decimal("0.01")]. *)
Definition un_centavo : Dec.Decimal := Dec.mkDec 1 (-2).

(** The property [balance_verificado]. *)
Definition balance_verificado (e : EstadoCuentaImportado) : bool :=
  let calculado := Dec.sub (Dec.add (saldo_inicial e) (total_abonos e)) (total_cargos e) in
  Dec.ltb (Dec.abs (Dec.sub calculado (saldo_final e))) un_centavo.

End Modelo.

(* ================================================================== *)
(** * [ParserBancarioMX] *)
(* ================================================================== *)

Module ParserBancarioMX.
Import Texto Re.

(** [BANCOS], in the order of the dictionary. *)
Definition BANCOS : list (str * list str) :=
  [ (lit "BBVA", [lit "bbva"; lit "bancomer"; lit "014"]);
    (lit "SANTANDER", [lit "santander"; lit "0140"; lit "banco santander"]);
    (lit "BANORTE", [lit "banorte"; lit "banorte-ixe"; lit "058"]);
    (lit "HSBC", [lit "hsbc"; lit "021"]);
    (lit "BANAMEX", [lit "banamex"; lit "citibanamex"; lit "002"]);
    (lit "SCOTIABANK", [lit "scotiabank"; lit "044"; lit "scotia"]);
    (lit "BANCOAZTECA", [lit "banco azteca"; lit "062"]);
    (lit "INBURSA", [lit "inbursa"; lit "036"]);
    (lit "INTERACCIONES", [lit "interacciones"; lit "060"]);
    (lit "BANREGIO", [lit "banregio"; lit "059"]);
    (lit "AFIRME", [lit "afirme"; lit "061"]);
    (lit "MONEX", [lit "monex"; lit "056"]);
    (lit "MULTIVA", [lit "multiva"; lit "049"]) ].

(** [x.*y] *)
Definition then_ (x y : string) : regex := seqs [text x; star dot; text y].

(** [x[ab]y] *)
Definition with_ (x ab y : string) : regex := seqs [text x; one_of ab; text y].

(** [CATEGORIAS], in the order of the dictionary; each pattern is the
    one of the source, written with the constructors of [Re]. *)
Definition CATEGORIAS : list (str * list regex) :=
  [ (lit "transferencias_internas",
     [ then_ "transferencia" "misma empresa";     (* transferencia.*misma empresa *)
       then_ "traspaso" "cuenta";                 (* traspaso.*cuenta *)
       then_ "spei" "propia";                     (* spei.*propia *)
       text "transferencia entre cuentas" ]);
    (lit "proveedores",
     [ then_ "pago" "proveedor";                  (* pago.*proveedor *)
       text "factura";
       Seq (text "pago a ")                       (* pago a [\w\s]+ *)
           (plus (Chr (fun c => is_word c || is_space c)));
       then_ "transferencia" "proveedor" ]);      (* transferencia.*proveedor *)
    (lit "nominas",
     [ with_ "n" "oó" "mina";                     (* n[oó]mina *)
       then_ "pago" "sueldo";                     (* pago.*sueldo *)
       text "salario";
       then_ "transferencia" "empleado";          (* transferencia.*empleado *)
       then_ "spei" "nomin" ]);                   (* spei.*nomin *)
    (lit "impuestos",
     [ text "sat";
       text "impuesto";
       text "iva";
       text "isr";
       text "pago provisional";
       with_ "declaraci" "oó" "n" ]);             (* declaraci[oó]n *)
    (lit "servicios",
     [ text "luz";
       text "agua";
       with_ "tel" "eé" "fono";                   (* tel[eé]fono *)
       text "internet";
       with_ "comisi" "oó" "n bancaria";          (* comisi[oó]n bancaria *)
       text "cuota";
       text "mantenimiento" ]);
    (lit "clientes",
     [ then_ "pago" "cliente";                    (* pago.*cliente *)
       then_ "deposito" "cliente";                (* deposito.*cliente *)
       then_ "transferencia" "cliente";           (* transferencia.*cliente *)
       text "venta";
       text "cobro" ]);
    (lit "financiamiento",
     [ seqs [text "pago"; star dot; text "cr"; one_of "eé"; text "dito"];
                                                  (* pago.*cr[eé]dito *)
       with_ "amortizaci" "oó" "n";               (* amortizaci[oó]n *)
       text "intereses";
       seqs [text "comisi"; one_of "oó"; text "n"; star dot; text "apertura"] ])
                                                  (* comisi[oó]n.*apertura *)
  ].

(** The first entry of an ordered table whose list has a member that
    satisfies [hit]: the two nested [for] loops with their [return]. *)
Fixpoint first_entry {K V : Type} (hit : V -> bool) (tabla : list (K * list V))
  : option K :=
  match tabla with
  | [] => None
  | (k, vs) :: tabla' => if existsb hit vs then Some k else first_entry hit tabla'
  end.

(** [detectar_banco]. *)
Definition detectar_banco (contenido : str) : str :=
  let contenido_lower := lower contenido in
  match first_entry (fun patron => contains patron contenido_lower) BANCOS with
  | Some banco => banco
  | None => lit "DESCONOCIDO"
  end.

(** [re.search(patron, s)] as a condition. *)
Definition found (patron : regex) (s : str) : bool :=
  match search patron s with Some _ => true | None => false end.

(** [categorizar_transaccion]. *)
Definition categorizar_transaccion (descripcion : str) : str :=
  let descripcion_lower := lower descripcion in
  match first_entry (fun patron => found patron descripcion_lower) CATEGORIAS with
  | Some categoria => categoria
  | None => lit "otros"
  end.

(** The pattern of [extraer_rfc]: [[A-Z&Ñ]{3,4}[0-9]{6}[A-Z0-9]{2,3}]. *)
Definition rfc_letra (c : N) : bool := is_AZ c || N.eqb c 38 || N.eqb c 209.
Definition rfc_alnum (c : N) : bool := is_AZ c || is_digit c.

Definition patron_rfc : regex :=
  seqs [ rep 3 4 (Chr rfc_letra); rep 6 6 (Chr is_digit); rep 2 3 (Chr rfc_alnum) ].

(** [extraer_rfc]. *)
Definition extraer_rfc (texto : str) : option str :=
  let mayus := upper texto in
  match search patron_rfc mayus with
  | Some m =>
    let rfc := group0 mayus m in
    if Nat.eqb (List.length rfc) 12 || Nat.eqb (List.length rfc) 13
    then Some rfc else None
  | None => None
  end.

End ParserBancarioMX.

(* ================================================================== *)
(** * [ImportadorEstadoCuenta]: the helpers that touch no state *)
(* ================================================================== *)

Module Auxiliares.
Import Texto Re Py Valores Modelo.

(** A transaction built with the defaults of the dataclass for the
    fields the caller does not pass. *)
Definition transaccion (f : Fecha.date) (d r : str) (c a : Dec.Decimal)
    (s : option Dec.Decimal) (limpio cat : str) (rfc : option str)
  : TransaccionBancaria :=
  mkTrans f d r c a s limpio cat false [] rfc.

(** ** [_parsear_fecha] *)

Definition formatos : list str :=
  [ lit "%d/%m/%Y"; lit "%d-%m-%Y"; lit "%Y/%m/%d"; lit "%Y-%m-%d";
    lit "%d/%m/%y"; lit "%m/%d/%Y"; lit "%Y%m%d" ].

(** The loop [for fmt in ...: try: return strptime(...) except ValueError:
    continue]: the result of the first format that parses. *)
Fixpoint primer_formato (fecha_str : str) (fmts : list str) : option Fecha.date :=
  match fmts with
  | [] => None
  | fmt :: fmts' =>
    match Fecha.strptime fecha_str fmt with
    | Some d => Some d
    | None => primer_formato fecha_str fmts'
    end
  end.

Definition _parsear_fecha (valor : valor) : option Fecha.date :=
  match valor with
  | VDate d => Some d
  | _ =>
    if negb (truthy valor) || str_eqb (strip (py_str valor)) [] then None
    else primer_formato (strip (py_str valor)) formatos
  end.

(** ** [_parsear_monto] *)

Definition _parsear_monto (valor : valor) : resultado Dec.Decimal :=
  if is_number valor then
    match Dec.of_str (py_str valor) with
    | Some d => Ok d
    | None => Raise Dec.conversion_syntax
    end
  else if negb (truthy valor) then Ok Dec.zero
  else
    let monto_str := strip (py_str valor) in
    let monto_str := remove_char 44 (remove_char 36 monto_str) in
    let monto_str :=
      if contains (lit "(") monto_str && contains (lit ")") monto_str
      then 45%N :: remove_char 41 (remove_char 40 monto_str)
      else monto_str in
    match Dec.of_str monto_str with
    | Some d => Ok d
    | None => Ok Dec.zero
    end.

(** ** [_encontrar_campo] and [_encontrar_columna] *)

Definition sin_lower : excepcion :=
  mkExc AttributeError (lit "'NoneType' object has no attribute 'lower'").

(** The keys of a [csv.DictReader] row are the header names, and [None]
    when the row has more fields than the header. *)
Fixpoint _encontrar_campo (keys : list (option str)) (opciones : list str)
  : resultado (option str) :=
  match keys with
  | [] => Ok None
  | None :: _ => Raise sin_lower
  | Some key :: keys' =>
    if existsb (fun opcion => contains opcion (lower key)) opciones
    then Ok (Some key)
    else _encontrar_campo keys' opciones
  end.

Fixpoint encontrar_columna_desde (i : nat) (headers : list str) (opciones : list str)
  : option nat :=
  match headers with
  | [] => None
  | header :: headers' =>
    if existsb (fun opcion => contains opcion (strip (lower header))) opciones
    then Some i
    else encontrar_columna_desde (S i) headers' opciones
  end.

Definition _encontrar_columna (headers opciones : list str) : option nat :=
  encontrar_columna_desde 0 headers opciones.

(** ** [_extraer_cuenta], [_extraer_saldo_inicial], [_extraer_saldo_final] *)

(** [[:\s]+] *)
Definition sep : regex := plus (Chr (fun c => N.eqb c 58 || is_space c)).

(** [([\d,]+\.\d{2})] as group [i]. *)
Definition monto_grp (i : nat) : regex :=
  Grp i (seqs [plus (Chr (fun c => is_digit c || N.eqb c 44)); chr 46; rep 2 2 d_]).

Definition patrones_cuenta : list regex :=
  [ seqs [text_i "cuenta"; sep; Grp 1 (rep 10 20 d_)];
                                      (* cuenta[:\s]+(\d{10,20}) *)
    seqs [text_i "no"; opt (chr 46); star s_; text_i "cuenta"; sep; Grp 1 (rep 10 20 d_)];
                                      (* no\.?\s*cuenta[:\s]+(\d{10,20}) *)
    seqs [text_i "account"; sep; Grp 1 (rep 10 20 d_)];
                                      (* account[:\s]+(\d{10,20}) *)
    seqs [Rep true 4 None (chr 42); Grp 1 (rep 4 4 d_)] ].
                                      (* \*{4,}(\d{4}) *)

Fixpoint primer_grupo1 (texto : str) (patrones : list regex) : str :=
  match patrones with
  | [] => []
  | patron :: patrones' =>
    match search patron texto with
    | Some m =>
      match group texto m 1 with
      | Some g => g
      | None => []
      end
    | None => primer_grupo1 texto patrones'
    end
  end.

Definition _extraer_cuenta (texto : str) : str := primer_grupo1 texto patrones_cuenta.

(** saldo\s*(anterior|inicial|previous)[:\s]+\$?([\d,]+\.\d{2})
    saldo\s*al\s*inicio[:\s]+\$?([\d,]+\.\d{2}) *)
Definition patrones_saldo_inicial : list regex :=
  [ seqs [ text_i "saldo"; star s_;
           Grp 1 (alts [text_i "anterior"; text_i "inicial"; text_i "previous"]);
           sep; opt (chr 36); monto_grp 2 ];
    seqs [ text_i "saldo"; star s_; text_i "al"; star s_; text_i "inicio";
           sep; opt (chr 36); monto_grp 1 ] ].

(** saldo\s*(final|actual|current)[:\s]+\$?([\d,]+\.\d{2})
    saldo\s*al\s*corte[:\s]+\$?([\d,]+\.\d{2}) *)
Definition patrones_saldo_final : list regex :=
  [ seqs [ text_i "saldo"; star s_;
           Grp 1 (alts [text_i "final"; text_i "actual"; text_i "current"]);
           sep; opt (chr 36); monto_grp 2 ];
    seqs [ text_i "saldo"; star s_; text_i "al"; star s_; text_i "corte";
           sep; opt (chr 36); monto_grp 1 ] ].

(** The loop shared by the two extractors: on a match,
    [Decimal(match.group(2).replace(",", ""))] is returned; any exception
    of that expression (a pattern without a group 2, a string that is no
    number) is swallowed by the bare [except] and the next pattern is
    tried. *)
Fixpoint extraer_grupo2 (texto : str) (patrones : list regex) : option Dec.Decimal :=
  match patrones with
  | [] => None
  | patron :: patrones' =>
    match search patron texto with
    | Some m =>
      match group texto m 2 with
      | Some g =>
        match Dec.of_str (remove_char 44 g) with
        | Some d => Some d
        | None => extraer_grupo2 texto patrones'
        end
      | None => extraer_grupo2 texto patrones'
      end
    | None => extraer_grupo2 texto patrones'
    end
  end.

Definition _extraer_saldo_inicial (texto : str) : option Dec.Decimal :=
  extraer_grupo2 texto patrones_saldo_inicial.

Definition _extraer_saldo_final (texto : str) : option Dec.Decimal :=
  extraer_grupo2 texto patrones_saldo_final.

End Auxiliares.

(* ================================================================== *)
(** * [ImportadorEstadoCuenta] *)
(* ================================================================== *)

Module ImportadorEstadoCuenta.
Import Texto Re Py Valores Modelo Auxiliares.

(** ** The text parsers of the PDF path *)

(** (\d{2}/\d{2}/\d{4})\s+(.+?)\s+([\d,]+\.\d{2})?\s+([\d,]+\.\d{2})?\s+([\d,]+\.\d{2})? *)
Definition patron_bbva : regex :=
  seqs [ Grp 1 (seqs [rep 2 2 d_; chr 47; rep 2 2 d_; chr 47; rep 4 4 d_]);
         plus s_; Grp 2 (plus_lazy dot);
         plus s_; opt (monto_grp 3);
         plus s_; opt (monto_grp 4);
         plus s_; opt (monto_grp 5) ].

(** [Decimal(s.replace(",", ""))] *)
Definition decimal_sin_comas (s : str) : option Dec.Decimal :=
  Dec.of_str (remove_char 44 s).

(** The body of the loop of [_parsear_bbva] on one line: the transaction
    it appends, if any. *)
Definition linea_bbva (linea : str) : option TransaccionBancaria :=
  match search patron_bbva linea with
  | None => None
  | Some m =>
    let fecha_str := match group linea m 1 with Some x => x | None => [] end in
    let descripcion := strip (match group linea m 2 with Some x => x | None => [] end) in
    let cargo_str := match group linea m 3 with Some (c :: x) => c :: x | _ => lit "0" end in
    let abono_str := match group linea m 4 with Some (c :: x) => c :: x | _ => lit "0" end in
    let saldo_str := match group linea m 5 with Some (c :: x) => Some (c :: x) | _ => None end in
    match Fecha.strptime fecha_str (lit "%d/%m/%Y") with
    | None => None
    | Some fecha =>
      match decimal_sin_comas cargo_str, decimal_sin_comas abono_str with
      | Some cargo, Some abono =>
        match saldo_str with
        | None =>
          Some (transaccion fecha descripcion [] cargo abono None []
                  (ParserBancarioMX.categorizar_transaccion descripcion) None)
        | Some ss =>
          match decimal_sin_comas ss with
          | Some saldo =>
            Some (transaccion fecha descripcion [] cargo abono (Some saldo) []
                    (ParserBancarioMX.categorizar_transaccion descripcion) None)
          | None => None
          end
        end
      | _, _ => None
      end
    end
  end.

(** The transactions a line-by-line parser collects. *)
Definition por_lineas (f : str -> option TransaccionBancaria) (texto : str)
  : list TransaccionBancaria :=
  flat_map (fun linea => match f linea with Some t => [t] | None => [] end)
           (split_lines texto).

Definition _parsear_bbva (texto : str) : list TransaccionBancaria :=
  por_lineas linea_bbva texto.

Definition _parsear_santander (texto : str) : list TransaccionBancaria := [].

Definition _parsear_banorte (texto : str) : list TransaccionBancaria := [].

(** (\d{1,2}[/-]\d{1,2}[/-]\d{2,4}).*?(\d{1,3}(?:,\d{3})*\.\d{2}) *)
Definition patron_generico : regex :=
  seqs [ Grp 1 (seqs [rep 1 2 d_; one_of "/-"; rep 1 2 d_; one_of "/-"; rep 2 4 d_]);
         star_lazy dot;
         Grp 2 (seqs [rep 1 3 d_; star (Seq (chr 44) (rep 3 3 d_)); chr 46; rep 2 2 d_]) ].

Definition formatos_generico : list str :=
  [ lit "%d/%m/%Y"; lit "%d-%m-%Y"; lit "%m/%d/%Y"; lit "%d/%m/%y" ].

(** [linea[:match.start()].strip() + linea[match.end():].strip()] *)
Definition resto_linea (linea : str) (m : rmatch) : str :=
  strip (firstn (m_start m) linea) ++ strip (skipn (m_end m) linea).

(** The body of the loop of [_parsear_generico] on one line. *)
Definition linea_generico (linea : str) : option TransaccionBancaria :=
  match search patron_generico linea with
  | None => None
  | Some m =>
    let fecha_str := match group linea m 1 with Some x => x | None => [] end in
    match primer_formato fecha_str formatos_generico with
    | None => None
    | Some fecha =>
      let descripcion := resto_linea linea m in
      match decimal_sin_comas (match group linea m 2 with Some x => x | None => [] end) with
      | None => None
      | Some monto =>
        Some (transaccion fecha (firstn 100 descripcion) []
                (if contains (lit "cargo") (lower descripcion) then monto else Dec.zero)
                (if contains (lit "abono") (lower descripcion) then monto else Dec.zero)
                None [] (lit "otros") None)
      end
    end
  end.

Definition _parsear_generico (texto : str) : list TransaccionBancaria :=
  por_lineas linea_generico texto.

(** ** [_parsear_fila_csv] *)

(** A row of [csv.DictReader]: the fields under the header names, a
    missing field being [None], and whether surplus fields were stored
    under the key [None]. *)
Record fila_csv := mkFila { campos : list (str * option str); resto : bool }.

Definition keys (row : fila_csv) : list (option str) :=
  map (fun kv => Some (fst kv)) (campos row) ++ (if resto row then [None] else []).

Fixpoint buscar (key : str) (l : list (str * option str)) : option (option str) :=
  match l with
  | [] => None
  | (k, v) :: l' => if str_eqb key k then Some v else buscar key l'
  end.

(** [row.get(key, default)].  A search that answered [None] has visited
    every key of the row, so the row has no key [None] to be found. *)
Definition row_get (row : fila_csv) (key : option str) (default : valor) : valor :=
  match key with
  | None => default
  | Some k =>
    match buscar k (campos row) with
    | Some (Some s) => VStr s
    | Some None => VNone
    | None => default
    end
  end.

Definition key_truthy (key : option str) : bool :=
  match key with Some (_ :: _) => true | _ => false end.

Definition _parsear_fila_csv (row : fila_csv) : resultado (option TransaccionBancaria) :=
  bind (_encontrar_campo (keys row) [lit "fecha"; lit "date"; lit "f"]) (fun fecha_key =>
  bind (_encontrar_campo (keys row) [lit "descripcion"; lit "concepto"; lit "description"])
       (fun desc_key =>
  bind (_encontrar_campo (keys row) [lit "cargo"; lit "debito"; lit "debit"]) (fun cargo_key =>
  bind (_encontrar_campo (keys row) [lit "abono"; lit "credito"; lit "credit"]) (fun abono_key =>
  bind (_encontrar_campo (keys row) [lit "saldo"; lit "balance"]) (fun saldo_key =>
  if negb (key_truthy fecha_key) || negb (key_truthy desc_key) then Ok None
  else
    match _parsear_fecha (row_get row fecha_key VNone) with
    | None => Ok None
    | Some fecha =>
      let descripcion := py_str (row_get row desc_key (VStr [])) in
      bind (_parsear_monto (row_get row cargo_key (VInt 0))) (fun cargo =>
      bind (_parsear_monto (row_get row abono_key (VInt 0))) (fun abono =>
      bind (if key_truthy saldo_key
            then bind (_parsear_monto (row_get row saldo_key VNone)) (fun s => Ok (Some s))
            else Ok None) (fun saldo =>
      Ok (Some (transaccion fecha descripcion [] cargo abono saldo []
                  (ParserBancarioMX.categorizar_transaccion descripcion) None)))))
    end))))).

(** ** [_construir_estado_cuenta] *)

(** [transacciones.sort(key=lambda x: x.fecha)]: a stable sort. *)
Fixpoint insertar (t : TransaccionBancaria) (l : list TransaccionBancaria)
  : list TransaccionBancaria :=
  match l with
  | [] => [t]
  | u :: l' => if Fecha.leb (fecha t) (fecha u) then t :: u :: l' else u :: insertar t l'
  end.

Definition ordenar (l : list TransaccionBancaria) : list TransaccionBancaria :=
  fold_right insertar [] l.

(** [x or y] for an optional Decimal [x]: [None] and zero are false. *)
Definition o_bien (x : option Dec.Decimal) (y : Dec.Decimal) : Dec.Decimal :=
  match x with
  | Some d => if Dec.truthy d then d else y
  | None => y
  end.

Definition _construir_estado_cuenta (hoy : Fecha.date) (banco cuenta : str)
    (transacciones : list TransaccionBancaria) (texto_completo : str)
  : EstadoCuentaImportado :=
  match transacciones with
  | [] =>
    mkEstado banco cuenta (lit "MXN") hoy hoy Dec.zero Dec.zero [] Dec.zero Dec.zero
  | t0 :: _ =>
    let ordenadas := ordenar transacciones in
    let primera := hd t0 ordenadas in
    let ultima := last ordenadas t0 in
    let total_cargos := Dec.sum (map cargo ordenadas) in
    let total_abonos := Dec.sum (map abono ordenadas) in
    let saldo_inicial :=
      match _extraer_saldo_inicial texto_completo with
      | Some s => s
      | None => o_bien (saldo primera) Dec.zero
      end in
    let saldo_final :=
      match _extraer_saldo_final texto_completo with
      | Some s => s
      | None =>
        o_bien (saldo ultima) (Dec.sub (Dec.add saldo_inicial total_abonos) total_cargos)
      end in
    mkEstado banco cuenta (lit "MXN") (fecha primera) (fecha ultima)
             saldo_inicial saldo_final ordenadas total_cargos total_abonos
  end.

(** ** The libraries and the clock

    What the program takes from outside: whether PyPDF2 and openpyxl are
    installed, the text of the pages of a PDF ([PdfReader] and
    [extract_text]), the rows of the active sheet of a workbook
    ([load_workbook], [ws[1]] and [iter_rows]), [bytes.decode("utf-8")],
    the rows [csv.DictReader] yields for a text and a delimiter, and
    [date.today()]. *)
Record entorno := mkEntorno {
  PDF_SUPPORT : bool;
  EXCEL_SUPPORT : bool;
  pdf_paginas : list N -> resultado (list str);
  load_workbook : list N -> resultado (list (list valor));
  decode_utf8 : list N -> resultado str;
  csv_DictReader : str -> N -> list fila_csv;
  hoy : Fecha.date
}.

(** ** The object and its methods *)

(** The attributes [__init__] sets. *)
Record importador := mkImportador {
  errores : list str;
  transacciones_parsed : Z
}.

(** [ImportadorEstadoCuenta()]. *)
Definition nuevo : importador := mkImportador [] 0.

(** A method: from the object before the call to the outcome and the
    object after it. *)
Definition metodo (A : Type) : Type := importador -> resultado A * importador.

Definition devolver {A} (a : A) : metodo A := fun self => (Ok a, self).

Definition lanzar {A} (e : excepcion) : metodo A := fun self => (Raise e, self).

(** [self.errores.append(msg)]. *)
Definition errores_append (msg : str) (self : importador) : importador :=
  mkImportador (errores self ++ [msg]) (transacciones_parsed self).

Section Metodos.
Variable env : entorno.

(** The delimiter with the most occurrences in the sample, the first
    one on a tie, [","] when none occurs. *)
Definition detectar_delimitador (contenido : str) : N :=
    let sample := firstn 1000 contenido in
    snd (fold_left
           (fun (acc : nat * N) d =>
              let count := count_char d sample in
              if Nat.ltb (fst acc) count then (count, d) else acc)
           [44%N; 59%N; 9%N; 124%N] (0, 44%N)).

(** The loop of [_importar_csv] over the rows. *)
Fixpoint filas_csv (rows : list fila_csv) (transacciones : list TransaccionBancaria)
    : metodo (list TransaccionBancaria) :=
    fun self =>
      match rows with
      | [] => (Ok transacciones, self)
      | row :: rows' =>
        match _parsear_fila_csv row with
        | Ok (Some trans) => filas_csv rows' (transacciones ++ [trans]) self
        | Ok None => filas_csv rows' transacciones self
        | Raise e =>
          filas_csv rows' transacciones
            (errores_append (lit "Error parseando fila: " ++ exc_msg e) self)
        end
      end.

Definition _importar_csv (archivo : list N) : metodo EstadoCuentaImportado :=
    fun self =>
      match decode_utf8 env archivo with
      | Raise e => (Raise e, self)
      | Ok contenido =>
        let delimiter := detectar_delimitador contenido in
        match filas_csv (csv_DictReader env contenido delimiter) [] self with
        | (Raise e, self') => (Raise e, self')
        | (Ok transacciones, self') =>
          (Ok (_construir_estado_cuenta (hoy env) (lit "CSV") [] transacciones contenido),
           self')
        end
      end.

(** [row[col] if col is not None and col < len(row) else default] *)
Definition celda (row : list valor) (col : option nat) (default : valor) : valor :=
    match col with
    | Some i => match nth_error row i with Some v => v | None => default end
    | None => default
    end.

(** The body of the [try] of [_importar_excel] on one row:
    the transaction to append, if any, or the exception. *)
Definition fila_excel (cols : list (option nat)) (row : list valor)
    : resultado (option TransaccionBancaria) :=
    let col i := nth i cols None in
    if negb (existsb truthy row) then Ok None
    else
      let fecha_val := celda row (col 0) VNone in
      let desc_val := celda row (col 1) (VStr []) in
      let cargo_val := celda row (col 2) (VInt 0) in
      let abono_val := celda row (col 3) (VInt 0) in
      let saldo_val := celda row (col 4) VNone in
      let ref_val := celda row (col 5) (VStr []) in
      match _parsear_fecha fecha_val with
      | None => Ok None
      | Some fecha =>
        bind (_parsear_monto cargo_val) (fun cargo =>
        bind (_parsear_monto abono_val) (fun abono =>
        bind (if truthy saldo_val
              then bind (_parsear_monto saldo_val) (fun s => Ok (Some s))
              else Ok None) (fun saldo =>
        let descripcion := if truthy desc_val then py_str desc_val else [] in
        let categoria := ParserBancarioMX.categorizar_transaccion descripcion in
        Ok (Some (transaccion fecha descripcion
                    (if truthy ref_val then py_str ref_val else [])
                    cargo abono saldo (strip descripcion) categoria
                    (ParserBancarioMX.extraer_rfc descripcion))))))
      end.

Fixpoint filas_excel (cols : list (option nat)) (rows : list (list valor))
      (transacciones : list TransaccionBancaria)
    : metodo (list TransaccionBancaria) :=
    fun self =>
      match rows with
      | [] => (Ok transacciones, self)
      | row :: rows' =>
        match fila_excel cols row with
        | Ok (Some trans) => filas_excel cols rows' (transacciones ++ [trans]) self
        | Ok None => filas_excel cols rows' transacciones self
        | Raise e =>
          filas_excel cols rows' transacciones
            (errores_append (lit "Error en fila: " ++ exc_msg e) self)
        end
      end.

Definition sin_openpyxl : excepcion :=
    mkExc ImportError (lit "openpyxl no está instalado. Instalar con: pip install openpyxl").

Definition sin_pypdf2 : excepcion :=
    mkExc ImportError (lit "PyPDF2 no está instalado. Instalar con: pip install PyPDF2").

Definition _importar_excel (archivo : list N) : metodo EstadoCuentaImportado :=
    fun self =>
      if negb (EXCEL_SUPPORT env) then (Raise sin_openpyxl, self)
      else
        match load_workbook env archivo with
        | Raise e => (Raise e, self)
        | Ok hoja =>
          let headers :=
            map (fun v => if truthy v then lower (py_str v) else [])
                (match hoja with r1 :: _ => r1 | [] => [] end) in
          let cols :=
            [ _encontrar_columna headers [lit "fecha"; lit "date"; lit "f"];
              _encontrar_columna headers
                [lit "descripcion"; lit "concepto"; lit "description"; lit "detalle"];
              _encontrar_columna headers
                [lit "cargo"; lit "debito"; lit "debit"; lit "egreso"; lit "retiro"];
              _encontrar_columna headers
                [lit "abono"; lit "credito"; lit "credit"; lit "ingreso"; lit "deposito"];
              _encontrar_columna headers [lit "saldo"; lit "balance"];
              _encontrar_columna headers
                [lit "referencia"; lit "ref"; lit "numero"; lit "folio"] ] in
          match filas_excel cols (tl hoja) [] self with
          | (Raise e, self') => (Raise e, self')
          | (Ok transacciones, self') =>
            (Ok (_construir_estado_cuenta (hoy env) (lit "EXCEL") [] transacciones []),
             self')
          end
        end.

Definition _importar_pdf (archivo : list N) (nombre_archivo : str)
    : metodo EstadoCuentaImportado :=
    fun self =>
      if negb (PDF_SUPPORT env) then (Raise sin_pypdf2, self)
      else
        match pdf_paginas env archivo with
        | Raise e => (Raise e, self)
        | Ok paginas =>
          let texto_completo := flat_map (fun pagina => pagina ++ [10%N]) paginas in
          let banco := ParserBancarioMX.detectar_banco texto_completo in
          let transacciones :=
            if str_eqb banco (lit "BBVA") then _parsear_bbva texto_completo
            else if str_eqb banco (lit "SANTANDER") then _parsear_santander texto_completo
            else if str_eqb banco (lit "BANORTE") then _parsear_banorte texto_completo
            else _parsear_generico texto_completo in
          (Ok (_construir_estado_cuenta (hoy env) banco (_extraer_cuenta texto_completo)
                 transacciones texto_completo),
           self)
        end.

Definition tipo_no_soportado (tipo_archivo : str) : excepcion :=
    mkExc ValueError (lit "Tipo de archivo no soportado: " ++ tipo_archivo).

(** [importar]. *)
Definition importar (archivo : list N) (tipo_archivo nombre_archivo : str)
    : metodo EstadoCuentaImportado :=
    let tipo_lower := lower tipo_archivo in
    if str_eqb tipo_lower (lit "pdf") then _importar_pdf archivo nombre_archivo
    else if str_eqb tipo_lower (lit "csv") then _importar_csv archivo
    else if existsb (str_eqb tipo_lower) [lit "excel"; lit "xlsx"; lit "xls"]
         then _importar_excel archivo
    else lanzar (tipo_no_soportado tipo_archivo).

End Metodos.

End ImportadorEstadoCuenta.

(* ================================================================== *)
(** * A concrete environment, to run the importer on files *)
(* ================================================================== *)

Module Ejemplos.
Import Texto Py Valores Modelo ImportadorEstadoCuenta.

(** [linea.split(delim)]. *)
Fixpoint split_aux (delim : N) (cur : str) (s : str) : list str :=
  match s with
  | [] => [rev cur]
  | c :: s' =>
    if N.eqb c delim then rev cur :: split_aux delim [] s'
    else split_aux delim (c :: cur) s'
  end.

(** One row of a [DictReader]: the fields paired with the header names;
    a short row is completed with [None], a long row keeps its surplus
    under the key [None]. *)
Fixpoint emparejar (nombres : list str) (valores : list str) : fila_csv :=
  match nombres, valores with
  | [], [] => mkFila [] false
  | [], _ :: _ => mkFila [] true
  | n :: ns, [] =>
    let r := emparejar ns [] in mkFila ((n, None) :: campos r) (resto r)
  | n :: ns, v :: vs =>
    let r := emparejar ns vs in mkFila ((n, Some v) :: campos r) (resto r)
  end.

(** The fields of one line for [csv.reader]: none for an empty line. *)
Definition campos_de (delimiter : N) (linea : str) : list str :=
  match linea with
  | [] => []
  | _ => split_aux delimiter [] linea
  end.

(** [csv.DictReader] on a text without quotes and carriage returns: the
    first line holds the field names, and the rows without fields (the
    empty lines) are skipped. *)
Definition lector_simple (contenido : str) (delimiter : N) : list fila_csv :=
  match split_lines contenido with
  | [] => []
  | cabecera :: lineas =>
    map (emparejar (campos_de delimiter cabecera))
        (filter (fun campos => match campos with [] => false | _ => true end)
                (map (campos_de delimiter) lineas))
  end.

(** A runtime without PyPDF2, with openpyxl, in which every workbook
    has one sheet holding [hoja]; the bytes of a CSV file are ASCII. *)
Definition entorno_de (hoja : list (list valor)) : entorno :=
  mkEntorno false true
            (fun _ => Ok [])
            (fun _ => Ok hoja)
            (fun bs => Ok (utf8 (List.length bs) bs))
            lector_simple
            (Fecha.mkDate 2024 3 31).

Definition env0 : entorno := entorno_de [].

(** The bytes of an ASCII text. *)
Definition archivo_de (s : string) : list N := bytes_of_string s.

Definition nl : string := String (ascii_of_nat 10) EmptyString.

(** A statement with one row that has a field more than the header. *)
Definition csv_fila_larga : list N :=
  archivo_de ("fecha,descripcion,cargo,abono" ++ nl
              ++ "01/03/2024,Pago proveedor ABC,1500.00,0,extra" ++ nl).

(** A well-formed statement of one row. *)
Definition csv_limpio : list N :=
  archivo_de ("fecha,descripcion,cargo,abono" ++ nl
              ++ "05/03/2024,Deposito cliente,0,3000.00" ++ nl).

(** The end-to-end statement of two rows. *)
Definition csv_dos_filas : list N :=
  archivo_de ("fecha,descripcion,cargo,abono" ++ nl
              ++ "01/03/2024,Pago proveedor ABC,1500.00,0" ++ nl
              ++ "05/03/2024,Deposito cliente,0,3000.00" ++ nl).

(** A sequence of calls of [importar] on one object: the outcomes, and
    the object after the last call. *)
Definition llamada : Type := (list N * str * str)%type.

Fixpoint importar_todas (env : entorno) (calls : list llamada) (self : importador)
  : list (resultado EstadoCuentaImportado) * importador :=
  match calls with
  | [] => ([], self)
  | (archivo, tipo, nombre) :: calls' =>
    let (r, self') := importar env archivo tipo nombre self in
    let (rs, self'') := importar_todas env calls' self' in
    (r :: rs, self'')
  end.

(** A transaction that reports the balance 500.00 after it. *)
Definition trans_saldo_500 : TransaccionBancaria :=
  Auxiliares.transaccion (Fecha.mkDate 2024 3 1) (lit "Deposito") []
    Dec.zero (Dec.mkDec 10000 (-2)) (Some (Dec.mkDec 50000 (-2))) [] (lit "otros") None.

(** A transaction that reports the balance 0.00 after a charge of 50.00. *)
Definition trans_saldo_cero : TransaccionBancaria :=
  Auxiliares.transaccion (Fecha.mkDate 2024 3 1) (lit "Retiro") []
    (Dec.mkDec 5000 (-2)) Dec.zero (Some (Dec.mkDec 0 (-2))) [] (lit "otros") None.

(** The transaction of the line "cargo 01/03/2024 comision 1,500.00 abono". *)
Definition trans_cargo_abono : TransaccionBancaria :=
  Auxiliares.transaccion (Fecha.mkDate 2024 3 1) (lit "cargoabono") []
    (Dec.mkDec 150000 (-2)) (Dec.mkDec 150000 (-2)) None [] (lit "otros") None.

(** A sheet whose only data row holds a boolean in the column "cargo". *)
Definition hoja_booleana : list (list valor) :=
  [ [VStr (lit "fecha"); VStr (lit "descripcion"); VStr (lit "cargo"); VStr (lit "abono")];
    [VStr (lit "01/03/2024"); VStr (lit "Pago proveedor ABC"); VBool true; VInt 0] ].

(** A sheet with the header row only. *)
Definition hoja_vacia : list (list valor) :=
  [ [VStr (lit "fecha"); VStr (lit "descripcion"); VStr (lit "cargo"); VStr (lit "abono")] ].

(** The error strings a call accumulates by itself: those it leaves on
    a fresh object. *)
Definition propios (env : entorno) (c : llamada) : list str :=
  let '(archivo, tipo, nombre) := c in
  errores (snd (importar env archivo tipo nombre nuevo)).

End Ejemplos.

(* ================================================================== *)
(** * The vocabulary of the specification *)
(* ================================================================== *)

Module Especificacion.
Import Texto Modelo.

(** The RFC shape: 3 or 4 letters (with [&] and [Ñ]), 6 digits, 2 or 3
    capital letters or digits. *)
Definition forma_rfc (w : str) : Prop :=
  exists letras digitos clave,
    w = letras ++ digitos ++ clave /\
    (List.length letras = 3 \/ List.length letras = 4) /\
    Forall (fun c => ParserBancarioMX.rfc_letra c = true) letras /\
    List.length digitos = 6 /\
    Forall (fun c => is_digit c = true) digitos /\
    (List.length clave = 2 \/ List.length clave = 3) /\
    Forall (fun c => ParserBancarioMX.rfc_alnum c = true) clave.

(** "Chronological": a transaction is dated no later than another. *)
Definition antes (t u : TransaccionBancaria) : Prop :=
  Fecha.leb (fecha t) (fecha u) = true.

(** The loop "return the first answer" over a list. *)
Fixpoint first_some {X B : Type} (f : X -> option B) (l : list X) : option B :=
  match l with
  | [] => None
  | x :: l' => match f x with Some b => Some b | None => first_some f l' end
  end.

(** "The first one that succeeds wins": [x] is the first member of [l]
    on which [f] answers, and [b] is its answer. *)
Definition primero {X B : Type} (f : X -> option B) (l : list X) (b : B) : Prop :=
  exists pre x post,
    l = pre ++ x :: post /\ f x = Some b /\ Forall (fun y => f y = None) pre.

(** "Every one fails". *)
Definition ninguno {X B : Type} (f : X -> option B) (l : list X) : Prop :=
  Forall (fun y => f y = None) l.

(** A category "has any pattern matching the lower-cased description". *)
Definition coincide (descripcion : str) (patrones : list Re.regex) : bool :=
  existsb (fun patron => ParserBancarioMX.found patron (lower descripcion)) patrones.

(** The entry of a category answers its name when it coincides. *)
Definition nombre_si_coincide (descripcion : str) (entrada : str * list Re.regex)
  : option str :=
  if coincide descripcion (snd entrada) then Some (fst entrada) else None.

(** The rule of the generic parser for a transaction [t] read from
    [texto]: [t] comes from a line with a match [m] of the pattern, whose
    second group is the amount; with "the rest of the line" the text
    before the match and the text after it, stripped and joined,
    the charge is the amount exactly when the lower-cased rest holds
    "cargo", else zero, and the credit is the amount exactly when it
    holds "abono", else zero. *)
Definition regla_cargo_abono (texto : str) (t : TransaccionBancaria) : Prop :=
  exists linea m monto,
    let resto := lower (ImportadorEstadoCuenta.resto_linea linea m) in
    In linea (split_lines texto) /\
    Re.search ImportadorEstadoCuenta.patron_generico linea = Some m /\
    ImportadorEstadoCuenta.decimal_sin_comas
      (match Re.group linea m 2 with Some x => x | None => [] end) = Some monto /\
    cargo t = (if contains (lit "cargo") resto then monto else Dec.zero) /\
    abono t = (if contains (lit "abono") resto then monto else Dec.zero) /\
    (contains (lit "cargo") resto = true -> contains (lit "abono") resto = true ->
     cargo t = monto /\ abono t = monto) /\
    (contains (lit "cargo") resto = false -> contains (lit "abono") resto = false ->
     cargo t = Dec.zero /\ abono t = Dec.zero).

(** A method that touches its object only by appending to
    [self.errores], and whose outcome and appended strings do not depend
    on what the object held. *)
Definition solo_agrega {A : Type} (f : ImportadorEstadoCuenta.metodo A) : Prop :=
  exists res nuevos,
    forall self,
      f self =
      (res, ImportadorEstadoCuenta.mkImportador
              (ImportadorEstadoCuenta.errores self ++ nuevos)
              (ImportadorEstadoCuenta.transacciones_parsed self)).

End Especificacion.

(* ================================================================== *)
(** * [decimal.Decimal] with its context *)
(* ================================================================== *)

(** The arithmetic of [balance_verificado] as the library performs it in
    the default context: special values, rounding of every result to 28
    significant digits (half to even), and the trapped signals
    [InvalidOperation] and [Overflow], which raise. *)
Module DecPy.

Local Open Scope Z_scope.

(** A [Decimal]: a finite number [(-1)^signo * coef * 10^expo] with
    [0 <= coef], an infinity, or a NaN, quiet or signaling.  The sign and
    the payload of a NaN, which no operation below reads, are left out. *)
Inductive Decimal : Type :=
| Finito (signo : bool) (coef : Z) (expo : Z)
| Infinito (signo : bool)
| NaN (signaling : bool).

(** The signals the default context traps. *)
Inductive senal : Type :=
| InvalidOperation
| Overflow.

Inductive resultado (A : Type) : Type :=
| Ok (a : A)
| Raise (s : senal).

Arguments Ok {A} a.
Arguments Raise {A} s.

Definition bind {A B} (x : resultado A) (f : A -> resultado B) : resultado B :=
  match x with
  | Ok a => f a
  | Raise s => Raise s
  end.

(** The default context: [prec=28], [Emax=999999], [Emin=-999999],
    [rounding=ROUND_HALF_EVEN]. *)
Definition prec : Z := 28.
Definition Emax : Z := 999999.
Definition Emin : Z := -999999.
Definition Etiny : Z := Emin - prec + 1.
Definition Etop : Z := Emax - prec + 1.

(** [len(str(n))] for [0 <= n]. *)
Fixpoint digitos_aux (fuel : nat) (n : Z) : Z :=
  match fuel with
  | O => 1
  | S fuel' => if n <? 10 then 1 else 1 + digitos_aux fuel' (n / 10)
  end.

Definition digitos (n : Z) : Z := digitos_aux (Z.to_nat (Z.log2 n)) n.

(** [Decimal._fix]: the result [(-1)^s * c * 10^e] of an operation is
    rounded to the context. *)
Definition redondear (s : bool) (c e : Z) : resultado Decimal :=
  if c =? 0 then Ok (Finito s 0 (Z.min (Z.max e Etiny) Emax))
  else
    let exp_min := digitos c + e - prec in
    if Etop <? exp_min then Raise Overflow
    else
      let exp_min := Z.max exp_min Etiny in
      if e <? exp_min then
        let k := exp_min - e in
        let q := c / 10 ^ k in
        let r := c mod 10 ^ k in
        let sube := (10 ^ k <? 2 * r) || ((2 * r =? 10 ^ k) && Z.odd q) in
        let q := if sube then q + 1 else q in
        if prec <? digitos q then
          if Etop <? exp_min + 1 then Raise Overflow
          else Ok (Finito s (q / 10) (exp_min + 1))
        else Ok (Finito s q exp_min)
      else Ok (Finito s c e).

Definition con_signo (s : bool) (c : Z) : Z := if s then - c else c.

(** [a + b]. *)
Definition add (a b : Decimal) : resultado Decimal :=
  match a, b with
  | NaN true, _ => Raise InvalidOperation
  | _, NaN true => Raise InvalidOperation
  | NaN false, _ => Ok (NaN false)
  | _, NaN false => Ok (NaN false)
  | Infinito sa, Infinito sb =>
    if Bool.eqb sa sb then Ok (Infinito sa) else Raise InvalidOperation
  | Infinito sa, Finito _ _ _ => Ok (Infinito sa)
  | Finito _ _ _, Infinito sb => Ok (Infinito sb)
  | Finito sa ca ea, Finito sb cb eb =>
    let e := Z.min ea eb in
    let s := con_signo sa ca * 10 ^ (ea - e) + con_signo sb cb * 10 ^ (eb - e) in
    if s =? 0 then redondear ((ca =? 0) && (cb =? 0) && sa && sb) 0 e
    else redondear (s <? 0) (Z.abs s) e
  end.

(** [copy_negate]. *)
Definition negar (a : Decimal) : Decimal :=
  match a with
  | Finito s c e => Finito (negb s) c e
  | Infinito s => Infinito (negb s)
  | NaN q => NaN q
  end.

(** [a - b]. *)
Definition sub (a b : Decimal) : resultado Decimal := add a (negar b).

(** [abs(a)]. *)
Definition abs (a : Decimal) : resultado Decimal :=
  match a with
  | NaN true => Raise InvalidOperation
  | NaN false => Ok (NaN false)
  | Infinito _ => Ok (Infinito false)
  | Finito _ c e => redondear false c e
  end.

(** [a < b]: an ordering comparison signals on every NaN. *)
Definition lt (a b : Decimal) : resultado bool :=
  match a, b with
  | NaN _, _ => Raise InvalidOperation
  | _, NaN _ => Raise InvalidOperation
  | Infinito sa, Infinito sb => Ok (sa && negb sb)
  | Infinito sa, Finito _ _ _ => Ok sa
  | Finito _ _ _, Infinito sb => Ok (negb sb)
  | Finito sa ca ea, Finito sb cb eb =>
    let e := Z.min ea eb in
    Ok (con_signo sa ca * 10 ^ (ea - e) <? con_signo sb cb * 10 ^ (eb - e))
  end.

(** The four amounts of an [EstadoCuentaImportado] that
    [balance_verificado] reads. *)
Record importes := mkImportes {
  saldo_inicial : Decimal;
  total_abonos : Decimal;
  total_cargos : Decimal;
  saldo_final : Decimal
}.

(** [Decimal("0.01")] *)
Definition un_centavo : Decimal := Finito false 1 (-2).

(** The property [balance_verificado]. *)
Definition balance_verificado (self : importes) : resultado bool :=
  bind (add (saldo_inicial self) (total_abonos self)) (fun x =>
  bind (sub x (total_cargos self)) (fun calculado =>
  bind (sub calculado (saldo_final self)) (fun d =>
  bind (abs d) (fun a => lt a un_centavo)))).

(** A finite Decimal of the exact arithmetic, as a [Decimal] of the
    library. *)
Definition de_dec (d : Dec.Decimal) : Decimal :=
  Finito (Dec.coef d <? 0) (Z.abs (Dec.coef d)) (Dec.expo d).

Definition importes_de (e : Modelo.EstadoCuentaImportado) : importes :=
  mkImportes (de_dec (Modelo.saldo_inicial e)) (de_dec (Modelo.total_abonos e))
             (de_dec (Modelo.total_cargos e)) (de_dec (Modelo.saldo_final e)).

(** An exact result that the context leaves as it is: at most 28 digits
    and an exponent within the limits. *)
Definition cabe (d : Dec.Decimal) : bool :=
  (digitos (Z.abs (Dec.coef d)) <=? prec) && (Etiny <=? Dec.expo d)
  && (digitos (Z.abs (Dec.coef d)) + Dec.expo d - prec <=? Etop).

(** The arithmetic of [balance_verificado] is exact on a statement: none
    of its three results is rounded. *)
Definition exacta (e : Modelo.EstadoCuentaImportado) : bool :=
  let x := Dec.add (Modelo.saldo_inicial e) (Modelo.total_abonos e) in
  let calculado := Dec.sub x (Modelo.total_cargos e) in
  cabe x && cabe calculado && cabe (Dec.sub calculado (Modelo.saldo_final e)).

Definition es_nan (d : Decimal) : bool :=
  match d with NaN _ => true | _ => false end.

Definition es_finito (d : Decimal) : bool :=
  match d with Finito _ _ _ => true | _ => false end.

End DecPy.

(** Two statements for [DecPy.balance_verificado]. *)
Module CasosBalance.
Import Texto Modelo.

(** Opening balance 9999999999999999999999999999 (28 digits), credits
    0.4, no charges, closing balance 9999999999999999999999999999.4. *)
Definition estado_28_digitos : EstadoCuentaImportado :=
  mkEstado (lit "CSV") [] (lit "MXN") (Fecha.mkDate 2024 3 1) (Fecha.mkDate 2024 3 31)
           (Dec.mkDec 9999999999999999999999999999 0)
           (Dec.mkDec 99999999999999999999999999994 (-1)) []
           Dec.zero (Dec.mkDec 4 (-1)).

(** Opening balance 1000, credits 500, closing balance 1300, and a NaN
    as total of the charges: the sum of a column that holds the cell
    "NaN". *)
Definition importes_nan : DecPy.importes :=
  DecPy.mkImportes (DecPy.Finito false 1000 0) (DecPy.Finito false 500 0)
                   (DecPy.NaN false) (DecPy.Finito false 1300 0).

End CasosBalance.

(* ================================================================== *)
(** * [TransaccionBancaria.tipo] and [generar_resumen_categorias] *)
(* ================================================================== *)

Module Resumen.
Import Texto Modelo.

(** The property [tipo]. *)
Definition tipo (t : TransaccionBancaria) : str :=
  if Dec.ltb Dec.zero (cargo t) then lit "cargo"
  else if Dec.ltb Dec.zero (abono t) then lit "abono"
  else lit "neutro".

(** The dictionary kept for one category:
    [{"cantidad", "cargos", "abonos", "neto"}]. *)
Record renglon := mkRenglon {
  cantidad : Z;
  cargos : Dec.Decimal;
  abonos : Dec.Decimal;
  neto : Dec.Decimal
}.

(** The entry a category gets when it is first met. *)
Definition renglon_nuevo : renglon := mkRenglon 0 Dec.zero Dec.zero Dec.zero.

(** The four [+=] of the loop body. *)
Definition sumar (r : renglon) (trans : TransaccionBancaria) : renglon :=
  mkRenglon (cantidad r + 1)
            (Dec.add (cargos r) (cargo trans))
            (Dec.add (abonos r) (abono trans))
            (Dec.add (neto r) (monto_neto trans)).

(** One turn of the loop on the dictionary [categorias], kept in
    insertion order: the entry of [cat] is created at the end when it is
    missing, then updated in place. *)
Fixpoint acumular (cat : str) (trans : TransaccionBancaria)
    (categorias : list (str * renglon)) : list (str * renglon) :=
  match categorias with
  | [] => [(cat, sumar renglon_nuevo trans)]
  | (k, r) :: categorias' =>
    if str_eqb k cat then (k, sumar r trans) :: categorias'
    else (k, r) :: acumular cat trans categorias'
  end.

(** [generar_resumen_categorias]. *)
Definition generar_resumen_categorias (estado : EstadoCuentaImportado)
  : list (str * renglon) :=
  fold_left (fun categorias trans => acumular (categoria_sugerida trans) trans categorias)
            (transacciones estado) [].

(** [categorias.get(cat)]. *)
Fixpoint buscar (cat : str) (categorias : list (str * renglon)) : option renglon :=
  match categorias with
  | [] => None
  | (k, r) :: categorias' => if str_eqb k cat then Some r else buscar cat categorias'
  end.

End Resumen.

(* ================================================================== *)
(** * The caller: [importar_estado_cuenta] of [endpoints/advanced.py] *)
(* ================================================================== *)

Module Endpoint.
Import Texto Py Modelo ImportadorEstadoCuenta.

(** The type the endpoint derives from the file name; [None] stands for
    the [HTTPException] 400. *)
Definition tipo_por_nombre (filename : str) : option str :=
  if contains (lit "pdf") (lower filename) then Some (lit "pdf")
  else if contains (lit "csv") (lower filename) then Some (lit "csv")
  else if existsb (fun ext => contains ext (lower filename)) [lit "xlsx"; lit "xls"]
       then Some (lit "excel")
  else None.

(** What the endpoint answers: the error 400 of an unknown file name,
    the error 500 with its detail, or the statement with its summary,
    the transactions it shows and the diagnostics of the importer. *)
Inductive respuesta : Type :=
| Http400 (detail : str)
| Http500 (detail : str)
| Exito (estado : EstadoCuentaImportado)
        (resumen_por_categoria : list (str * Resumen.renglon))
        (mostradas : list TransaccionBancaria)
        (errores_importacion : list str).

(** The endpoint: a fresh importer for every request. *)
Definition importar_estado_cuenta (env : entorno) (contenido : list N) (filename : str)
  : respuesta :=
  match tipo_por_nombre filename with
  | None => Http400 (lit "Tipo de archivo no soportado. Use PDF, CSV o Excel.")
  | Some tipo =>
    match importar env contenido tipo filename nuevo with
    | (Raise e, _) =>
      match exc_clase e with
      | ImportError => Http500 (lit "Error de importación: " ++ exc_msg e)
      | _ => Http500 (lit "Error procesando archivo: " ++ exc_msg e)
      end
    | (Ok estado, importador) =>
      Exito estado (Resumen.generar_resumen_categorias estado)
            (firstn 50 (transacciones estado)) (errores importador)
    end
  end.

End Endpoint.

(* ================================================================== *)
(** * More vocabulary: sums, columns, aliases *)
(* ================================================================== *)

Module Vocabulario.
Import Texto Modelo.

(** The sum of the numbers an amount field denotes over a list of
    transactions. *)
Definition suma_de (campo : TransaccionBancaria -> Dec.Decimal)
    (l : list TransaccionBancaria) : Q :=
  fold_right (fun t q => (Dec.value (campo t) + q)%Q) 0%Q l.


(** The transactions of the category [cat], in the order of the list. *)
Definition de_categoria (cat : str) (l : list TransaccionBancaria)
  : list TransaccionBancaria :=
  filter (fun t => str_eqb cat (categoria_sugerida t)) l.

(** A header name answers to a list of options: one of them occurs in
    its lower-cased form. *)
Definition responde (opciones : list str) (nombre : str) : bool :=
  existsb (fun opcion => contains opcion (lower nombre)) opciones.

(** A row has a column for the options: one of its header names
    answers. *)
Definition tiene_columna (opciones : list str) (row : ImportadorEstadoCuenta.fila_csv)
  : bool :=
  existsb (fun kv => responde opciones (fst kv)) (ImportadorEstadoCuenta.campos row).

(** The five option lists of [_parsear_fila_csv]. *)
Definition op_fecha : list str := [lit "fecha"; lit "date"; lit "f"].
Definition op_desc : list str := [lit "descripcion"; lit "concepto"; lit "description"].
Definition op_cargo : list str := [lit "cargo"; lit "debito"; lit "debit"].
Definition op_abono : list str := [lit "abono"; lit "credito"; lit "credit"].
Definition op_saldo : list str := [lit "saldo"; lit "balance"].

Definition tiene_las_cinco (row : ImportadorEstadoCuenta.fila_csv) : bool :=
  tiene_columna op_fecha row && tiene_columna op_desc row
  && tiene_columna op_cargo row && tiene_columna op_abono row
  && tiene_columna op_saldo row.

(** A bank answers its name when one of its aliases occurs in the
    lower-cased content. *)
Definition banco_si_aparece (contenido : str) (entrada : str * list str) : option str :=
  if existsb (fun patron => contains patron (lower contenido)) (snd entrada)
  then Some (fst entrada) else None.

(** The sum of one field over the entries of a summary. *)
Definition suma_renglones (campo : Resumen.renglon -> Dec.Decimal)
    (categorias : list (str * Resumen.renglon)) : Q :=
  fold_right (fun kr q => (Dec.value (campo (snd kr)) + q)%Q) 0%Q categorias.

Definition suma_cantidades (categorias : list (str * Resumen.renglon)) : Z :=
  fold_right (fun kr z => (Resumen.cantidad (snd kr) + z)%Z) 0%Z categorias.

(** A row that cannot be read: it has surplus fields and its header
    lacks one of the five columns. *)
Definition fila_defectuosa (row : ImportadorEstadoCuenta.fila_csv) : bool :=
  ImportadorEstadoCuenta.resto row && negb (tiene_las_cinco row).

(** The one diagnostic of a CSV import. *)
Definition error_fila_csv : str :=
  lit "Error parseando fila: 'NoneType' object has no attribute 'lower'".

(** The header names [_importar_excel] reads from the first row of a
    sheet. *)
Definition cabeceras (hoja : list (list Valores.valor)) : list str :=
  map (fun v => if Valores.truthy v then lower (Valores.py_str v) else [])
      (match hoja with r1 :: _ => r1 | [] => [] end).

(** The text [_importar_pdf] builds from the pages. *)
Definition texto_de (paginas : list str) : str :=
  flat_map (fun pagina => pagina ++ [10%N]) paginas.

(** The statement without transactions. *)
Definition estado_vacio (hoy : Fecha.date) (banco cuenta : str) : EstadoCuentaImportado :=
  mkEstado banco cuenta (lit "MXN") hoy hoy Dec.zero Dec.zero [] Dec.zero Dec.zero.

(** The delimiters [_importar_csv] chooses from, in its order. *)
Definition delimitadores : list N := [44%N; 59%N; 9%N; 124%N].

(** The date is a calendar day. *)
Definition fecha_valida (d : Fecha.date) : Prop :=
  Fecha.valid (Fecha.anio d) (Fecha.mes d) (Fecha.dia d) = true.

End Vocabulario.

(* ================================================================== *)
(** * What the text adapters read, and the amount cells of a sheet *)
(* ================================================================== *)

Module Lecturas.
Import Texto Py Valores Modelo Auxiliares ImportadorEstadoCuenta Vocabulario.

(** The transactions of the rows of a CSV file, in the order of the
    rows. *)
Definition transacciones_de_filas (rows : list fila_csv) : list TransaccionBancaria :=
  flat_map (fun row => match _parsear_fila_csv row with
                       | Ok (Some trans) => [trans]
                       | _ => []
                       end) rows.







End Lecturas.

(** Splitting a conjunction into its parts, and closing a closed goal by
    evaluation. *)
Ltac partes := repeat match goal with |- _ /\ _ => split end.
Ltac calcular := vm_compute; reflexivity.

(* ================================================================== *)
(** * Properties of the matcher *)
(* ================================================================== *)

Section MatcherFacts.
  Import Texto Re.
Variable A : Type.

(** What it means for a matcher to find only words of [P]. *)
Definition sound_for (P : str -> Prop) (mr : matcher A) : Prop :=
    forall s pos g (k : cont A) x,
      mr s pos g k = Some x ->
      exists w s' g', s = w ++ s' /\ P w /\ k s' (pos + List.length w) g' = Some x.

Lemma orelse_some (x y : option A) (v : A) :
    orelse x y = Some v -> x = Some v \/ y = Some v.
  Proof. destruct x; simpl; auto. Qed.

Lemma iter_app (P : str -> Prop) (n m : nat) (w1 w2 : str) :
    iter P n w1 -> iter P m w2 -> iter P (n + m) (w1 ++ w2).
  Proof.
    revert w1. induction n as [|n IH]; simpl; intros w1 H1 H2.
    - subst w1. exact H2.
    - destruct H1 as (u & v & -> & Hu & Hv).
      exists u, (v ++ w2). rewrite app_assoc. auto.
  Qed.

Lemma rep_req_sound (P : str -> Prop) (mr : matcher A) (n : nat) :
    sound_for P mr -> sound_for (iter P n) (rep_req mr n).
  Proof.
    intros Hmr. induction n as [|n IH]; intros s pos g k x H; simpl in H.
    - exists [], s, g. simpl. rewrite Nat.add_0_r. auto.
    - apply Hmr in H. destruct H as (w1 & s1 & g1 & -> & Hw1 & H).
      apply IH in H. destruct H as (w2 & s2 & g2 & -> & Hw2 & H).
      exists (w1 ++ w2), s2, g2. rewrite <- app_assoc, length_app, Nat.add_assoc.
      repeat split; auto. simpl. exists w1, w2. auto.
  Qed.

Lemma rep_opt_sound (P : str -> Prop) (mr : matcher A) (greedy : bool) (n : nat) :
    sound_for P mr ->
    sound_for (fun w => exists j, j <= n /\ iter P j w) (rep_opt mr greedy n).
  Proof.
    intros Hmr. induction n as [|n IH]; intros s pos g k x H; simpl in H.
    - exists [], s, g. simpl. rewrite Nat.add_0_r. repeat split; auto.
      exists 0. simpl. auto.
    - assert (Hcases :
        k s pos g = Some x \/
        mr s pos g (fun s' p' g' =>
          if Nat.eqb p' pos then None else rep_opt mr greedy n s' p' g' k) = Some x).
      { destruct greedy; apply orelse_some in H; tauto. }
      clear H. destruct Hcases as [H | H].
      + exists [], s, g. simpl. rewrite Nat.add_0_r. repeat split; auto.
        exists 0. simpl. split; [lia | auto].
      + apply Hmr in H. destruct H as (w1 & s1 & g1 & -> & Hw1 & H).
        destruct (Nat.eqb (pos + List.length w1) pos); [discriminate|].
        apply IH in H. destruct H as (w2 & s2 & g2 & -> & (j & Hj & Hw2) & H).
        exists (w1 ++ w2), s2, g2. rewrite <- app_assoc, length_app, Nat.add_assoc.
        repeat split; auto. exists (S j). split; [lia|].
        simpl. exists w1, w2. auto.
  Qed.

(** Whatever the matcher consumes is a word of the pattern. *)
Lemma run_sound (r : regex) : sound_for (matches r) (run (A := A) r).
  Proof.
    induction r as [| p | r1 IH1 r2 IH2 | r1 IH1 r2 IH2 | greedy lo hi r1 IH1 | i r1 IH1];
      intros s pos g k x H; simpl in H.
    - exists [], s, g. simpl. rewrite Nat.add_0_r. auto.
    - destruct s as [|c s']; [discriminate|].
      destruct (p c) eqn:Hp; [|discriminate].
      exists [c], s', g. simpl. rewrite Nat.add_1_r. repeat split; auto.
      exists c. auto.
    - apply IH1 in H. destruct H as (w1 & s1 & g1 & -> & Hw1 & H).
      apply IH2 in H. destruct H as (w2 & s2 & g2 & -> & Hw2 & H).
      exists (w1 ++ w2), s2, g2. rewrite <- app_assoc, length_app, Nat.add_assoc.
      repeat split; auto. simpl. exists w1, w2. auto.
    - apply orelse_some in H. destruct H as [H | H].
      + apply IH1 in H. destruct H as (w & s' & g' & -> & Hw & H).
        exists w, s', g'. simpl. auto.
      + apply IH2 in H. destruct H as (w & s' & g' & -> & Hw & H).
        exists w, s', g'. simpl. auto.
    - apply (rep_req_sound lo IH1) in H.
      destruct H as (w1 & s1 & g1 & Hs & Hw1 & H).
      apply (rep_opt_sound greedy _ IH1) in H.
      destruct H as (w2 & s2 & g2 & -> & (j & Hj & Hw2) & H).
      exists (w1 ++ w2), s2, g2. rewrite Hs, <- app_assoc, length_app, Nat.add_assoc.
      repeat split; auto. simpl. exists (lo + j). repeat split.
      + lia.
      + destruct hi as [h|]; [lia | exact I].
      + apply iter_app; assumption.
    - apply IH1 in H. destruct H as (w & s' & g' & -> & Hw & H).
      exists w, s', ((i, (pos, pos + List.length w)) :: g'). simpl. auto.
  Qed.
End MatcherFacts.

Section SearchFacts.
  Import Texto Re.

Lemma firstn_length_app (a b : str) : firstn (List.length a) (a ++ b) = a.
  Proof. induction a as [|c a IH]; simpl; [destruct b|rewrite IH]; reflexivity. Qed.

Lemma skipn_length_app (a b : str) : skipn (List.length a) (a ++ b) = b.
  Proof. induction a as [|c a IH]; simpl; auto. Qed.

Lemma slice_middle (pre w post : str) :
    slice (pre ++ w ++ post) (List.length pre) (List.length pre + List.length w) = w.
  Proof.
    unfold slice. rewrite skipn_length_app.
    replace (List.length pre + List.length w - List.length pre) with (List.length w) by lia.
    apply firstn_length_app.
  Qed.

Lemma match_at_sound (r : regex) (s : str) (pos : nat) (m : rmatch) :
    match_at r s pos = Some m ->
    exists w post, s = w ++ post /\ matches r w /\
                   m_start m = pos /\ m_end m = pos + List.length w.
  Proof.
    unfold match_at. intros H. apply run_sound in H.
    destruct H as (w & s' & g' & -> & Hw & H). inversion H; subst; simpl.
    exists w, s'. auto.
  Qed.

Lemma search_from_sound (r : regex) (s : str) :
    forall pos m,
      search_from r s pos = Some m ->
      exists pre w post,
        s = pre ++ w ++ post /\ matches r w /\
        m_start m = pos + List.length pre /\
        m_end m = pos + List.length pre + List.length w.
  Proof.
    induction s as [|c s IH]; intros pos m H; simpl in H.
    - destruct (match_at r [] pos) eqn:E; [|discriminate].
      inversion H; subst. apply match_at_sound in E.
      destruct E as (w & post & Hs & Hw & Hst & Hen).
      exists [], w, post. simpl. rewrite Nat.add_0_r. auto.
    - destruct (match_at r (c :: s) pos) eqn:E.
      + inversion H; subst. apply match_at_sound in E.
        destruct E as (w & post & Hs & Hw & Hst & Hen).
        exists [], w, post. simpl. rewrite Nat.add_0_r. auto.
      + apply IH in H. destruct H as (pre & w & post & -> & Hw & Hst & Hen).
        exists (c :: pre), w, post. simpl. repeat split; auto; lia.
  Qed.

(** What [re.search] finds is a piece of the text that belongs to the
    language of the pattern, and [group()] is that piece. *)
Lemma search_sound (r : regex) (s : str) (m : rmatch) :
    search r s = Some m ->
    exists pre post,
      s = pre ++ group0 s m ++ post /\ matches r (group0 s m) /\
      m_start m = List.length pre /\
      m_end m = List.length pre + List.length (group0 s m).
  Proof.
    unfold search. intros H. apply search_from_sound in H.
    destruct H as (pre & w & post & Hs & Hw & Hst & Hen). simpl in Hst, Hen.
    assert (Hg : group0 s m = w).
    { unfold group0. rewrite Hst, Hen, Hs. apply slice_middle. }
    exists pre, post. rewrite Hg. auto.
  Qed.

(** [re.search] answers the leftmost position that has a match: every
  earlier position has none. *)
Lemma search_from_leftmost (r : regex) (s : str) :
  forall pos m,
    search_from r s pos = Some m ->
    pos <= m_start m /\
    forall i, i < m_start m - pos -> match_at r (skipn i s) (pos + i) = None.
Proof.
  induction s as [|c s IH]; intros pos m H; simpl in H.
  - destruct (match_at r [] pos) eqn:E; [|discriminate].
    inversion H; subst. apply match_at_sound in E.
    destruct E as (_ & _ & _ & _ & Hst & _). split; [lia|]. intros i Hi. lia.
  - destruct (match_at r (c :: s) pos) eqn:E.
    + inversion H; subst. apply match_at_sound in E.
      destruct E as (_ & _ & _ & _ & Hst & _). split; [lia|]. intros i Hi. lia.
    + apply IH in H. destruct H as [Hle Hno]. split; [lia|].
      intros [|i] Hi; simpl.
      * rewrite Nat.add_0_r. exact E.
      * replace (pos + S i) with (S pos + i) by lia. apply Hno. lia.
Qed.

(** Words of a bounded repetition of one character class. *)
Lemma iter_chr (p : N -> bool) (n : nat) (w : str) :
    iter (matches (Chr p)) n w ->
    List.length w = n /\ Forall (fun c => p c = true) w.
  Proof.
    revert w. induction n as [|n IH]; simpl; intros w H.
    - subst. auto.
    - destruct H as (w1 & w2 & -> & (c & -> & Hc) & H2).
      apply IH in H2. destruct H2 as [Hl Hf]. simpl. split; [lia | auto].
  Qed.

Lemma matches_rep_chr (greedy : bool) (lo hi : nat) (p : N -> bool) (w : str) :
    matches (Rep greedy lo (Some hi) (Chr p)) w ->
    lo <= List.length w <= Nat.max lo hi /\ Forall (fun c => p c = true) w.
  Proof.
    simpl. intros (n & Hlo & Hhi & Hit). apply iter_chr in Hit.
    destruct Hit as [Hl Hf]. split; [lia | assumption].
  Qed.
End SearchFacts.

(* ================================================================== *)
(** * [ParserBancarioMX.extraer_rfc] *)
(* ================================================================== *)

Section ExtraerRfc.
Import Texto Re ParserBancarioMX Especificacion.

Lemma patron_rfc_forma (w : str) : matches patron_rfc w -> forma_rfc w.
Proof.
  intros H. change patron_rfc with
    (Seq (rep 3 4 (Chr rfc_letra)) (Seq (rep 6 6 (Chr is_digit)) (rep 2 3 (Chr rfc_alnum)))) in H.
  destruct H as (w1 & w23 & -> & H1 & (w2 & w3 & -> & H2 & H3)).
  apply matches_rep_chr in H1, H2, H3. simpl in H1, H2, H3.
  destruct H1 as [L1 F1], H2 as [L2 F2], H3 as [L3 F3].
  exists w1, w2, w3. repeat split; auto; lia.
Qed.

Lemma forma_rfc_length (w : str) : forma_rfc w -> 11 <= List.length w <= 13.
Proof.
  intros (l & d & a & -> & Hl & _ & Hd & _ & Ha & _).
  rewrite !length_app. lia.
Qed.

(** The 14-character run [ABCD010101AB9X] is not rejected: the answer is
    its first 13 characters. *)
Lemma extraer_rfc_run_of_14 :
  List.length (lit "ABCD010101AB9X") = 14 /\
  Forall (fun c => rfc_alnum c = true) (lit "ABCD010101AB9X") /\
  extraer_rfc (lit "ABCD010101AB9X") = Some (lit "ABCD010101AB9").
Proof. partes; [calcular | vm_compute; repeat constructor | calcular]. Qed.

(** C2 (as amended).  [extraer_rfc] answers the leftmost match of the RFC
    pattern in the upper-cased text when that match has 12 or 13
    characters, and [None] when there is no match or the leftmost match
    has 11 characters; the answer has the RFC shape and is a piece of the
    upper-cased text.  A match never exceeds 13 characters, so a longer
    run is cut, not rejected: the text "Pago a ABC010101AB9 por
    servicios" gives "ABC010101AB9", and the 14-character run
    "ABCD010101AB9X" gives "ABCD010101AB9". *)
Theorem extraer_rfc_spec :
  (forall texto : str,
     match extraer_rfc texto with
     | Some rfc =>
       (List.length rfc = 12 \/ List.length rfc = 13) /\
       forma_rfc rfc /\
       (exists m, search patron_rfc (upper texto) = Some m /\
                  rfc = group0 (upper texto) m) /\
       (exists pre post, upper texto = pre ++ rfc ++ post)
     | None =>
       match search patron_rfc (upper texto) with
       | Some m => List.length (group0 (upper texto) m) = 11
       | None => True
       end
     end) /\
  extraer_rfc (lit "Pago a ABC010101AB9 por servicios") = Some (lit "ABC010101AB9") /\
  extraer_rfc (lit "ABCD010101AB9X") = Some (lit "ABCD010101AB9").
Proof.
  split; [|split; vm_compute; reflexivity].
  intros texto. unfold extraer_rfc.
  destruct (search patron_rfc (upper texto)) as [m|] eqn:E; [|exact I].
  pose proof (search_sound _ _ E) as (pre & post & Hs & Hm & _ & _).
  pose proof (forma_rfc_length (patron_rfc_forma Hm)) as Hlen.
  destruct (Nat.eqb (List.length (group0 (upper texto) m)) 12
            || Nat.eqb (List.length (group0 (upper texto) m)) 13) eqn:Hb.
  - apply orb_true_iff in Hb. rewrite !Nat.eqb_eq in Hb.
    repeat split.
    + exact Hb.
    + apply patron_rfc_forma, Hm.
    + exists m. auto.
    + exists pre, post. exact Hs.
  - apply orb_false_iff in Hb. rewrite !Nat.eqb_neq in Hb. lia.
Qed.
End ExtraerRfc.

(* ================================================================== *)
(** * Decimal arithmetic and the numbers it denotes *)
(* ================================================================== *)

Section DecimalFacts.
Import Dec.
Local Open Scope Q_scope.

Lemma diez_pos (e : Z) : 0 < diez ^ e.
Proof. apply Qpower_0_lt. reflexivity. Qed.

Lemma value_align (d : Decimal) (e : Z) :
  (e <= expo d)%Z -> value d == inject_Z (align d e) * diez ^ e.
Proof.
  intros He. unfold value, align.
  rewrite inject_Z_mult.
  rewrite (Zpower_Qpower 10 (expo d - e)) by lia.
  change (inject_Z 10) with diez.
  rewrite <- Qmult_assoc, <- Qpower_plus by discriminate.
  replace (expo d - e + e)%Z with (expo d) by lia. reflexivity.
Qed.

Lemma value_add (a b : Decimal) : value (add a b) == value a + value b.
Proof.
  set (e := Z.min (expo a) (expo b)).
  rewrite (@value_align a e), (@value_align b e) by (subst e; lia).
  unfold add. fold e. unfold value at 1. cbn [coef expo].
  rewrite inject_Z_plus. ring.
Qed.

Lemma value_neg (a : Decimal) : value (neg a) == - value a.
Proof. unfold value, neg; cbn [coef expo]. rewrite inject_Z_opp. ring. Qed.

Lemma value_sub (a b : Decimal) : value (sub a b) == value a - value b.
Proof. unfold sub. rewrite value_add, value_neg. ring. Qed.

Lemma value_abs (a : Decimal) : value (abs a) == Qabs (value a).
Proof.
  unfold value, abs; cbn [coef expo]. rewrite Qabs_Qmult.
  rewrite (Qabs_pos (diez ^ expo a)) by (apply Qlt_le_weak, diez_pos).
  apply Qmult_comp; [|reflexivity].
  unfold Qabs, inject_Z. reflexivity.
Qed.

Lemma ltb_value (a b : Decimal) : ltb a b = true <-> value a < value b.
Proof.
  set (e := Z.min (expo a) (expo b)).
  rewrite (@value_align a e), (@value_align b e) by (subst e; lia).
  unfold ltb. fold e. rewrite Z.ltb_lt, Zlt_Qlt.
  split; intros H.
  - apply Qmult_lt_compat_r; [apply diez_pos | exact H].
  - apply Qmult_lt_r in H; [exact H | apply diez_pos].
Qed.
End DecimalFacts.

Section Sumas.
Import Dec.
Local Open Scope Q_scope.

Lemma value_fold_add (ds : list Decimal) (acc : Decimal) :
  value (fold_left add ds acc) == value acc + fold_right (fun d q => value d + q) 0 ds.
Proof.
  revert acc. induction ds as [|d ds IH]; intros acc; simpl.
  - ring.
  - rewrite IH, value_add. ring.
Qed.

(** [sum] denotes the sum of the numbers. *)
Lemma value_sum (ds : list Decimal) :
  value (sum ds) == fold_right (fun d q => value d + q) 0 ds.
Proof.
  unfold sum. rewrite value_fold_add.
  assert (H : value zero == 0) by reflexivity. rewrite H. ring.
Qed.
End Sumas.

(* ================================================================== *)
(** * [EstadoCuentaImportado.balance_verificado] *)
(* ================================================================== *)

Section BalanceContexto.
Import Texto Modelo.
Local Open Scope Z_scope.

Lemma con_signo_de (c : Z) : DecPy.con_signo (c <? 0) (Z.abs c) = c.
Proof. unfold DecPy.con_signo. destruct (Z.ltb_spec c 0); lia. Qed.

Lemma con_signo_negar (c : Z) : DecPy.con_signo (negb (c <? 0)) (Z.abs c) = - c.
Proof. unfold DecPy.con_signo. destruct (Z.ltb_spec c 0); simpl; lia. Qed.

(** A result that fits is not rounded. *)
Lemma redondear_cabe (s : bool) (z e : Z) :
  DecPy.cabe (Dec.mkDec z e) = true ->
  DecPy.redondear s (Z.abs z) e = DecPy.Ok (DecPy.Finito s (Z.abs z) e).
Proof.
  unfold DecPy.cabe, DecPy.redondear. cbn [Dec.coef Dec.expo]. intros H.
  apply andb_prop in H. destruct H as [H H3]. apply andb_prop in H. destruct H as [H1 H2].
  apply Z.leb_le in H1, H2, H3.
  destruct (Z.eqb_spec (Z.abs z) 0) as [E|E].
  - rewrite E in *. f_equal. f_equal.
    change (DecPy.digitos 0) with 1 in H3.
    unfold DecPy.Etop, DecPy.Emax, DecPy.prec, DecPy.Etiny, DecPy.Emin in *. lia.
  - cbv zeta.
    destruct (Z.ltb_spec DecPy.Etop (DecPy.digitos (Z.abs z) + e - DecPy.prec)); [lia|].
    destruct (Z.ltb_spec e (Z.max (DecPy.digitos (Z.abs z) + e - DecPy.prec) DecPy.Etiny));
      [lia | reflexivity].
Qed.

(** The sum of the library on two finite numbers is the exact sum when
    the exact sum fits. *)
Lemma add_exacta (sa : bool) (ca ea : Z) (sb : bool) (cb eb : Z) :
  (ca = 0 -> sa = false) ->
  DecPy.cabe (Dec.add (Dec.mkDec (DecPy.con_signo sa ca) ea)
                      (Dec.mkDec (DecPy.con_signo sb cb) eb)) = true ->
  DecPy.add (DecPy.Finito sa ca ea) (DecPy.Finito sb cb eb)
  = DecPy.Ok (DecPy.de_dec (Dec.add (Dec.mkDec (DecPy.con_signo sa ca) ea)
                                    (Dec.mkDec (DecPy.con_signo sb cb) eb))).
Proof.
  intros Hsa Hc. unfold DecPy.add. cbv zeta.
  unfold Dec.add, Dec.align in *. cbn [Dec.coef Dec.expo] in *.
  set (e := Z.min ea eb) in *.
  set (s := DecPy.con_signo sa ca * 10 ^ (ea - e) + DecPy.con_signo sb cb * 10 ^ (eb - e)) in *.
  unfold DecPy.de_dec. cbn [Dec.coef Dec.expo].
  pose proof (@redondear_cabe (s <? 0) s e Hc) as Hr.
  destruct (Z.eqb_spec s 0) as [E|E].
  - rewrite E in *. change (Z.abs 0) with 0 in *. change (0 <? 0) with false in *.
    assert (Hs : (ca =? 0) && (cb =? 0) && sa && sb = false).
    { destruct (Z.eqb_spec ca 0) as [Ea|Ea]; [|reflexivity].
      rewrite (Hsa Ea). destruct (cb =? 0); reflexivity. }
    rewrite Hs. exact Hr.
  - exact Hr.
Qed.

Lemma add_de_dec (a b : Dec.Decimal) :
  DecPy.cabe (Dec.add a b) = true ->
  DecPy.add (DecPy.de_dec a) (DecPy.de_dec b) = DecPy.Ok (DecPy.de_dec (Dec.add a b)).
Proof.
  destruct a as [ca ea], b as [cb eb]. intros H. unfold DecPy.de_dec at 1 2.
  cbn [Dec.coef Dec.expo].
  pose proof (@add_exacta (ca <? 0) (Z.abs ca) ea (cb <? 0) (Z.abs cb) eb) as L.
  rewrite !con_signo_de in L. apply L; [|exact H].
  intros E. destruct (Z.ltb_spec ca 0); [lia | reflexivity].
Qed.

Lemma sub_de_dec (a b : Dec.Decimal) :
  DecPy.cabe (Dec.sub a b) = true ->
  DecPy.sub (DecPy.de_dec a) (DecPy.de_dec b) = DecPy.Ok (DecPy.de_dec (Dec.sub a b)).
Proof.
  destruct a as [ca ea], b as [cb eb]. intros H. unfold DecPy.sub, DecPy.de_dec at 1 2.
  cbn [Dec.coef Dec.expo DecPy.negar].
  pose proof (@add_exacta (ca <? 0) (Z.abs ca) ea (negb (cb <? 0)) (Z.abs cb) eb) as L.
  rewrite con_signo_de, con_signo_negar in L. apply L; [|exact H].
  intros E. destruct (Z.ltb_spec ca 0); [lia | reflexivity].
Qed.

Lemma abs_de_dec (d : Dec.Decimal) :
  DecPy.cabe d = true ->
  DecPy.abs (DecPy.de_dec d) = DecPy.Ok (DecPy.de_dec (Dec.abs d)).
Proof.
  destruct d as [c e]. intros H. unfold DecPy.abs, DecPy.de_dec, Dec.abs.
  cbn [Dec.coef Dec.expo]. rewrite (@redondear_cabe false c e H).
  f_equal. f_equal; [|lia].
  destruct (Z.ltb_spec (Z.abs c) 0); [lia | reflexivity].
Qed.

Lemma lt_de_dec (a b : Dec.Decimal) :
  DecPy.lt (DecPy.de_dec a) (DecPy.de_dec b) = DecPy.Ok (Dec.ltb a b).
Proof.
  destruct a as [ca ea], b as [cb eb]. unfold DecPy.lt, DecPy.de_dec, Dec.ltb, Dec.align.
  cbn [Dec.coef Dec.expo]. rewrite !con_signo_de. reflexivity.
Qed.

(** On a statement whose balance arithmetic is exact, the library
    answers what the exact arithmetic answers. *)
Lemma balance_verificado_de_exacta (e : EstadoCuentaImportado) :
  DecPy.exacta e = true ->
  DecPy.balance_verificado (DecPy.importes_de e) = DecPy.Ok (balance_verificado e).
Proof.
  unfold DecPy.exacta. cbv zeta. intros H.
  apply andb_prop in H. destruct H as [H H3]. apply andb_prop in H. destruct H as [H1 H2].
  unfold DecPy.balance_verificado, DecPy.importes_de, balance_verificado.
  cbn [DecPy.saldo_inicial DecPy.total_abonos DecPy.total_cargos DecPy.saldo_final].
  rewrite (add_de_dec _ _ H1). cbn [DecPy.bind].
  rewrite (sub_de_dec _ _ H2). cbn [DecPy.bind].
  rewrite (sub_de_dec _ _ H3). cbn [DecPy.bind].
  rewrite (abs_de_dec _ H3). cbn [DecPy.bind].
  change DecPy.un_centavo with (DecPy.de_dec un_centavo).
  apply lt_de_dec.
Qed.

(** The exact arithmetic compares the numbers the Decimals denote. *)
Lemma balance_verificado_exacto (e : EstadoCuentaImportado) :
  balance_verificado e = true <->
  (Qabs (Dec.value (saldo_inicial e) + Dec.value (total_abonos e)
         - Dec.value (total_cargos e) - Dec.value (saldo_final e)) < 1 # 100)%Q.
Proof.
  unfold balance_verificado.
  rewrite ltb_value, value_abs, !value_sub, value_add.
  assert (Hc : (Dec.value un_centavo == 1 # 100)%Q) by reflexivity.
  rewrite Hc. reflexivity.
Qed.

(** A NaN among the operands of a sum or a difference comes out as a NaN
    or raises. *)
Lemma add_nan (a b : DecPy.Decimal) :
  DecPy.es_nan a = true \/ DecPy.es_nan b = true ->
  (exists s, DecPy.add a b = DecPy.Raise s) \/
  (exists q, DecPy.add a b = DecPy.Ok (DecPy.NaN q)).
Proof.
  intros [H|H]; destruct a as [sa ca ea|sa|[|]], b as [sb cb eb|sb|[|]];
    try discriminate H; simpl; eauto.
Qed.

Lemma sub_nan (a b : DecPy.Decimal) :
  DecPy.es_nan a = true \/ DecPy.es_nan b = true ->
  (exists s, DecPy.sub a b = DecPy.Raise s) \/
  (exists q, DecPy.sub a b = DecPy.Ok (DecPy.NaN q)).
Proof.
  intros H. unfold DecPy.sub. apply add_nan.
  destruct H as [H|H]; [left; exact H | right]. destruct b; try discriminate H. reflexivity.
Qed.

(** A statement that holds a NaN has no answer: the property raises. *)
Lemma balance_verificado_nan (self : DecPy.importes) :
  DecPy.es_nan (DecPy.saldo_inicial self) = true \/
  DecPy.es_nan (DecPy.total_abonos self) = true \/
  DecPy.es_nan (DecPy.total_cargos self) = true \/
  DecPy.es_nan (DecPy.saldo_final self) = true ->
  exists s, DecPy.balance_verificado self = DecPy.Raise s.
Proof.
  intros H. unfold DecPy.balance_verificado.
  assert (Hfin : forall d, DecPy.es_nan d = true ->
            exists s, DecPy.bind (DecPy.abs d) (fun a => DecPy.lt a DecPy.un_centavo)
                      = DecPy.Raise s).
  { intros [sd cd ed|sd|[|]] Hd; try discriminate Hd; simpl; eauto. }
  assert (H3 : forall c, DecPy.es_nan c = true \/ DecPy.es_nan (DecPy.saldo_final self) = true ->
            exists s, DecPy.bind (DecPy.sub c (DecPy.saldo_final self))
                        (fun d => DecPy.bind (DecPy.abs d)
                                    (fun a => DecPy.lt a DecPy.un_centavo)) = DecPy.Raise s).
  { intros c Hc. destruct (sub_nan _ _ Hc) as [[s E]|[q E]]; rewrite E; cbn [DecPy.bind].
    - eauto.
    - apply Hfin. reflexivity. }
  assert (H2 : forall x, DecPy.es_nan x = true \/ DecPy.es_nan (DecPy.total_cargos self) = true
                         \/ DecPy.es_nan (DecPy.saldo_final self) = true ->
            exists s, DecPy.bind (DecPy.sub x (DecPy.total_cargos self))
                        (fun c => DecPy.bind (DecPy.sub c (DecPy.saldo_final self))
                           (fun d => DecPy.bind (DecPy.abs d)
                                       (fun a => DecPy.lt a DecPy.un_centavo)))
                      = DecPy.Raise s).
  { intros x Hx.
    destruct (DecPy.es_nan x) eqn:Ex; [|destruct (DecPy.es_nan (DecPy.total_cargos self)) eqn:Ec].
    - destruct (@sub_nan x (DecPy.total_cargos self) (or_introl Ex)) as [[s E]|[q E]];
        rewrite E; cbn [DecPy.bind]; [eauto | apply H3; left; reflexivity].
    - destruct (@sub_nan x (DecPy.total_cargos self) (or_intror Ec)) as [[s E]|[q E]];
        rewrite E; cbn [DecPy.bind]; [eauto | apply H3; left; reflexivity].
    - destruct Hx as [Hx|[Hx|Hx]]; try discriminate Hx.
      destruct (DecPy.sub x (DecPy.total_cargos self)) as [c|s]; cbn [DecPy.bind]; [|eauto].
      apply H3. right. exact Hx. }
  destruct (DecPy.es_nan (DecPy.saldo_inicial self)) eqn:E1;
    [|destruct (DecPy.es_nan (DecPy.total_abonos self)) eqn:E2].
  - destruct (@add_nan (DecPy.saldo_inicial self) (DecPy.total_abonos self) (or_introl E1))
      as [[s E]|[q E]]; rewrite E; cbn [DecPy.bind]; [eauto | apply H2; left; reflexivity].
  - destruct (@add_nan (DecPy.saldo_inicial self) (DecPy.total_abonos self) (or_intror E2))
      as [[s E]|[q E]]; rewrite E; cbn [DecPy.bind]; [eauto | apply H2; left; reflexivity].
  - destruct H as [H|[H|H]]; try discriminate H.
    destruct (DecPy.add (DecPy.saldo_inicial self) (DecPy.total_abonos self)) as [x|s];
      cbn [DecPy.bind]; [|eauto].
    apply H2. right. exact H.
Qed.

Lemma redondear_finito (s : bool) (c e : Z) (d : DecPy.Decimal) :
  DecPy.redondear s c e = DecPy.Ok d -> exists s' c' e', d = DecPy.Finito s' c' e'.
Proof.
  unfold DecPy.redondear. cbv zeta.
  repeat match goal with
  | |- context [if ?b then _ else _] => destruct b
  end; intros H; inversion H; eauto.
Qed.

Lemma add_finito (a b d : DecPy.Decimal) :
  DecPy.es_finito a = true -> DecPy.es_finito b = true ->
  DecPy.add a b = DecPy.Ok d -> exists s' c' e', d = DecPy.Finito s' c' e'.
Proof.
  destruct a as [sa ca ea| |]; try discriminate.
  destruct b as [sb cb eb| |]; try discriminate. intros _ _.
  unfold DecPy.add. cbv zeta.
  destruct (_ =? 0); apply redondear_finito.
Qed.

(** A closing balance that the library computes from the other three
    amounts verifies, whatever is rounded on the way: the property
    computes the same expression again. *)
Lemma calculado_verifica (si ta tc x sf : DecPy.Decimal) :
  DecPy.es_finito si = true -> DecPy.es_finito ta = true -> DecPy.es_finito tc = true ->
  DecPy.add si ta = DecPy.Ok x ->
  DecPy.sub x tc = DecPy.Ok sf ->
  DecPy.balance_verificado (DecPy.mkImportes si ta tc sf) = DecPy.Ok true.
Proof.
  intros Hsi Hta Htc Hx Hsf. unfold DecPy.balance_verificado.
  cbn [DecPy.saldo_inicial DecPy.total_abonos DecPy.total_cargos DecPy.saldo_final].
  rewrite Hx. cbn [DecPy.bind]. rewrite Hsf. cbn [DecPy.bind].
  destruct (add_finito _ _ Hsi Hta Hx) as (sx & cx & ex & ->).
  assert (Hntc : DecPy.es_finito (DecPy.negar tc) = true) by (destruct tc; auto).
  destruct (@add_finito (DecPy.Finito sx cx ex) (DecPy.negar tc) sf eq_refl Hntc Hsf)
    as (s & c & e & ->).
  unfold DecPy.sub, DecPy.add. cbn [DecPy.negar]. cbv zeta.
  rewrite Z.min_id, Z.sub_diag. change (10 ^ 0) with 1.
  assert (E0 : DecPy.con_signo s c * 1 + DecPy.con_signo (negb s) c * 1 = 0)
    by (unfold DecPy.con_signo; destruct s; simpl; lia).
  rewrite E0. cbn [Z.eqb].
  unfold DecPy.redondear at 1. cbn [Z.eqb DecPy.bind].
  unfold DecPy.abs, DecPy.redondear. cbn [Z.eqb DecPy.bind].
  unfold DecPy.lt, DecPy.un_centavo. cbv zeta. f_equal.
  apply Z.ltb_lt. unfold DecPy.con_signo. rewrite Z.mul_0_l, Z.mul_1_l.
  apply Z.pow_pos_nonneg; lia.
Qed.

(** C1.  On a statement whose four amounts are finite and whose balance
    arithmetic is exact in the context of the library (no result beyond
    28 digits), [balance_verificado] answers, and answers true exactly
    when |saldo_inicial + total_abonos - total_cargos - saldo_final| <
    0.01.  The statement with opening balance 1000, credits 500, charges
    200 and closing balance 1300 is such a statement and is verified;
    with closing balance 1000 it is not.  On a statement that holds a
    NaN the property raises. *)
Theorem balance_verificado_contexto :
  (forall e : EstadoCuentaImportado,
     DecPy.exacta e = true ->
     exists b : bool,
       DecPy.balance_verificado (DecPy.importes_de e) = DecPy.Ok b /\
       (b = true <->
        (Qabs (Dec.value (saldo_inicial e) + Dec.value (total_abonos e)
               - Dec.value (total_cargos e) - Dec.value (saldo_final e)) < 1 # 100)%Q)) /\
  (forall banco cuenta moneda inicio fin transacciones,
     let e := mkEstado banco cuenta moneda inicio fin
                       (Dec.of_Z 1000) (Dec.of_Z 1300) transacciones
                       (Dec.of_Z 200) (Dec.of_Z 500) in
     DecPy.exacta e = true /\
     DecPy.balance_verificado (DecPy.importes_de e) = DecPy.Ok true) /\
  (forall banco cuenta moneda inicio fin transacciones,
     let e := mkEstado banco cuenta moneda inicio fin
                       (Dec.of_Z 1000) (Dec.of_Z 1000) transacciones
                       (Dec.of_Z 200) (Dec.of_Z 500) in
     DecPy.exacta e = true /\
     DecPy.balance_verificado (DecPy.importes_de e) = DecPy.Ok false) /\
  (forall self : DecPy.importes,
     DecPy.es_nan (DecPy.saldo_inicial self) = true \/
     DecPy.es_nan (DecPy.total_abonos self) = true \/
     DecPy.es_nan (DecPy.total_cargos self) = true \/
     DecPy.es_nan (DecPy.saldo_final self) = true ->
     exists s, DecPy.balance_verificado self = DecPy.Raise s).
Proof.
  split; [|split; [|split]].
  - intros e He. exists (balance_verificado e). split.
    + apply balance_verificado_de_exacta, He.
    + apply balance_verificado_exacto.
  - intros. split; vm_compute; reflexivity.
  - intros. split; vm_compute; reflexivity.
  - apply balance_verificado_nan.
Qed.

(** Beyond 28 digits the equivalence fails.  With opening balance
    9999999999999999999999999999, credits 0.4, no charges and closing
    balance 9999999999999999999999999999.4 the four numbers balance to
    the cent, but the sum of the first two is rounded to 28 digits and
    the property answers false.  With a NaN as total of the charges
    (the sum of a column with the cell "NaN") it raises
    [InvalidOperation]. *)
Lemma balance_verificado_redondeado :
  (Qabs (Dec.value (saldo_inicial CasosBalance.estado_28_digitos)
         + Dec.value (total_abonos CasosBalance.estado_28_digitos)
         - Dec.value (total_cargos CasosBalance.estado_28_digitos)
         - Dec.value (saldo_final CasosBalance.estado_28_digitos)) < 1 # 100)%Q /\
  DecPy.balance_verificado (DecPy.importes_de CasosBalance.estado_28_digitos)
    = DecPy.Ok false /\
  DecPy.exacta CasosBalance.estado_28_digitos = false /\
  DecPy.balance_verificado CasosBalance.importes_nan = DecPy.Raise DecPy.InvalidOperation.
Proof. partes; vm_compute; reflexivity. Qed.
End BalanceContexto.

(* ================================================================== *)
(** * Ordered tables and ordered attempts *)
(* ================================================================== *)

Section Primero.
Import Texto Especificacion.
Variables X B : Type.
Variable f : X -> option B.

Lemma first_some_primero (l : list X) (b : B) :
  first_some f l = Some b <-> primero f l b.
Proof.
  induction l as [|x l IH]; simpl.
  - split; [discriminate|]. intros (pre & y & post & E & _). destruct pre; discriminate.
  - destruct (f x) as [b'|] eqn:Hx.
    + split.
      * intros H. inversion H; subst. exists [], x, l. auto.
      * intros (pre & y & post & E & Hy & Hpre). destruct pre as [|z pre]; simpl in E.
        -- inversion E; subst. congruence.
        -- inversion E; subst. inversion Hpre; subst. congruence.
    + rewrite IH. split.
      * intros (pre & y & post & -> & Hy & Hpre). exists (x :: pre), y, post. auto.
      * intros (pre & y & post & E & Hy & Hpre). destruct pre as [|z pre]; simpl in E.
        -- inversion E; subst. congruence.
        -- inversion E; subst. inversion Hpre; subst. exists pre, y, post. auto.
Qed.

Lemma first_some_ninguno (l : list X) : first_some f l = None <-> ninguno f l.
Proof.
  unfold ninguno. induction l as [|x l IH]; simpl.
  - split; auto.
  - destruct (f x) eqn:Hx.
    + split; [discriminate|]. intros H. inversion H; subst. congruence.
    + rewrite IH. split; intros H; [constructor; auto | inversion H; auto].
Qed.
End Primero.

(* ================================================================== *)
(** * [ImportadorEstadoCuenta._parsear_fecha] *)
(* ================================================================== *)

Section ParsearFecha.
Import Texto Valores Auxiliares Especificacion.

Lemma primer_formato_first_some (s : str) (fmts : list str) :
  primer_formato s fmts = first_some (Fecha.strptime s) fmts.
Proof. induction fmts as [|x l IH]; simpl; [|rewrite IH]; reflexivity. Qed.

Lemma parsear_fecha_texto (s : str) :
  _parsear_fecha (VStr s) =
  if str_eqb (strip s) [] then None else primer_formato (strip s) formatos.
Proof.
  unfold _parsear_fecha. destruct s as [|c s]; [reflexivity|]. reflexivity.
Qed.

Lemma str_eqb_eq (a b : str) : str_eqb a b = true <-> a = b.
Proof.
  unfold str_eqb. destruct (list_eq_dec N.eq_dec a b); split; congruence.
Qed.

(** C7.  On a text, [_parsear_fecha] tries the formats DD/MM/YYYY,
    DD-MM-YYYY, YYYY/MM/DD, YYYY-MM-DD, DD/MM/YY, MM/DD/YYYY and YYYYMMDD
    in this order on the stripped text and answers the date of the first
    one that parses; it answers [None] (no exception) exactly when the
    text is blank or every format fails.  "03/04/2024" is read day first,
    as 3 April 2024. *)
Theorem parsear_fecha_spec :
  map Fecha.parse_format formatos =
    [ [Fecha.DirD; Fecha.DirLit 47; Fecha.DirM; Fecha.DirLit 47; Fecha.DirY4];
      [Fecha.DirD; Fecha.DirLit 45; Fecha.DirM; Fecha.DirLit 45; Fecha.DirY4];
      [Fecha.DirY4; Fecha.DirLit 47; Fecha.DirM; Fecha.DirLit 47; Fecha.DirD];
      [Fecha.DirY4; Fecha.DirLit 45; Fecha.DirM; Fecha.DirLit 45; Fecha.DirD];
      [Fecha.DirD; Fecha.DirLit 47; Fecha.DirM; Fecha.DirLit 47; Fecha.DirY2];
      [Fecha.DirM; Fecha.DirLit 47; Fecha.DirD; Fecha.DirLit 47; Fecha.DirY4];
      [Fecha.DirY4; Fecha.DirM; Fecha.DirD] ] /\
  (forall (s : str) (d : Fecha.date),
     _parsear_fecha (VStr s) = Some d <->
     strip s <> [] /\ primero (Fecha.strptime (strip s)) formatos d) /\
  (forall s : str,
     _parsear_fecha (VStr s) = None <->
     strip s = [] \/ ninguno (Fecha.strptime (strip s)) formatos) /\
  _parsear_fecha (VStr (lit "03/04/2024")) = Some (Fecha.mkDate 2024 4 3) /\
  _parsear_fecha (VStr []) = None /\
  _parsear_fecha (VStr (lit "garbage")) = None.
Proof.
  split; [reflexivity|].
  split; [|split; [|partes; calcular]].
  - intros s d. rewrite parsear_fecha_texto, primer_formato_first_some.
    destruct (str_eqb (strip s) []) eqn:E.
    + apply str_eqb_eq in E. split; [discriminate | tauto].
    + rewrite first_some_primero. split.
      * intros H. split; [|exact H]. intros E'. apply str_eqb_eq in E'. congruence.
      * tauto.
  - intros s. rewrite parsear_fecha_texto, primer_formato_first_some.
    destruct (str_eqb (strip s) []) eqn:E.
    + apply str_eqb_eq in E. tauto.
    + rewrite first_some_ninguno. split; [tauto|].
      intros [E'|H]; [|exact H]. apply str_eqb_eq in E'. congruence.
Qed.
End ParsearFecha.

(* ================================================================== *)
(** * [ParserBancarioMX.categorizar_transaccion] *)
(* ================================================================== *)

Section Categorizar.
Import Texto Re ParserBancarioMX Especificacion.

Lemma first_entry_first_some (descripcion : str) (tabla : list (str * list regex)) :
  first_entry (fun patron => found patron (lower descripcion)) tabla =
  first_some (nombre_si_coincide descripcion) tabla.
Proof.
  induction tabla as [|[k vs] tabla IH]; simpl; [reflexivity|].
  unfold nombre_si_coincide at 1, coincide. simpl.
  destruct (existsb _ vs); [reflexivity | exact IH].
Qed.

(** C8.  [categorizar_transaccion] answers the first category, in the
    order transferencias_internas, proveedores, nominas, impuestos,
    servicios, clientes, financiamiento, that has a pattern found in the
    lower-cased description, and "otros" (the "other" of the
    specification) when no category has one.  "Pago de nómina a empleado"
    is classified as "nominas". *)
Theorem categorizar_transaccion_spec :
  map fst CATEGORIAS =
    [ lit "transferencias_internas"; lit "proveedores"; lit "nominas";
      lit "impuestos"; lit "servicios"; lit "clientes"; lit "financiamiento" ] /\
  (forall descripcion : str,
     primero (nombre_si_coincide descripcion) CATEGORIAS
             (categorizar_transaccion descripcion)
     \/ (ninguno (nombre_si_coincide descripcion) CATEGORIAS /\
         categorizar_transaccion descripcion = lit "otros")) /\
  (forall descripcion categoria : str,
     primero (nombre_si_coincide descripcion) CATEGORIAS categoria <->
     categorizar_transaccion descripcion = categoria /\
     ~ ninguno (nombre_si_coincide descripcion) CATEGORIAS) /\
  categorizar_transaccion (lit "Pago de nómina a empleado") = lit "nominas".
Proof.
  split; [reflexivity|].
  assert (Hcases : forall descripcion,
    (exists c, first_some (nombre_si_coincide descripcion) CATEGORIAS = Some c /\
               categorizar_transaccion descripcion = c) \/
    (first_some (nombre_si_coincide descripcion) CATEGORIAS = None /\
     categorizar_transaccion descripcion = lit "otros")).
  { intros descripcion. unfold categorizar_transaccion.
    rewrite first_entry_first_some.
    destruct (first_some (nombre_si_coincide descripcion) CATEGORIAS) as [c|];
      [left; exists c; auto | right; auto]. }
  split; [|split; [|vm_compute; reflexivity]].
  - intros descripcion. destruct (Hcases descripcion) as [(c & Hc & ->) | [Hn Ho]].
    + left. apply first_some_primero, Hc.
    + right. split; [apply first_some_ninguno, Hn | exact Ho].
  - intros descripcion categoria.
    rewrite <- first_some_primero, <- first_some_ninguno.
    destruct (Hcases descripcion) as [(c & Hc & Heq) | [Hn Ho]].
    + rewrite Hc, Heq. split.
      * intros H. inversion H; subst. split; [reflexivity | discriminate].
      * intros [-> _]. reflexivity.
    + rewrite Hn. split; [discriminate|]. intros [_ H]. contradiction H. reflexivity.
Qed.
End Categorizar.

(* ================================================================== *)
(** * [ImportadorEstadoCuenta._parsear_monto] *)
(* ================================================================== *)

Section ParsearMonto.
Import Texto Py Valores Auxiliares.

(** A text or a missing value never raises. *)
Lemma parsear_monto_texto_no_lanza (s : str) :
  raises (_parsear_monto (VStr s)) = false /\ raises (_parsear_monto VNone) = false.
Proof.
  split; [|reflexivity]. unfold _parsear_monto. simpl is_number. cbv iota.
  destruct (negb (truthy (VStr s))); [reflexivity|].
  match goal with |- raises (match ?x with _ => _ end) = _ => destruct x end; reflexivity.
Qed.

(** The amounts of the specification. *)
Lemma parsear_monto_ejemplos :
  _parsear_monto (VStr (lit "$1,234.56")) = Ok (Dec.mkDec 123456 (-2)) /\
  _parsear_monto (VStr (lit "1234.56")) = Ok (Dec.mkDec 123456 (-2)) /\
  _parsear_monto (VStr (lit "(500.00)")) = Ok (Dec.mkDec (-50000) (-2)) /\
  _parsear_monto (VStr (lit "(1,200.50)")) = Ok (Dec.mkDec (-120050) (-2)) /\
  _parsear_monto (VStr []) = Ok Dec.zero /\
  _parsear_monto VNone = Ok Dec.zero /\
  _parsear_monto (VStr (lit "not-a-number")) = Ok Dec.zero /\
  _parsear_monto (VInt 1500) = Ok (Dec.mkDec 1500 0) /\
  _parsear_monto (VFloat (lit "1234.56")) = Ok (Dec.mkDec 123456 (-2)).
Proof. partes; calcular. Qed.

(** C6 (the failing input).  A [bool] is an [int] for [isinstance], so
    [_parsear_monto(True)] evaluates [Decimal("True")] outside the [try]:
    the call raises [InvalidOperation]. *)
Theorem parsear_monto_bool_lanza :
  is_number (VBool true) = true /\
  py_str (VBool true) = lit "True" /\
  _parsear_monto (VBool true) = Raise Dec.conversion_syntax /\
  _parsear_monto (VBool false) = Raise Dec.conversion_syntax.
Proof. partes; calcular. Qed.
End ParsearMonto.

(* ================================================================== *)
(** * [ImportadorEstadoCuenta._construir_estado_cuenta]: the order *)
(* ================================================================== *)

Section Ordenar.
Import Texto Modelo ImportadorEstadoCuenta Especificacion.

Lemma leb_total (a b : Fecha.date) : Fecha.leb a b = false -> Fecha.leb b a = true.
Proof.
  unfold Fecha.leb. destruct a as [y1 m1 d1], b as [y2 m2 d2]; simpl.
  intros H.
  destruct (Z.ltb_spec y1 y2), (Z.eqb_spec y1 y2), (Z.ltb_spec m1 m2),
    (Z.eqb_spec m1 m2), (Z.leb_spec d1 d2); simpl in H; try discriminate;
  destruct (Z.ltb_spec y2 y1), (Z.eqb_spec y2 y1), (Z.ltb_spec m2 m1),
    (Z.eqb_spec m2 m1), (Z.leb_spec d2 d1); simpl; try reflexivity; lia.
Qed.

Lemma insertar_perm (t : TransaccionBancaria) (l : list TransaccionBancaria) :
  Permutation (t :: l) (insertar t l).
Proof.
  induction l as [|u l IH]; simpl; [reflexivity|].
  destruct (Fecha.leb (fecha t) (fecha u)); [reflexivity|].
  rewrite perm_swap. apply perm_skip, IH.
Qed.

Lemma insertar_sorted (t : TransaccionBancaria) (l : list TransaccionBancaria) :
  Sorted antes l -> Sorted antes (insertar t l).
Proof.
  induction l as [|u l IH]; simpl; intros Hs.
  - repeat constructor.
  - destruct (Fecha.leb (fecha t) (fecha u)) eqn:E.
    + constructor; [exact Hs | constructor; exact E].
    + inversion Hs as [|? ? Hs' Hhd]; subst. constructor; [apply IH, Hs'|].
      destruct l as [|v l]; simpl.
      * constructor. apply leb_total, E.
      * destruct (Fecha.leb (fecha t) (fecha v)).
        -- constructor. apply leb_total, E.
        -- inversion Hhd; subst. constructor. assumption.
Qed.

(** The transactions of a statement are those parsed, by ascending date. *)
Lemma ordenar_sorted_perm (l : list TransaccionBancaria) :
  Sorted antes (ordenar l) /\ Permutation l (ordenar l).
Proof.
  induction l as [|t l [IHs IHp]]; simpl.
  - split; constructor.
  - split; [apply insertar_sorted, IHs|].
    rewrite <- insertar_perm. apply perm_skip, IHp.
Qed.
End Ordenar.


(* ================================================================== *)
(** * [ImportadorEstadoCuenta._construir_estado_cuenta]: the balances *)
(* ================================================================== *)

Section Saldos.
Import Texto Re Modelo ParserBancarioMX Auxiliares ImportadorEstadoCuenta Ejemplos.

(** The order in which the two balances of a non-empty statement are
    resolved: the text, then the balance a transaction reports ([None]
    and zero being taken as absent), then zero for the opening balance
    and the computed balance for the closing one. *)
Lemma construir_saldos (hoy : Fecha.date) (banco cuenta texto : str)
    (t : TransaccionBancaria) (ts : list TransaccionBancaria) :
  let e := _construir_estado_cuenta hoy banco cuenta (t :: ts) texto in
  let ordenadas := ordenar (t :: ts) in
  saldo_inicial e =
    match _extraer_saldo_inicial texto with
    | Some s => s
    | None => o_bien (saldo (hd t ordenadas)) Dec.zero
    end /\
  saldo_final e =
    match _extraer_saldo_final texto with
    | Some s => s
    | None =>
      o_bien (saldo (last ordenadas t))
             (Dec.sub (Dec.add (saldo_inicial e) (total_abonos e)) (total_cargos e))
    end /\
  total_cargos e = Dec.sum (map cargo ordenadas) /\
  total_abonos e = Dec.sum (map abono ordenadas).
Proof. repeat split. Qed.

(** C5 (the failing input).  The labels "saldo al inicio" and "saldo al
    corte" are found in the text, yet nothing is extracted: their patterns
    have one group and the program reads group 2.  The balances come
    from the transaction instead of the text. *)
Theorem saldo_al_inicio_no_extraido :
  found (nth 1 patrones_saldo_inicial Eps) (lit "Saldo al inicio: $1,000.00") = true /\
  _extraer_saldo_inicial (lit "Saldo al inicio: $1,000.00") = None /\
  _extraer_saldo_inicial (lit "Saldo inicial: $1,000.00") = Some (Dec.mkDec 100000 (-2)) /\
  saldo_inicial
    (_construir_estado_cuenta (Fecha.mkDate 2024 3 31) (lit "BBVA") []
       [trans_saldo_500] (lit "Saldo al inicio: $1,000.00")) = Dec.mkDec 50000 (-2) /\
  found (nth 1 patrones_saldo_final Eps) (lit "Saldo al corte: $2,000.00") = true /\
  _extraer_saldo_final (lit "Saldo al corte: $2,000.00") = None /\
  saldo_final
    (_construir_estado_cuenta (Fecha.mkDate 2024 3 31) (lit "BBVA") []
       [trans_saldo_500] (lit "Saldo al corte: $2,000.00")) = Dec.mkDec 50000 (-2).
Proof. partes; calcular. Qed.

(** A reported balance of 0.00 is taken as absent: the closing balance
    is computed. *)
Lemma saldo_cero_es_ausente :
  saldo_final
    (_construir_estado_cuenta (Fecha.mkDate 2024 3 31) (lit "CSV") []
       [trans_saldo_cero] []) = Dec.mkDec (-5000) (-2).
Proof. vm_compute. reflexivity. Qed.
End Saldos.

(* ================================================================== *)
(** * [ImportadorEstadoCuenta._parsear_generico] *)
(* ================================================================== *)

Section Generico.
Import Texto Re Modelo Auxiliares ImportadorEstadoCuenta Ejemplos Especificacion.

Lemma por_lineas_in (f : str -> option TransaccionBancaria) (texto : str)
    (t : TransaccionBancaria) :
  In t (por_lineas f texto) <-> exists linea, In linea (split_lines texto) /\ f linea = Some t.
Proof.
  unfold por_lineas. rewrite in_flat_map. split.
  - intros (linea & Hin & Ht). exists linea. split; [exact Hin|].
    destruct (f linea); simpl in Ht; [|contradiction].
    destruct Ht as [->|[]]. reflexivity.
  - intros (linea & Hin & Ht). exists linea. split; [exact Hin|].
    rewrite Ht. simpl. auto.
Qed.

(** What a line gives when it gives a transaction. *)
Lemma linea_generico_some (linea : str) (t : TransaccionBancaria) :
  linea_generico linea = Some t ->
  exists m fecha monto,
    search patron_generico linea = Some m /\
    decimal_sin_comas (match group linea m 2 with Some x => x | None => [] end)
      = Some monto /\
    t = transaccion fecha (firstn 100 (resto_linea linea m)) []
          (if contains (lit "cargo") (lower (resto_linea linea m)) then monto else Dec.zero)
          (if contains (lit "abono") (lower (resto_linea linea m)) then monto else Dec.zero)
          None [] (lit "otros") None.
Proof.
  unfold linea_generico. intros H.
  destruct (search patron_generico linea) as [m|]; [|discriminate].
  destruct (primer_formato _ formatos_generico) as [fecha|]; [|discriminate].
  destruct (decimal_sin_comas _) as [monto|] eqn:Hm; [|discriminate].
  inversion H. exists m, fecha, monto. auto.
Qed.

(** C9 (as amended).  A transaction of the generic parser comes from a
    line with a match of the date-and-amount pattern; its charge is the
    matched amount exactly when "cargo" occurs in the lower-cased rest of
    the line (the text before the match and the text after it, stripped
    and joined) and zero otherwise, and its credit is the amount exactly
    when "abono" occurs there and zero otherwise.  So a rest that holds
    both words gives charge = credit = amount and a rest that holds
    neither gives charge = credit = 0. *)
Theorem generico_cargo_abono (texto : str) (t : TransaccionBancaria) :
  In t (_parsear_generico texto) -> regla_cargo_abono texto t.
Proof.
  intros Hin. apply por_lineas_in in Hin. destruct Hin as (linea & Hl & Ht).
  apply linea_generico_some in Ht. destruct Ht as (m & fecha & monto & Hs & Hm & ->).
  exists linea, m, monto. cbv zeta. simpl cargo. simpl abono.
  repeat split; auto.
  - rewrite H. reflexivity.
  - rewrite H0. reflexivity.
  - rewrite H. reflexivity.
  - rewrite H0. reflexivity.
Qed.

(** The words before the date and after the amount: both amounts. *)
Lemma generico_cargo_abono_ejemplo :
  In trans_cargo_abono
     (_parsear_generico (lit "cargo 01/03/2024 comision 1,500.00 abono")) /\
  regla_cargo_abono (lit "cargo 01/03/2024 comision 1,500.00 abono") trans_cargo_abono.
Proof.
  split.
  - vm_compute. left. reflexivity.
  - apply (@generico_cargo_abono (lit "cargo 01/03/2024 comision 1,500.00 abono")).
    vm_compute. left. reflexivity.
Defined.

(** A line that holds both words between the date and the amount: the
    match consumes them, the rest of the line is empty, and both amounts
    are zero. *)
Lemma generico_palabras_en_el_match :
  contains (lit "cargo") (lower (lit "01/03/2024 cargo abono 1,500.00")) = true /\
  contains (lit "abono") (lower (lit "01/03/2024 cargo abono 1,500.00")) = true /\
  _parsear_generico (lit "01/03/2024 cargo abono 1,500.00") =
    [ transaccion (Fecha.mkDate 2024 3 1) [] [] Dec.zero Dec.zero None []
        (lit "otros") None ] /\
  Dec.eqb Dec.zero (Dec.mkDec 150000 (-2)) = false.
Proof. partes; calcular. Qed.

(** C10.  Every transaction of the generic parser carries the category
    "otros" (the "other" of the specification), whatever its description:
    the line "factura 01/03/2024 x 5.00" gives the description "factura",
    which the classifier would file under "proveedores". *)
Theorem generico_categoria_otros :
  (forall texto : str,
     Forall (fun t => categoria_sugerida t = lit "otros") (_parsear_generico texto)) /\
  (exists t,
     _parsear_generico (lit "factura 01/03/2024 x 5.00") = [t] /\
     descripcion t = lit "factura" /\
     categoria_sugerida t = lit "otros" /\
     ParserBancarioMX.categorizar_transaccion (descripcion t) = lit "proveedores").
Proof.
  split.
  - intros texto. apply Forall_forall. intros t Hin.
    apply por_lineas_in in Hin. destruct Hin as (linea & _ & Ht).
    apply linea_generico_some in Ht. destruct Ht as (m & fecha & monto & _ & _ & ->).
    reflexivity.
  - eexists. split; [calcular|]. partes; calcular.
Qed.
End Generico.

(* ================================================================== *)
(** * [ImportadorEstadoCuenta.importar]: dispatch and diagnostics *)
(* ================================================================== *)

Section Importar.
Import Texto Py Valores Modelo Auxiliares ImportadorEstadoCuenta Ejemplos Especificacion.

Lemma self_eta (self : importador) :
  self = mkImportador (errores self ++ []) (transacciones_parsed self).
Proof. destruct self; simpl. rewrite app_nil_r. reflexivity. Qed.

Lemma solo_agrega_const {A : Type} (r : resultado A) :
  solo_agrega (fun self => (r, self)).
Proof. exists r, []. intros self. rewrite <- self_eta. reflexivity. Qed.

Lemma filas_csv_solo_agrega (rows : list fila_csv) :
  forall transacciones, solo_agrega (filas_csv rows transacciones).
Proof.
  induction rows as [|row rows IH]; intros transacciones.
  - apply solo_agrega_const.
  - simpl. destruct (_parsear_fila_csv row) as [[trans|]|e].
    + apply IH.
    + apply IH.
    + destruct (IH transacciones) as (res & nuevos & H).
      exists res, ((lit "Error parseando fila: " ++ exc_msg e) :: nuevos).
      intros self. rewrite H. unfold errores_append; simpl.
      rewrite <- app_assoc. reflexivity.
Qed.

Lemma filas_excel_solo_agrega (cols : list (option nat)) (rows : list (list valor)) :
  forall transacciones, solo_agrega (filas_excel cols rows transacciones).
Proof.
  induction rows as [|row rows IH]; intros transacciones.
  - apply solo_agrega_const.
  - simpl. destruct (fila_excel cols row) as [[trans|]|e].
    + apply IH.
    + apply IH.
    + destruct (IH transacciones) as (res & nuevos & H).
      exists res, ((lit "Error en fila: " ++ exc_msg e) :: nuevos).
      intros self. rewrite H. unfold errores_append; simpl.
      rewrite <- app_assoc. reflexivity.
Qed.

Lemma importar_csv_solo_agrega (env : entorno) (archivo : list N) :
  solo_agrega (_importar_csv env archivo).
Proof.
  unfold _importar_csv. destruct (decode_utf8 env archivo) as [contenido|e].
  - destruct (filas_csv_solo_agrega
                (csv_DictReader env contenido (detectar_delimitador contenido)) [])
      as (res & nuevos & H).
    destruct res as [transacciones|e].
    + eexists _, nuevos. intros self. rewrite H. reflexivity.
    + exists (Raise e), nuevos. intros self. rewrite H. reflexivity.
  - apply solo_agrega_const.
Qed.

Lemma importar_excel_solo_agrega (env : entorno) (archivo : list N) :
  solo_agrega (_importar_excel env archivo).
Proof.
  unfold _importar_excel. destruct (negb (EXCEL_SUPPORT env)).
  - apply solo_agrega_const.
  - destruct (load_workbook env archivo) as [hoja|e]; [|apply solo_agrega_const].
    match goal with
    | |- context [filas_excel ?cols ?rows []] =>
      destruct (filas_excel_solo_agrega cols rows []) as (res & nuevos & H)
    end.
    destruct res as [transacciones|e].
    + eexists _, nuevos. intros self. rewrite H. reflexivity.
    + exists (Raise e), nuevos. intros self. rewrite H. reflexivity.
Qed.

Lemma importar_pdf_solo_agrega (env : entorno) (archivo : list N) (nombre : str) :
  solo_agrega (_importar_pdf env archivo nombre).
Proof.
  unfold _importar_pdf. destruct (negb (PDF_SUPPORT env)).
  - apply solo_agrega_const.
  - destruct (pdf_paginas env archivo); apply solo_agrega_const.
Qed.

Lemma importar_solo_agrega (env : entorno) (archivo : list N) (tipo nombre : str) :
  solo_agrega (importar env archivo tipo nombre).
Proof.
  unfold importar.
  destruct (str_eqb (lower tipo) (lit "pdf")); [apply importar_pdf_solo_agrega|].
  destruct (str_eqb (lower tipo) (lit "csv")); [apply importar_csv_solo_agrega|].
  destruct (existsb _ _); [apply importar_excel_solo_agrega|].
  apply solo_agrega_const.
Qed.

Lemma solo_agrega_desde_nuevo {A : Type} (f : metodo A) (self : importador) :
  solo_agrega f ->
  fst (f self) = fst (f nuevo) /\
  errores (snd (f self)) = errores self ++ errores (snd (f nuevo)) /\
  transacciones_parsed (snd (f self)) = transacciones_parsed self.
Proof.
  intros (res & nuevos & H). rewrite (H self), (H nuevo). simpl. auto.
Qed.

Lemma importar_todas_errores (env : entorno) (calls : list llamada) :
  forall self,
    errores (snd (importar_todas env calls self)) =
    errores self ++ flat_map (propios env) calls.
Proof.
  induction calls as [|[[archivo tipo] nombre] calls IH]; intros self; simpl.
  - rewrite app_nil_r. reflexivity.
  - destruct (solo_agrega_desde_nuevo self (importar_solo_agrega env archivo tipo nombre))
      as (_ & He & _).
    destruct (importar env archivo tipo nombre self) as [r self'] eqn:E1.
    specialize (IH self').
    destruct (importar_todas env calls self') as [rs self''] eqn:E2.
    simpl in *. rewrite IH, He, <- app_assoc. reflexivity.
Qed.

(** C3 (as amended).  [self.errores] is created with the object and
    never reset.  A call of [importar] appends the error strings it
    accumulates to those the object already holds, and neither its
    outcome nor the strings it appends depend on them.  After a sequence
    of calls on a fresh object the list holds the strings of every call,
    in call order; it holds exactly the strings of one call after the
    first call on a fresh object. *)
Theorem errores_se_acumulan :
  (forall (env : entorno) (archivo : list N) (tipo nombre : str) (self : importador),
     fst (importar env archivo tipo nombre self)
       = fst (importar env archivo tipo nombre nuevo) /\
     errores (snd (importar env archivo tipo nombre self))
       = errores self ++ propios env (archivo, tipo, nombre)) /\
  (forall (env : entorno) (calls : list llamada),
     errores (snd (importar_todas env calls nuevo)) = flat_map (propios env) calls) /\
  (forall (env : entorno) (c : llamada),
     errores (snd (importar_todas env [c] nuevo)) = propios env c).
Proof.
  split; [|split].
  - intros env archivo tipo nombre self.
    destruct (solo_agrega_desde_nuevo self (importar_solo_agrega env archivo tipo nombre))
      as (Hr & He & _).
    split; [exact Hr | exact He].
  - intros env calls. rewrite importar_todas_errores. reflexivity.
  - intros env c. rewrite importar_todas_errores. simpl. apply app_nil_r.
Qed.

(** On one object, a statement with a faulty row and then a clean one:
    the clean import accumulates no string of its own, yet the list read
    after it holds the string of the earlier call. *)
Lemma errores_de_la_llamada_anterior :
  propios env0 (csv_fila_larga, lit "csv", []) =
    [lit "Error parseando fila: 'NoneType' object has no attribute 'lower'"] /\
  propios env0 (csv_limpio, lit "csv", []) = [] /\
  errores (snd (importar_todas env0
                  [(csv_fila_larga, lit "csv", []); (csv_limpio, lit "csv", [])] nuevo)) =
    [lit "Error parseando fila: 'NoneType' object has no attribute 'lower'"].
Proof. partes; calcular. Qed.

(** C4 (as amended).  [importar] selects by the lower-cased type: "pdf"
    the PDF adapter, "csv" the CSV adapter, and "excel", "xlsx" or "xls"
    the spreadsheet adapter.  For every other value it raises
    [ValueError] "Tipo de archivo no soportado" at once: the outcome is
    the same in every environment (no library is consulted) and the
    object is unchanged. *)
Theorem importar_despacho :
  forall (env : entorno) (archivo : list N) (tipo nombre : str) (self : importador),
    (lower tipo = lit "pdf" /\
     importar env archivo tipo nombre self = _importar_pdf env archivo nombre self) \/
    (lower tipo = lit "csv" /\
     importar env archivo tipo nombre self = _importar_csv env archivo self) \/
    (In (lower tipo) [lit "excel"; lit "xlsx"; lit "xls"] /\
     importar env archivo tipo nombre self = _importar_excel env archivo self) \/
    (~ In (lower tipo) [lit "pdf"; lit "csv"; lit "excel"; lit "xlsx"; lit "xls"] /\
     forall env' : entorno,
       importar env' archivo tipo nombre self = (Raise (tipo_no_soportado tipo), self)).
Proof.
  intros env archivo tipo nombre self. unfold importar.
  destruct (str_eqb (lower tipo) (lit "pdf")) eqn:E1.
  { left. apply str_eqb_eq in E1. auto. }
  destruct (str_eqb (lower tipo) (lit "csv")) eqn:E2.
  { right; left. apply str_eqb_eq in E2. auto. }
  destruct (existsb (str_eqb (lower tipo)) [lit "excel"; lit "xlsx"; lit "xls"]) eqn:E3.
  { right; right; left. split; [|reflexivity].
    apply existsb_exists in E3. destruct E3 as (x & Hin & Hx).
    apply str_eqb_eq in Hx. rewrite Hx. exact Hin. }
  right; right; right. split; [|reflexivity].
  intros Hin.
  assert (Hne : forall x, str_eqb (lower tipo) x = false -> lower tipo <> x).
  { intros x Hx Heq. apply str_eqb_eq in Heq. congruence. }
  simpl in E3. apply orb_false_iff in E3. destruct E3 as [E3 E4].
  apply orb_false_iff in E4. destruct E4 as [E4 E5].
  apply orb_false_iff in E5. destruct E5 as [E5 _].
  apply Hne in E1, E2, E3, E4, E5.
  simpl in Hin. intuition congruence.
Qed.

(** The types "xlsx" and "CSV" are none of "pdf", "csv", "excel", and
    both select an adapter: the import succeeds. *)
Lemma importar_xlsx_y_mayusculas :
  existsb (str_eqb (lit "xlsx")) [lit "pdf"; lit "csv"; lit "excel"] = false /\
  fst (importar (entorno_de hoja_vacia) [] (lit "xlsx") [] nuevo) =
    Ok (mkEstado (lit "EXCEL") [] (lit "MXN") (Fecha.mkDate 2024 3 31)
          (Fecha.mkDate 2024 3 31) Dec.zero Dec.zero [] Dec.zero Dec.zero) /\
  existsb (str_eqb (lit "CSV")) [lit "pdf"; lit "csv"; lit "excel"] = false /\
  (exists e, fst (importar env0 csv_limpio (lit "CSV") [] nuevo) = Ok e /\
             banco e = lit "CSV" /\ List.length (transacciones e) = 1).
Proof.
  split; [calcular|]. split; [calcular|].
  split; [calcular|].
  eexists. split; [calcular|]. split; vm_compute; reflexivity.
Qed.

(** A boolean cell reaches [_parsear_monto] from a spreadsheet: the row
    is lost and its exception becomes a diagnostic. *)
Lemma excel_celda_booleana :
  exists e,
    importar (entorno_de hoja_booleana) [] (lit "excel") [] nuevo =
      (Ok e, mkImportador [lit "Error en fila: [<class 'decimal.ConversionSyntax'>]"] 0) /\
    transacciones e = [].
Proof. eexists. split; vm_compute; reflexivity. Qed.

(** The end-to-end statement of two rows. *)
Lemma importar_csv_dos_filas :
  exists e,
    importar env0 csv_dos_filas (lit "csv") [] nuevo = (Ok e, nuevo) /\
    map categoria_sugerida (transacciones e) = [lit "proveedores"; lit "clientes"] /\
    total_cargos e = Dec.mkDec 150000 (-2) /\
    total_abonos e = Dec.mkDec 300000 (-2) /\
    balance_verificado e = true.
Proof. eexists. split; [calcular|]. partes; calcular. Qed.
End Importar.

(* ================================================================== *)
(** * [_construir_estado_cuenta]: order, period, totals *)
(* ================================================================== *)

Section ConstruirOrden.
Import Texto Modelo Auxiliares ImportadorEstadoCuenta Especificacion Vocabulario.

Lemma leb_iff (a b : Fecha.date) :
  Fecha.leb a b = true <->
  (Fecha.anio a < Fecha.anio b \/
   (Fecha.anio a = Fecha.anio b /\
    (Fecha.mes a < Fecha.mes b \/
     (Fecha.mes a = Fecha.mes b /\ Fecha.dia a <= Fecha.dia b))))%Z.
Proof.
  unfold Fecha.leb.
  rewrite orb_true_iff, andb_true_iff, orb_true_iff, andb_true_iff.
  rewrite !Z.ltb_lt, !Z.eqb_eq, Z.leb_le. tauto.
Qed.


Lemma antes_trans (t u v : TransaccionBancaria) : antes t u -> antes u v -> antes t v.
Proof. unfold antes. rewrite !leb_iff. lia. Qed.

Lemma antes_refl (t : TransaccionBancaria) : antes t t.
Proof. unfold antes. rewrite leb_iff. lia. Qed.

Lemma ordenar_strongly (l : list TransaccionBancaria) : StronglySorted antes (ordenar l).
Proof.
  apply Sorted_StronglySorted.
  - intros t u v. apply antes_trans.
  - apply ordenar_sorted_perm.
Qed.

Lemma strongly_hd (d : TransaccionBancaria) (l : list TransaccionBancaria) (t : TransaccionBancaria) :
  StronglySorted antes l -> In t l -> antes (hd d l) t.
Proof.
  intros Hs Hin. destruct l as [|u l]; [contradiction|]. simpl.
  inversion Hs as [|? ? _ Hall]; subst. destruct Hin as [->|Hin].
  - apply antes_refl.
  - rewrite Forall_forall in Hall. apply Hall, Hin.
Qed.

Lemma strongly_last (d : TransaccionBancaria) (l : list TransaccionBancaria) (t : TransaccionBancaria) :
  StronglySorted antes l -> In t l -> antes t (last l d).
Proof.
  revert t. induction l as [|u l IH]; intros t Hs Hin; [contradiction|].
  inversion Hs as [|? ? Hs' Hall]; subst.
  destruct l as [|v l].
  - destruct Hin as [->|[]]. apply antes_refl.
  - change (last (u :: v :: l) d) with (last (v :: l) d).
    destruct Hin as [->|Hin].
    + rewrite Forall_forall in Hall.
      apply antes_trans with v; [apply Hall; left; reflexivity|].
      apply IH; [exact Hs' | left; reflexivity].
    + apply IH; assumption.
Qed.

Lemma transacciones_construir (hoy : Fecha.date) (banco cuenta texto : str)
    (ts : list TransaccionBancaria) :
  transacciones (_construir_estado_cuenta hoy banco cuenta ts texto) = ordenar ts.
Proof. destruct ts; reflexivity. Qed.

(** X1.  The transactions of a built statement are the transactions
    given, rearranged by ascending date. *)
Theorem construir_ordena (hoy : Fecha.date) (banco cuenta texto : str)
    (ts : list TransaccionBancaria) :
  Sorted antes (transacciones (_construir_estado_cuenta hoy banco cuenta ts texto)) /\
  Permutation ts (transacciones (_construir_estado_cuenta hoy banco cuenta ts texto)).
Proof. rewrite transacciones_construir. apply ordenar_sorted_perm. Qed.

(** X2.  The period of a built statement spans its transactions: each
    one is dated between [fecha_inicio] and [fecha_fin]. *)
Theorem construir_periodo (hoy : Fecha.date) (banco cuenta texto : str)
    (ts : list TransaccionBancaria) (t : TransaccionBancaria) :
  In t ts ->
  Fecha.leb (fecha_inicio (_construir_estado_cuenta hoy banco cuenta ts texto)) (fecha t) = true /\
  Fecha.leb (fecha t) (fecha_fin (_construir_estado_cuenta hoy banco cuenta ts texto)) = true.
Proof.
  intros Hin. destruct ts as [|t0 ts']; [contradiction|].
  assert (Hin' : In t (ordenar (t0 :: ts'))).
  { eapply Permutation_in; [apply ordenar_sorted_perm | exact Hin]. }
  split.
  - apply (@strongly_hd t0 _ t (ordenar_strongly (t0 :: ts')) Hin').
  - apply (@strongly_last t0 _ t (ordenar_strongly (t0 :: ts')) Hin').
Qed.


End ConstruirOrden.

Section ConstruirTotales.
Import Texto Modelo Auxiliares ImportadorEstadoCuenta Especificacion Vocabulario Ejemplos.
Local Open Scope Q_scope.

Lemma suma_de_perm (campo : TransaccionBancaria -> Dec.Decimal)
    (l l' : list TransaccionBancaria) :
  Permutation l l' -> suma_de campo l == suma_de campo l'.
Proof.
  induction 1; simpl.
  - reflexivity.
  - rewrite IHPermutation. reflexivity.
  - ring.
  - rewrite IHPermutation1. exact IHPermutation2.
Qed.

Lemma value_sum_map (campo : TransaccionBancaria -> Dec.Decimal)
    (l : list TransaccionBancaria) :
  Dec.value (Dec.sum (map campo l)) == suma_de campo l.
Proof.
  rewrite value_sum. induction l as [|t l IH]; simpl; [reflexivity|].
  rewrite IH. reflexivity.
Qed.

(** X4.  The totals of a built statement are the sums of the charges
    and of the credits of the transactions given, whatever their order. *)
Theorem construir_totales (hoy : Fecha.date) (banco cuenta texto : str)
    (ts : list TransaccionBancaria) :
  Dec.value (total_cargos (_construir_estado_cuenta hoy banco cuenta ts texto))
    == suma_de cargo ts /\
  Dec.value (total_abonos (_construir_estado_cuenta hoy banco cuenta ts texto))
    == suma_de abono ts.
Proof.
  destruct ts as [|t0 ts']; [split; reflexivity|].
  assert (Hp : Permutation (t0 :: ts') (ordenar (t0 :: ts')))
    by apply ordenar_sorted_perm.
  split.
  - change (total_cargos _) with (Dec.sum (map cargo (ordenar (t0 :: ts')))).
    rewrite value_sum_map. symmetry. apply suma_de_perm, Hp.
  - change (total_abonos _) with (Dec.sum (map abono (ordenar (t0 :: ts')))).
    rewrite value_sum_map. symmetry. apply suma_de_perm, Hp.
Qed.

Lemma verificado_si_calculado (e : EstadoCuentaImportado) :
  saldo_final e = Dec.sub (Dec.add (saldo_inicial e) (total_abonos e)) (total_cargos e) ->
  balance_verificado e = true.
Proof.
  intros H. unfold balance_verificado. rewrite <- H.
  apply ltb_value. rewrite value_abs, value_sub.
  assert (E : Dec.value (saldo_final e) - Dec.value (saldo_final e) == 0) by ring.
  rewrite E. reflexivity.
Qed.

Lemma last_in (t0 : TransaccionBancaria) (l : list TransaccionBancaria) :
  l <> [] -> In (last l t0) l.
Proof.
  intros Hne. destruct (exists_last Hne) as (l' & x & E). rewrite E, last_last.
  apply in_or_app. right. left. reflexivity.
Qed.

(** Without a closing balance in the text or on the transactions, the
    closing balance is the computed one. *)
Lemma construir_saldo_final_calculado (hoy : Fecha.date) (banco cuenta texto : str)
    (ts : list TransaccionBancaria) :
  _extraer_saldo_final texto = None ->
  Forall (fun t => saldo t = None) ts ->
  let e := _construir_estado_cuenta hoy banco cuenta ts texto in
  saldo_final e = Dec.sub (Dec.add (saldo_inicial e) (total_abonos e)) (total_cargos e).
Proof.
  intros Htexto Hts. cbv zeta.
  destruct ts as [|t0 ts']; [reflexivity|].
  assert (Hlast : saldo (last (ordenar (t0 :: ts')) t0) = None).
  { rewrite Forall_forall in Hts. apply Hts.
    eapply Permutation_in; [symmetry; apply ordenar_sorted_perm|].
    apply last_in. intros E.
    pose proof (proj2 (ordenar_sorted_perm (t0 :: ts'))) as Hp.
    rewrite E in Hp. apply Permutation_sym, Permutation_nil in Hp. discriminate. }
  unfold _construir_estado_cuenta. cbv zeta.
  cbn [saldo_final saldo_inicial total_abonos total_cargos].
  rewrite Htexto, Hlast. reflexivity.
Qed.

(** X5.  For transactions with finite amounts: when the text names no
    closing balance and no transaction reports a balance, the closing
    balance of the built statement is computed from its opening balance
    and its totals, so the statement is verified.  In the arithmetic of
    the library this holds also when results are rounded: a closing
    balance computed from the other three amounts always verifies. *)
Theorem construir_sin_saldos_verificado (hoy : Fecha.date) (banco cuenta texto : str)
    (ts : list TransaccionBancaria) :
  _extraer_saldo_final texto = None ->
  Forall (fun t => saldo t = None) ts ->
  (saldo_final (_construir_estado_cuenta hoy banco cuenta ts texto)
   = Dec.sub (Dec.add (saldo_inicial (_construir_estado_cuenta hoy banco cuenta ts texto))
                      (total_abonos (_construir_estado_cuenta hoy banco cuenta ts texto)))
             (total_cargos (_construir_estado_cuenta hoy banco cuenta ts texto))) /\
  balance_verificado (_construir_estado_cuenta hoy banco cuenta ts texto) = true /\
  (DecPy.exacta (_construir_estado_cuenta hoy banco cuenta ts texto) = true ->
   DecPy.balance_verificado
     (DecPy.importes_de (_construir_estado_cuenta hoy banco cuenta ts texto))
   = DecPy.Ok true) /\
  (forall si ta tc x sf : DecPy.Decimal,
     DecPy.es_finito si = true -> DecPy.es_finito ta = true -> DecPy.es_finito tc = true ->
     DecPy.add si ta = DecPy.Ok x ->
     DecPy.sub x tc = DecPy.Ok sf ->
     DecPy.balance_verificado (DecPy.mkImportes si ta tc sf) = DecPy.Ok true).
Proof.
  intros Htexto Hts.
  pose proof (@construir_saldo_final_calculado hoy banco cuenta texto ts Htexto Hts) as Hc.
  cbv zeta in Hc.
  pose proof (verificado_si_calculado _ Hc) as Hv.
  split; [exact Hc|]. split; [exact Hv|]. split.
  - intros He. rewrite (balance_verificado_de_exacta _ He), Hv. reflexivity.
  - apply calculado_verifica.
Qed.

Lemma construir_sin_saldos_verificado_ejemplo :
  _extraer_saldo_final [] = None /\
  Forall (fun t => saldo t = None) [trans_cargo_abono] /\
  balance_verificado
    (_construir_estado_cuenta (Fecha.mkDate 2024 3 31) (lit "EXCEL") []
       [trans_cargo_abono] []) = true /\
  DecPy.balance_verificado
    (DecPy.importes_de
       (_construir_estado_cuenta (Fecha.mkDate 2024 3 31) (lit "EXCEL") []
          [trans_cargo_abono] [])) = DecPy.Ok true.
Proof.
  split; [reflexivity|]. split; [repeat constructor|].
  assert (Hs : Forall (fun t => saldo t = None) [trans_cargo_abono])
    by (repeat constructor).
  destruct (@construir_sin_saldos_verificado (Fecha.mkDate 2024 3 31) (lit "EXCEL") []
              [] [trans_cargo_abono] eq_refl Hs) as (_ & Hv & He & _).
  split; [exact Hv|]. apply He. vm_compute. reflexivity.
Defined.

Lemma construir_periodo_ejemplo :
  In trans_saldo_500 [trans_saldo_cero; trans_saldo_500] /\
  Fecha.leb (fecha_inicio (_construir_estado_cuenta (Fecha.mkDate 2024 3 31) (lit "CSV") []
                             [trans_saldo_cero; trans_saldo_500] []))
            (fecha trans_saldo_500) = true /\
  Fecha.leb (fecha trans_saldo_500)
            (fecha_fin (_construir_estado_cuenta (Fecha.mkDate 2024 3 31) (lit "CSV") []
                          [trans_saldo_cero; trans_saldo_500] [])) = true.
Proof.
  split; [right; left; reflexivity|].
  apply construir_periodo. right; left; reflexivity.
Defined.
End ConstruirTotales.

(* ================================================================== *)
(** * [ParserBancarioMX.detectar_banco] *)
(* ================================================================== *)

Section DetectarBanco.
Import Texto Re ParserBancarioMX Especificacion Vocabulario.

Lemma first_entry_bancos (contenido : str) (tabla : list (str * list str)) :
  first_entry (fun patron => contains patron (lower contenido)) tabla =
  first_some (banco_si_aparece contenido) tabla.
Proof.
  induction tabla as [|[k vs] tabla IH]; simpl; [reflexivity|].
  unfold banco_si_aparece at 1. simpl.
  destruct (existsb _ vs); [reflexivity | exact IH].
Qed.

(** X6.  [detectar_banco] answers the first bank of the table, in the
    order it is written, one of whose aliases occurs in the lower-cased
    content, and "DESCONOCIDO" when no alias of any bank occurs. *)
Theorem detectar_banco_spec :
  map fst BANCOS =
    [ lit "BBVA"; lit "SANTANDER"; lit "BANORTE"; lit "HSBC"; lit "BANAMEX";
      lit "SCOTIABANK"; lit "BANCOAZTECA"; lit "INBURSA"; lit "INTERACCIONES";
      lit "BANREGIO"; lit "AFIRME"; lit "MONEX"; lit "MULTIVA" ] /\
  (forall contenido : str,
     primero (banco_si_aparece contenido) BANCOS (detectar_banco contenido)
     \/ (ninguno (banco_si_aparece contenido) BANCOS /\
         detectar_banco contenido = lit "DESCONOCIDO")) /\
  (forall contenido banco : str,
     primero (banco_si_aparece contenido) BANCOS banco <->
     detectar_banco contenido = banco /\
     ~ ninguno (banco_si_aparece contenido) BANCOS).
Proof.
  split; [reflexivity|].
  assert (Hcases : forall contenido,
    (exists b, first_some (banco_si_aparece contenido) BANCOS = Some b /\
               detectar_banco contenido = b) \/
    (first_some (banco_si_aparece contenido) BANCOS = None /\
     detectar_banco contenido = lit "DESCONOCIDO")).
  { intros contenido. unfold detectar_banco. rewrite first_entry_bancos.
    destruct (first_some (banco_si_aparece contenido) BANCOS) as [b|];
      [left; exists b; auto | right; auto]. }
  split.
  - intros contenido. destruct (Hcases contenido) as [(b & Hb & ->) | [Hn Ho]].
    + left. apply first_some_primero, Hb.
    + right. split; [apply first_some_ninguno, Hn | exact Ho].
  - intros contenido banco.
    rewrite <- first_some_primero, <- first_some_ninguno.
    destruct (Hcases contenido) as [(b & Hb & Heq) | [Hn Ho]].
    + rewrite Hb, Heq. split.
      * intros H. inversion H; subst. split; [reflexivity | discriminate].
      * intros [-> _]. reflexivity.
    + rewrite Hn. split; [discriminate|]. intros [_ H]. contradiction H. reflexivity.
Qed.

Lemma starts_with_app (p q s : str) :
  starts_with (p ++ q) s = true -> starts_with p s = true.
Proof.
  revert s. induction p as [|a p IH]; intros s H; [reflexivity|].
  destruct s as [|b s]; simpl in *; [discriminate|].
  apply andb_true_iff in H. destruct H as [Hab H]. rewrite Hab. simpl. apply IH, H.
Qed.

Lemma contains_app (p q s : str) :
  contains (p ++ q) s = true -> contains p s = true.
Proof.
  induction s as [|b s IH]; simpl; intros H.
  - apply orb_true_iff in H. destruct H as [H|H]; [|discriminate].
    apply starts_with_app in H. rewrite H. reflexivity.
  - apply orb_true_iff in H. destruct H as [H|H].
    + apply starts_with_app in H. rewrite H. reflexivity.
    + rewrite (IH H). apply orb_true_r.
Qed.

(** X7.  The alias "0140" of SANTANDER never decides: a content in which
    it occurs holds the alias "014" of BBVA, the first bank of the table,
    and is detected as BBVA. *)
Theorem detectar_banco_0140 (contenido : str) :
  contains (lit "0140") (lower contenido) = true ->
  detectar_banco contenido = lit "BBVA".
Proof.
  intros H. assert (H014 : contains (lit "014") (lower contenido) = true).
  { apply contains_app with (q := lit "0"). exact H. }
  unfold detectar_banco. unfold BANCOS. cbn [first_entry existsb].
  rewrite H014. rewrite !orb_true_r. reflexivity.
Qed.

Lemma detectar_banco_0140_ejemplo :
  contains (lit "0140") (lower (lit "Clave de banco: 0140")) = true /\
  detectar_banco (lit "Clave de banco: 0140") = lit "BBVA".
Proof.
  split; [vm_compute; reflexivity|].
  apply detectar_banco_0140. vm_compute. reflexivity.
Defined.
End DetectarBanco.

(* ================================================================== *)
(** * [_encontrar_campo] and [_parsear_fila_csv] *)
(* ================================================================== *)

Section FilaCsv.
Import Texto Re Py Valores Modelo Auxiliares ImportadorEstadoCuenta Especificacion Vocabulario.

Lemma encontrar_campo_app (opciones : list str) (l : list (str * option str))
    (cola : list (option str)) :
  _encontrar_campo (map (fun kv => Some (fst kv)) l ++ cola) opciones =
  match find (fun kv => responde opciones (fst kv)) l with
  | Some kv => Ok (Some (fst kv))
  | None => _encontrar_campo cola opciones
  end.
Proof.
  induction l as [|[k v] l IH]; simpl; [reflexivity|].
  unfold responde at 1. simpl.
  destruct (existsb _ opciones); [reflexivity | exact IH].
Qed.

(** The search of a column in a row: the first header name that
    answers; without one, [None] for a row without surplus fields and
    the [AttributeError] of the key [None] for a row with them. *)
Lemma encontrar_campo_fila (opciones : list str) (row : fila_csv) :
  _encontrar_campo (keys row) opciones =
  match find (fun kv => responde opciones (fst kv)) (campos row) with
  | Some kv => Ok (Some (fst kv))
  | None => if resto row then Raise sin_lower else Ok None
  end.
Proof.
  unfold keys. rewrite encontrar_campo_app.
  destruct (find _ (campos row)); [reflexivity|].
  destruct (resto row); reflexivity.
Qed.

Lemma tiene_columna_find (opciones : list str) (row : fila_csv) :
  tiene_columna opciones row =
  match find (fun kv => responde opciones (fst kv)) (campos row) with
  | Some _ => true
  | None => false
  end.
Proof.
  unfold tiene_columna. induction (campos row) as [|kv l IH]; simpl; [reflexivity|].
  destruct (responde opciones (fst kv)); [reflexivity | exact IH].
Qed.

Lemma parsear_monto_celda_no_lanza (row : fila_csv) (key : option str) :
  raises (_parsear_monto (row_get row key (VInt 0))) = false /\
  raises (_parsear_monto (row_get row key VNone)) = false.
Proof.
  unfold row_get. destruct key as [k|]; [|split; reflexivity].
  destruct (buscar k (campos row)) as [[s|]|]; split;
    try reflexivity; apply parsear_monto_texto_no_lanza.
Qed.

Lemma raises_bind {A B : Type} (x : resultado A) (f : A -> resultado B) :
  raises x = false -> (forall a, raises (f a) = false) -> raises (bind x f) = false.
Proof. destruct x; simpl; [auto | discriminate]. Qed.

(** What follows the five searches never raises. *)
Lemma fila_csv_resto_no_lanza (row : fila_csv)
    (fecha_key desc_key cargo_key abono_key saldo_key : option str) :
  raises
    (if negb (key_truthy fecha_key) || negb (key_truthy desc_key) then Ok None
     else
       match _parsear_fecha (row_get row fecha_key VNone) with
       | None => Ok None
       | Some fecha =>
         let descripcion := py_str (row_get row desc_key (VStr [])) in
         bind (_parsear_monto (row_get row cargo_key (VInt 0))) (fun cargo =>
         bind (_parsear_monto (row_get row abono_key (VInt 0))) (fun abono =>
         bind (if key_truthy saldo_key
               then bind (_parsear_monto (row_get row saldo_key VNone))
                         (fun s => Ok (Some s))
               else Ok None) (fun saldo =>
         Ok (Some (transaccion fecha descripcion [] cargo abono saldo []
                     (ParserBancarioMX.categorizar_transaccion descripcion) None)))))
       end) = false.
Proof.
  destruct (negb (key_truthy fecha_key) || negb (key_truthy desc_key)); [reflexivity|].
  destruct (_parsear_fecha _); [|reflexivity]. cbv zeta.
  apply raises_bind; [apply parsear_monto_celda_no_lanza|]. intros cargo.
  apply raises_bind; [apply parsear_monto_celda_no_lanza|]. intros abono.
  apply raises_bind; [|reflexivity].
  destruct (key_truthy saldo_key); [|reflexivity].
  apply raises_bind; [apply parsear_monto_celda_no_lanza | reflexivity].
Qed.

(** When a row raises: it has surplus fields and a column is missing. *)
Lemma raises_parsear_fila_csv (row : fila_csv) :
  raises (_parsear_fila_csv row) = resto row && negb (tiene_las_cinco row).
Proof.
  unfold _parsear_fila_csv, tiene_las_cinco.
  fold op_fecha op_desc op_cargo op_abono op_saldo.
  rewrite !encontrar_campo_fila, !tiene_columna_find.
  destruct (find _ (campos row)) as [k1|];
    [|destruct (resto row); [reflexivity | cbn [bind]]].
  2: { destruct (find (fun kv => responde op_desc (fst kv)) (campos row)); cbn [bind];
       destruct (find (fun kv => responde op_cargo (fst kv)) (campos row)); cbn [bind];
       destruct (find (fun kv => responde op_abono (fst kv)) (campos row)); cbn [bind];
       destruct (find (fun kv => responde op_saldo (fst kv)) (campos row)); cbn [bind];
       apply fila_csv_resto_no_lanza. }
  cbn [bind].
  destruct (find (fun kv => responde op_desc (fst kv)) (campos row)) as [k2|];
    [|destruct (resto row); [reflexivity | cbn [bind]]].
  2: { destruct (find (fun kv => responde op_cargo (fst kv)) (campos row)); cbn [bind];
       destruct (find (fun kv => responde op_abono (fst kv)) (campos row)); cbn [bind];
       destruct (find (fun kv => responde op_saldo (fst kv)) (campos row)); cbn [bind];
       apply fila_csv_resto_no_lanza. }
  cbn [bind].
  destruct (find (fun kv => responde op_cargo (fst kv)) (campos row)) as [k3|];
    [|destruct (resto row); [reflexivity | cbn [bind]]].
  2: { destruct (find (fun kv => responde op_abono (fst kv)) (campos row)); cbn [bind];
       destruct (find (fun kv => responde op_saldo (fst kv)) (campos row)); cbn [bind];
       apply fila_csv_resto_no_lanza. }
  cbn [bind].
  destruct (find (fun kv => responde op_abono (fst kv)) (campos row)) as [k4|];
    [|destruct (resto row); [reflexivity | cbn [bind]]].
  2: { destruct (find (fun kv => responde op_saldo (fst kv)) (campos row)); cbn [bind];
       apply fila_csv_resto_no_lanza. }
  cbn [bind].
  destruct (find (fun kv => responde op_saldo (fst kv)) (campos row)) as [k5|];
    [|destruct (resto row); [reflexivity | cbn [bind]]].
  2: { apply fila_csv_resto_no_lanza. }
  cbn [bind]. rewrite fila_csv_resto_no_lanza.
  destruct (resto row); reflexivity.
Qed.

Lemma raises_false_ok {A : Type} (x : resultado A) :
  raises x = false -> exists a, x = Ok a.
Proof. destruct x as [a|e]; [exists a; reflexivity | discriminate]. Qed.

(** The only exception of a CSV row is the [AttributeError] of the key
    [None]. *)
Lemma parsear_fila_csv_casos (row : fila_csv) :
  (fila_defectuosa row = false /\ exists r, _parsear_fila_csv row = Ok r) \/
  (fila_defectuosa row = true /\ _parsear_fila_csv row = Raise sin_lower).
Proof.
  unfold fila_defectuosa. rewrite <- raises_parsear_fila_csv.
  destruct (raises (_parsear_fila_csv row)) eqn:R.
  - right. split; [reflexivity|].
    revert R. unfold _parsear_fila_csv.
    fold op_fecha op_desc op_cargo op_abono op_saldo.
    rewrite !encontrar_campo_fila.
    repeat match goal with
    | |- context [find ?f (campos row)] => destruct (find f (campos row)); cbn [bind]
    | |- context [if resto row then _ else _] => destruct (resto row); cbn [bind]
    end; try reflexivity; rewrite fila_csv_resto_no_lanza; discriminate.
  - left. split; [reflexivity|]. apply raises_false_ok, R.
Qed.

(** X8.  A row of a CSV file raises exactly when it has more fields than
    the header and the header lacks one of the five columns (date,
    description, charge, credit, balance): the search of the missing
    column runs into the key [None] and raises the [AttributeError] of
    [None.lower()].  Any other row is parsed or skipped without an
    exception. *)
Theorem parsear_fila_csv_lanza (row : fila_csv) :
  if resto row && negb (tiene_las_cinco row)
  then _parsear_fila_csv row = Raise sin_lower
  else exists r, _parsear_fila_csv row = Ok r.
Proof.
  destruct (parsear_fila_csv_casos row) as [[H1 H2]|[H1 H2]];
    unfold fila_defectuosa in H1; rewrite H1; assumption.
Qed.
End FilaCsv.

(* ================================================================== *)
(** * [_importar_csv]: the delimiter and the rows *)
(* ================================================================== *)

Section ImportarCsv.
Import Texto Re Py Valores Modelo Auxiliares ImportadorEstadoCuenta Especificacion Vocabulario.

(** X9.  The delimiter chosen for a CSV text is one of [,], [;], tab and
    [|]: none occurs more often in the first 1000 characters, and those
    written before it in that order occur strictly less often (so the
    comma is chosen when none occurs). *)
Theorem detectar_delimitador_maximo (contenido : str) :
  exists pre post,
    delimitadores = pre ++ detectar_delimitador contenido :: post /\
    Forall (fun d => count_char d (firstn 1000 contenido)
                     < count_char (detectar_delimitador contenido) (firstn 1000 contenido))
           pre /\
    Forall (fun d => count_char d (firstn 1000 contenido)
                     <= count_char (detectar_delimitador contenido) (firstn 1000 contenido))
           post.
Proof.
  unfold detectar_delimitador, delimitadores. cbv zeta.
  generalize (firstn 1000 contenido). intros s. cbn [fold_left fst snd].
  destruct (Nat.ltb_spec 0 (count_char 44 s)) as [H1|H1]; cbn [fst snd];
  destruct (Nat.ltb_spec (if (0 <? count_char 44 s)%nat then count_char 44 s else 0)
                         (count_char 59 s)) as [H2|H2];
  repeat match goal with
  | |- context [Nat.ltb ?a ?b] => destruct (Nat.ltb_spec a b); cbn [fst snd] in *
  | H : context [Nat.ltb ?a ?b] |- _ => destruct (Nat.ltb_spec a b); cbn [fst snd] in *
  end;
  first
    [ exists [], [59%N; 9%N; 124%N]; split; [reflexivity|];
      split; repeat constructor; lia
    | exists [44%N], [9%N; 124%N]; split; [reflexivity|];
      split; repeat constructor; lia
    | exists [44%N; 59%N], [124%N]; split; [reflexivity|];
      split; repeat constructor; lia
    | exists [44%N; 59%N; 9%N], []; split; [reflexivity|];
      split; repeat constructor; lia ].
Qed.
Lemma filas_csv_cuenta (rows : list fila_csv) :
  forall (acc : list TransaccionBancaria) (self : importador),
  exists ts,
    filas_csv rows acc self =
      (Ok ts, mkImportador
                (errores self
                 ++ repeat error_fila_csv (List.length (filter fila_defectuosa rows)))
                (transacciones_parsed self)) /\
    List.length ts + List.length (filter fila_defectuosa rows)
      <= List.length acc + List.length rows.
Proof.
  induction rows as [|row rows IH]; intros acc self.
  - exists acc. simpl. rewrite app_nil_r. destruct self; simpl. split; [reflexivity | lia].
  - cbn [filas_csv filter].
    destruct (parsear_fila_csv_casos row) as [[Hd (r & Hr)] | [Hd Hr]]; rewrite Hd, Hr.
    + destruct r as [trans|].
      * destruct (IH (acc ++ [trans]) self) as (ts & E & Hl). exists ts.
        split; [exact E|]. rewrite length_app in Hl. simpl in *. lia.
      * destruct (IH acc self) as (ts & E & Hl). exists ts.
        split; [exact E|]. simpl. lia.
    + destruct (IH acc (errores_append (lit "Error parseando fila: " ++ exc_msg sin_lower) self))
        as (ts & E & Hl).
      exists ts. split; [|simpl; lia].
      rewrite E. unfold errores_append. cbn [errores transacciones_parsed].
      rewrite <- app_assoc.
      assert (Hm : lit "Error parseando fila: " ++ exc_msg sin_lower = error_fila_csv)
        by (vm_compute; reflexivity).
      rewrite Hm. reflexivity.
Qed.

Lemma filas_csv_leidas (rows : list fila_csv) :
  forall (acc ts : list TransaccionBancaria) (self self' : importador),
    filas_csv rows acc self = (Ok ts, self') ->
    ts = acc ++ Lecturas.transacciones_de_filas rows.
Proof.
  induction rows as [|row rows IH]; intros acc ts self self' E.
  - simpl in E. inversion E. rewrite app_nil_r. reflexivity.
  - cbn [filas_csv] in E. unfold Lecturas.transacciones_de_filas. cbn [flat_map].
    fold (Lecturas.transacciones_de_filas rows).
    destruct (_parsear_fila_csv row) as [[t|]|ex].
    + rewrite (IH _ _ _ _ E), <- app_assoc. reflexivity.
    + apply (IH _ _ _ _ E).
    + apply (IH _ _ _ _ E).
Qed.

(** X10.  When a CSV import returns a statement, the diagnostics it has
    appended are the message of the [AttributeError] on the key [None],
    once for every row that has surplus fields under a header lacking
    one of the five columns, and nothing else; the transactions of the
    statement are those of the other rows, at most one for each. *)
Theorem importar_csv_filas (env : entorno) (archivo : list N) (contenido : str)
    (self self' : importador) (e : EstadoCuentaImportado) :
  decode_utf8 env archivo = Ok contenido ->
  _importar_csv env archivo self = (Ok e, self') ->
  errores self' =
    errores self ++
    repeat error_fila_csv
      (List.length (filter fila_defectuosa
         (csv_DictReader env contenido (detectar_delimitador contenido)))) /\
  Permutation
    (Lecturas.transacciones_de_filas
       (csv_DictReader env contenido (detectar_delimitador contenido)))
    (transacciones e) /\
  List.length (transacciones e)
  + List.length (filter fila_defectuosa
                   (csv_DictReader env contenido (detectar_delimitador contenido)))
  <= List.length (csv_DictReader env contenido (detectar_delimitador contenido)).
Proof.
  intros Hd. unfold _importar_csv. rewrite Hd.
  destruct (filas_csv_cuenta
              (csv_DictReader env contenido (detectar_delimitador contenido)) [] self)
    as (ts & E & Hl).
  rewrite E. intros H. inversion H; subst. clear H.
  apply filas_csv_leidas in E. cbn [app] in E.
  split; [reflexivity|]. rewrite transacciones_construir.
  pose proof (proj2 (ordenar_sorted_perm ts)) as Hp.
  split.
  - rewrite <- E. exact Hp.
  - rewrite <- (Permutation_length Hp). simpl in Hl. exact Hl.
Qed.
End ImportarCsv.

(* ================================================================== *)
(** * [_importar_excel] and [_importar_pdf] *)
(* ================================================================== *)

Section ExcelPdf.
Import Texto Re Py Valores Modelo Auxiliares ImportadorEstadoCuenta Especificacion Vocabulario.

Lemma fila_excel_sin_fecha (cols : list (option nat)) (row : list valor) :
  nth 0 cols None = None -> fila_excel cols row = Ok None.
Proof.
  intros H. unfold fila_excel. cbv zeta. rewrite H.
  destruct (negb (existsb truthy row)); reflexivity.
Qed.

Lemma filas_excel_sin_fecha (cols : list (option nat)) (rows : list (list valor)) :
  nth 0 cols None = None ->
  forall acc self, filas_excel cols rows acc self = (Ok acc, self).
Proof.
  intros H. induction rows as [|row rows IH]; intros acc self; [reflexivity|].
  cbn [filas_excel]. rewrite (fila_excel_sin_fecha _ row H). apply IH.
Qed.

(** X11.  A sheet whose first row has no name holding "fecha", "date" or
    "f" gives the statement without transactions and no diagnostic,
    whatever its rows hold. *)
Theorem importar_excel_sin_fecha (env : entorno) (archivo : list N)
    (hoja : list (list valor)) (self : importador) :
  EXCEL_SUPPORT env = true ->
  load_workbook env archivo = Ok hoja ->
  _encontrar_columna (cabeceras hoja) [lit "fecha"; lit "date"; lit "f"] = None ->
  _importar_excel env archivo self = (Ok (estado_vacio (hoy env) (lit "EXCEL") []), self).
Proof.
  intros Hs Hl Hc. unfold _importar_excel. rewrite Hs, Hl. cbn [negb].
  fold (cabeceras hoja). rewrite Hc.
  rewrite filas_excel_sin_fecha by reflexivity. reflexivity.
Qed.




(** X13.  A PDF detected as SANTANDER or BANORTE always gives the
    statement without transactions: their parsers read nothing.  No PDF
    import adds a diagnostic. *)
Theorem importar_pdf_santander_banorte (env : entorno) (archivo : list N)
    (nombre : str) (paginas : list str) (self : importador) :
  PDF_SUPPORT env = true ->
  pdf_paginas env archivo = Ok paginas ->
  ParserBancarioMX.detectar_banco (texto_de paginas) = lit "SANTANDER" \/
  ParserBancarioMX.detectar_banco (texto_de paginas) = lit "BANORTE" ->
  _importar_pdf env archivo nombre self =
    (Ok (estado_vacio (hoy env)
           (ParserBancarioMX.detectar_banco (texto_de paginas))
           (_extraer_cuenta (texto_de paginas))),
     self).
Proof.
  intros Hs Hp Hb. unfold _importar_pdf. rewrite Hs, Hp. cbn [negb].
  fold (texto_de paginas).
  destruct Hb as [Hb|Hb]; rewrite Hb; reflexivity.
Qed.
End ExcelPdf.

(* ================================================================== *)
(** * [generar_resumen_categorias] *)
(* ================================================================== *)

Section ResumenCategorias.
Import Texto Modelo Auxiliares ImportadorEstadoCuenta Especificacion Vocabulario Resumen.
Local Open Scope Q_scope.

Lemma str_eqb_refl (a : str) : str_eqb a a = true.
Proof. apply str_eqb_eq. reflexivity. Qed.

Lemma str_eqb_sym (a b : str) : str_eqb a b = str_eqb b a.
Proof.
  destruct (str_eqb a b) eqn:E1, (str_eqb b a) eqn:E2; try reflexivity.
  - apply str_eqb_eq in E1. subst. rewrite str_eqb_refl in E2. discriminate.
  - apply str_eqb_eq in E2. subst. rewrite str_eqb_refl in E1. discriminate.
Qed.

(** Lookup after one turn of the loop. *)
Lemma buscar_acumular (cat k : str) (trans : TransaccionBancaria)
    (categorias : list (str * renglon)) :
  buscar k (acumular cat trans categorias) =
  if str_eqb k cat
  then Some (sumar (match buscar cat categorias with
                    | Some r => r
                    | None => renglon_nuevo
                    end) trans)
  else buscar k categorias.
Proof.
  induction categorias as [|[k' r'] cats IH]; simpl.
  - rewrite (str_eqb_sym cat k). reflexivity.
  - destruct (str_eqb k' cat) eqn:E1; simpl.
    + apply str_eqb_eq in E1. subst k'.
      rewrite (str_eqb_sym cat k). destruct (str_eqb k cat); reflexivity.
    + destruct (str_eqb k' k) eqn:E2.
      * apply str_eqb_eq in E2. subst k'. rewrite E1. reflexivity.
      * exact IH.
Qed.

Lemma suma_de_app (campo : TransaccionBancaria -> Dec.Decimal)
    (l l' : list TransaccionBancaria) :
  suma_de campo (l ++ l') == suma_de campo l + suma_de campo l'.
Proof.
  induction l as [|t l IH]; simpl; [ring|]. rewrite IH. ring.
Qed.

Lemma de_categoria_app (k : str) (l l' : list TransaccionBancaria) :
  de_categoria k (l ++ l') = de_categoria k l ++ de_categoria k l'.
Proof. apply filter_app. Qed.

(** What the entry of a category holds, for the transactions seen. *)
Definition renglon_de (k : str) (vistas : list TransaccionBancaria) (r : renglon) : Prop :=
  de_categoria k vistas <> [] /\
  cantidad r = Z.of_nat (List.length (de_categoria k vistas)) /\
  Dec.value (cargos r) == suma_de cargo (de_categoria k vistas) /\
  Dec.value (abonos r) == suma_de abono (de_categoria k vistas) /\
  Dec.value (neto r) ==
    suma_de abono (de_categoria k vistas) - suma_de cargo (de_categoria k vistas).

Definition resumen_de (vistas : list TransaccionBancaria)
    (categorias : list (str * renglon)) : Prop :=
  forall k,
    match buscar k categorias with
    | Some r => renglon_de k vistas r
    | None => de_categoria k vistas = []
    end.

Lemma renglon_de_sumar (k : str) (vistas : list TransaccionBancaria)
    (trans : TransaccionBancaria) (r : renglon) :
  categoria_sugerida trans = k ->
  (renglon_de k vistas r \/ (r = renglon_nuevo /\ de_categoria k vistas = [])) ->
  renglon_de k (vistas ++ [trans]) (sumar r trans).
Proof.
  intros Hk H. unfold renglon_de. rewrite de_categoria_app.
  assert (E : de_categoria k [trans] = [trans]).
  { unfold de_categoria. simpl. rewrite Hk, str_eqb_refl. reflexivity. }
  rewrite E, length_app, !suma_de_app. simpl List.length.
  unfold sumar; cbn [cantidad cargos abonos neto].
  rewrite !value_add. unfold monto_neto. rewrite value_sub.
  unfold suma_de at 2 4 6 8. cbn [fold_right].
  split; [destruct (de_categoria k vistas); discriminate|].
  destruct H as [(Hne & Hc & Hca & Hab & Hn) | [-> Hnil]].
  - rewrite Hc, Hca, Hab, Hn. repeat split; try ring. lia.
  - rewrite Hnil. simpl. repeat split; try reflexivity;
      unfold Dec.value; simpl; ring.
Qed.

Lemma resumen_de_acumular (vistas : list TransaccionBancaria)
    (categorias : list (str * renglon)) (trans : TransaccionBancaria) :
  resumen_de vistas categorias ->
  resumen_de (vistas ++ [trans])
             (acumular (categoria_sugerida trans) trans categorias).
Proof.
  intros H k. rewrite buscar_acumular.
  destruct (str_eqb k (categoria_sugerida trans)) eqn:E.
  - apply str_eqb_eq in E. subst k. apply renglon_de_sumar; [reflexivity|].
    specialize (H (categoria_sugerida trans)).
    destruct (buscar (categoria_sugerida trans) categorias); [left; exact H | right; auto].
  - specialize (H k).
    assert (Hd : de_categoria k (vistas ++ [trans]) = de_categoria k vistas).
    { rewrite de_categoria_app. unfold de_categoria at 2. simpl. rewrite E.
      apply app_nil_r. }
    destruct (buscar k categorias).
    + unfold renglon_de in *. rewrite Hd. exact H.
    + rewrite Hd. exact H.
Qed.

Lemma resumen_de_fold (ts vistas : list TransaccionBancaria)
    (categorias : list (str * renglon)) :
  resumen_de vistas categorias ->
  resumen_de (vistas ++ ts)
    (fold_left (fun cats trans => acumular (categoria_sugerida trans) trans cats)
               ts categorias).
Proof.
  revert vistas categorias. induction ts as [|t ts IH]; intros vistas categorias H; simpl.
  - rewrite app_nil_r. exact H.
  - replace (vistas ++ t :: ts) with ((vistas ++ [t]) ++ ts)
      by (rewrite <- app_assoc; reflexivity).
    apply IH, resumen_de_acumular, H.
Qed.

(** X14.  The summary has an entry for a category exactly when the
    statement has a transaction of that category, and the entry holds
    their number, the sum of their charges, the sum of their credits and,
    as net amount, credits minus charges. *)
Theorem generar_resumen_categorias_spec (estado : EstadoCuentaImportado) (k : str) :
  match buscar k (generar_resumen_categorias estado) with
  | Some r =>
    de_categoria k (transacciones estado) <> [] /\
    cantidad r = Z.of_nat (List.length (de_categoria k (transacciones estado))) /\
    Dec.value (cargos r) == suma_de cargo (de_categoria k (transacciones estado)) /\
    Dec.value (abonos r) == suma_de abono (de_categoria k (transacciones estado)) /\
    Dec.value (neto r) ==
      suma_de abono (de_categoria k (transacciones estado))
      - suma_de cargo (de_categoria k (transacciones estado))
  | None => de_categoria k (transacciones estado) = []
  end.
Proof.
  pose proof (@resumen_de_fold (transacciones estado) [] []) as H.
  simpl app in H. apply H. intros k'. reflexivity.
Qed.

Lemma suma_renglones_acumular (campo : renglon -> Dec.Decimal)
    (de : TransaccionBancaria -> Dec.Decimal) (cat : str) (trans : TransaccionBancaria)
    (categorias : list (str * renglon)) :
  (forall r, Dec.value (campo (sumar r trans)) == Dec.value (campo r) + Dec.value (de trans)) ->
  Dec.value (campo renglon_nuevo) == 0 ->
  suma_renglones campo (acumular cat trans categorias)
    == suma_renglones campo categorias + Dec.value (de trans).
Proof.
  intros Hs H0. induction categorias as [|[k r] cats IH]; simpl.
  - rewrite Hs, H0. ring.
  - destruct (str_eqb k cat); simpl.
    + rewrite Hs. ring.
    + rewrite IH. ring.
Qed.

Lemma suma_cantidades_acumular (cat : str) (trans : TransaccionBancaria)
    (categorias : list (str * renglon)) :
  suma_cantidades (acumular cat trans categorias) = (suma_cantidades categorias + 1)%Z.
Proof.
  induction categorias as [|[k r] cats IH]; simpl; [reflexivity|].
  destruct (str_eqb k cat); simpl; [|rewrite IH]; lia.
Qed.

Lemma claves_acumular (cat : str) (trans : TransaccionBancaria)
    (categorias : list (str * renglon)) :
  NoDup (map fst categorias) ->
  NoDup (map fst (acumular cat trans categorias)) /\
  (forall k, In k (map fst (acumular cat trans categorias)) <->
             k = cat \/ In k (map fst categorias)).
Proof.
  induction categorias as [|[k r] cats IH]; simpl; intros Hnd.
  - split; [repeat constructor; auto|]. intros k. split; intros [H|H]; auto; contradiction.
  - inversion Hnd as [|? ? Hnotin Hnd']; subst.
    destruct (str_eqb k cat) eqn:E; simpl.
    + apply str_eqb_eq in E. subst. split; [exact Hnd|]. intros k'.
      split; intros H; intuition (subst; auto).
    + destruct (IH Hnd') as [IH1 IH2]. split.
      * constructor; [|exact IH1]. rewrite IH2. intros [H|H]; [|contradiction].
        subst. rewrite str_eqb_refl in E. discriminate.
      * intros k'. rewrite IH2. tauto.
Qed.

Lemma resumen_totales_fold (ts : list TransaccionBancaria) :
  forall categorias,
    NoDup (map fst categorias) ->
    let final :=
      fold_left (fun cats trans => acumular (categoria_sugerida trans) trans cats)
                ts categorias in
    NoDup (map fst final) /\
    suma_cantidades final = (suma_cantidades categorias + Z.of_nat (List.length ts))%Z /\
    suma_renglones cargos final == suma_renglones cargos categorias + suma_de cargo ts /\
    suma_renglones abonos final == suma_renglones abonos categorias + suma_de abono ts.
Proof.
  induction ts as [|t ts IH]; intros categorias Hnd; cbv zeta.
  - simpl. repeat split; [exact Hnd | lia | ring | ring].
  - cbn [fold_left].
    destruct (IH (acumular (categoria_sugerida t) t categorias)
                 (proj1 (@claves_acumular (categoria_sugerida t) t categorias Hnd)))
      as (H1 & H2 & H3 & H4).
    repeat split.
    + exact H1.
    + rewrite H2, suma_cantidades_acumular. simpl List.length. lia.
    + rewrite H3, (@suma_renglones_acumular cargos cargo).
      * simpl. ring.
      * intros r. unfold sumar; cbn [cargos]. apply value_add.
      * reflexivity.
    + rewrite H4, (@suma_renglones_acumular abonos abono).
      * simpl. ring.
      * intros r. unfold sumar; cbn [abonos]. apply value_add.
      * reflexivity.
Qed.

Lemma construir_totales_transacciones (hoy : Fecha.date) (banco cuenta texto : str)
    (ts : list TransaccionBancaria) :
  let e := _construir_estado_cuenta hoy banco cuenta ts texto in
  Dec.value (total_cargos e) == suma_de cargo (transacciones e) /\
  Dec.value (total_abonos e) == suma_de abono (transacciones e).
Proof.
  destruct ts as [|t0 ts']; cbv zeta; [split; reflexivity|].
  split.
  - change (total_cargos _) with (Dec.sum (map cargo (ordenar (t0 :: ts')))).
    change (transacciones _) with (ordenar (t0 :: ts')). apply value_sum_map.
  - change (total_abonos _) with (Dec.sum (map abono (ordenar (t0 :: ts')))).
    change (transacciones _) with (ordenar (t0 :: ts')). apply value_sum_map.
Qed.

(** X15.  The summary of a built statement splits it by category: every
    category stands once, the numbers of the entries add up to the number
    of transactions, and their charges and credits add up to the totals
    of the statement. *)
Theorem resumen_reparte_el_estado (hoy : Fecha.date) (banco cuenta texto : str)
    (ts : list TransaccionBancaria) :
  NoDup (map fst (generar_resumen_categorias
                    (_construir_estado_cuenta hoy banco cuenta ts texto))) /\
  suma_cantidades (generar_resumen_categorias
                     (_construir_estado_cuenta hoy banco cuenta ts texto))
    = Z.of_nat (List.length ts) /\
  suma_renglones cargos (generar_resumen_categorias
                           (_construir_estado_cuenta hoy banco cuenta ts texto))
    == Dec.value (total_cargos (_construir_estado_cuenta hoy banco cuenta ts texto)) /\
  suma_renglones abonos (generar_resumen_categorias
                           (_construir_estado_cuenta hoy banco cuenta ts texto))
    == Dec.value (total_abonos (_construir_estado_cuenta hoy banco cuenta ts texto)).
Proof.
  destruct (construir_totales_transacciones hoy banco cuenta texto ts) as [Hc Ha].
  cbv zeta in Hc, Ha. rewrite Hc, Ha.
  unfold generar_resumen_categorias.
  destruct (@resumen_totales_fold
              (transacciones (_construir_estado_cuenta hoy banco cuenta ts texto))
              [] (NoDup_nil _)) as (H1 & H2 & H3 & H4).
  cbv zeta in *. repeat split.
  - exact H1.
  - rewrite H2, transacciones_construir.
    rewrite <- (Permutation_length (proj2 (ordenar_sorted_perm ts))). reflexivity.
  - rewrite H3. simpl. ring.
  - rewrite H4. simpl. ring.
Qed.
End ResumenCategorias.

(* ================================================================== *)
(** * The endpoint and [importar] *)
(* ================================================================== *)

Section EndpointImportar.
Import Texto Py Modelo Auxiliares ImportadorEstadoCuenta Especificacion Vocabulario Endpoint.

(** X16.  The endpoint derives the type from the file name by substring,
    "pdf" before "csv" before "xls" (which "xlsx" holds), and refuses the
    name that holds none with the error 400.  Each type it derives
    selects an adapter of [importar]: the branch of the unsupported type
    is never reached from the endpoint. *)
Theorem endpoint_tipo_soportado (env : entorno) (contenido : list N) (filename : str)
    (self : importador) :
  match tipo_por_nombre filename with
  | Some tipo =>
    (contains (lit "pdf") (lower filename) = true /\
     tipo = lit "pdf" /\
     importar env contenido tipo filename self = _importar_pdf env contenido filename self)
    \/
    (contains (lit "pdf") (lower filename) = false /\
     contains (lit "csv") (lower filename) = true /\
     tipo = lit "csv" /\
     importar env contenido tipo filename self = _importar_csv env contenido self)
    \/
    (contains (lit "pdf") (lower filename) = false /\
     contains (lit "csv") (lower filename) = false /\
     contains (lit "xls") (lower filename) = true /\
     tipo = lit "excel" /\
     importar env contenido tipo filename self = _importar_excel env contenido self)
  | None =>
    contains (lit "pdf") (lower filename) = false /\
    contains (lit "csv") (lower filename) = false /\
    contains (lit "xls") (lower filename) = false /\
    importar_estado_cuenta env contenido filename =
      Http400 (lit "Tipo de archivo no soportado. Use PDF, CSV o Excel.")
  end.
Proof.
  unfold importar_estado_cuenta, tipo_por_nombre.
  destruct (contains (lit "pdf") (lower filename)) eqn:Epdf.
  { left. repeat split. }
  destruct (contains (lit "csv") (lower filename)) eqn:Ecsv.
  { right; left. repeat split. }
  cbn [existsb].
  destruct (contains (lit "xlsx") (lower filename)) eqn:Exlsx.
  { assert (Exls : contains (lit "xls") (lower filename) = true).
    { apply contains_app with (q := lit "x"). exact Exlsx. }
    cbn [orb]. right; right. repeat split. exact Exls. }
  destruct (contains (lit "xls") (lower filename)) eqn:Exls; cbn [orb].
  { right; right. repeat split. }
  repeat split.
Qed.
End EndpointImportar.

(* ================================================================== *)
(** * The dates of the transactions read from text *)
(* ================================================================== *)

Section FechasValidas.
Import Texto Re Py Valores Modelo Auxiliares ImportadorEstadoCuenta Especificacion Vocabulario Ejemplos.

Lemma strptime_valida (data fmt : str) (d : Fecha.date) :
  Fecha.strptime data fmt = Some d -> fecha_valida d.
Proof.
  unfold Fecha.strptime. destruct (match_ _ data); [|discriminate].
  destruct (negb _); [discriminate|]. cbv zeta.
  match goal with
  | |- (if Fecha.valid ?y ?m ?dd then _ else _) = _ -> _ =>
    destruct (Fecha.valid y m dd) eqn:V; [|discriminate]
  end.
  intros E. inversion E. unfold fecha_valida. simpl. exact V.
Qed.

Lemma primer_formato_valida (s : str) (fmts : list str) (d : Fecha.date) :
  primer_formato s fmts = Some d -> fecha_valida d.
Proof.
  induction fmts as [|f fmts IH]; simpl; [discriminate|].
  destruct (Fecha.strptime s f) eqn:E; [|exact IH].
  intros H. inversion H; subst. apply (strptime_valida _ _ E).
Qed.

Lemma parsear_fecha_valida (v : valor) (d : Fecha.date) :
  (forall d', v <> VDate d') -> _parsear_fecha v = Some d -> fecha_valida d.
Proof.
  intros Hv. unfold _parsear_fecha.
  destruct v; try (destruct (_ || _); [discriminate | apply primer_formato_valida]).
  contradiction (Hv d0). reflexivity.
Qed.

Lemma fila_csv_fecha_valida (row : fila_csv) (t : TransaccionBancaria) :
  _parsear_fila_csv row = Ok (Some t) -> fecha_valida (fecha t).
Proof.
  unfold _parsear_fila_csv.
  repeat match goal with
  | |- bind ?x _ = _ -> _ => destruct x; cbn [bind]; [|discriminate]
  end.
  destruct (_ || _); [discriminate|].
  destruct (_parsear_fecha _) as [f|] eqn:Ef; [|discriminate]. cbv zeta.
  repeat match goal with
  | |- bind ?x _ = _ -> _ => destruct x; cbn [bind]; [|discriminate]
  end.
  intros E. inversion E. simpl.
  apply (@parsear_fecha_valida _ f) in Ef; [exact Ef|].
  intros d'. unfold row_get. destruct a; [|discriminate].
  destruct (buscar s (campos row)) as [[x|]|]; discriminate.
Qed.

Lemma linea_bbva_fecha_valida (linea : str) (t : TransaccionBancaria) :
  linea_bbva linea = Some t -> fecha_valida (fecha t).
Proof.
  unfold linea_bbva. destruct (search patron_bbva linea); [|discriminate]. cbv zeta.
  destruct (Fecha.strptime _ _) as [f|] eqn:Ef; [|discriminate].
  destruct (decimal_sin_comas _); [|discriminate].
  destruct (decimal_sin_comas _); [|discriminate].
  match goal with
  | |- match ?x with _ => _ end = _ -> _ => destruct x
  end.
  - destruct (decimal_sin_comas _); [|discriminate].
    intros E. inversion E. simpl. apply (strptime_valida _ _ Ef).
  - intros E. inversion E. simpl. apply (strptime_valida _ _ Ef).
Qed.

(** X17.  Every transaction read from text carries a calendar day: a
    row of a CSV file, a line of the BBVA parser and a line of the generic
    parser give no transaction for a date such as 31/02/2024. *)
Theorem transaccion_de_texto_fecha_valida (row : fila_csv) (texto : str)
    (t : TransaccionBancaria) :
  _parsear_fila_csv row = Ok (Some t) \/
  In t (_parsear_bbva texto) \/
  In t (_parsear_generico texto) ->
  fecha_valida (fecha t).
Proof.
  intros [H | [H | H]].
  - apply (fila_csv_fecha_valida _ H).
  - apply por_lineas_in in H. destruct H as (linea & _ & H).
    apply (linea_bbva_fecha_valida _ H).
  - apply por_lineas_in in H. destruct H as (linea & _ & H).
    unfold linea_generico in H.
    destruct (search patron_generico linea); [|discriminate]. cbv zeta in H.
    destruct (primer_formato _ formatos_generico) as [f|] eqn:Ef; [|discriminate].
    destruct (decimal_sin_comas _); [|discriminate].
    inversion H. simpl. apply (primer_formato_valida _ _ Ef).
Qed.
End FechasValidas.

(* ================================================================== *)
(** * What the groups of a match capture *)
(* ================================================================== *)

Section Grupos.
Import Texto Re.
Variable A : Type.

(** The words that each group of a pattern may capture: [P i] holds of
    every word of the sub-pattern of a group numbered [i]. *)
Fixpoint grupos_en (P : nat -> str -> Prop) (r : regex) : Prop :=
  match r with
  | Eps => True
  | Chr _ => True
  | Seq r1 r2 => grupos_en P r1 /\ grupos_en P r2
  | Alt r1 r2 => grupos_en P r1 /\ grupos_en P r2
  | Rep _ _ _ r1 => grupos_en P r1
  | Grp i r1 => grupos_en P r1 /\ (forall w, matches r1 w -> P i w)
  end.

(** The captures recorded on the text [full] are words of their groups. *)
Definition capturas_en (P : nat -> str -> Prop) (full : str) (g : caps) : Prop :=
  Forall (fun e => P (fst e) (slice full (fst (snd e)) (snd (snd e)))) g.

(** The matcher stands at position [pos] of [full], with [s] left. *)
Definition en (full s : str) (pos : nat) : Prop :=
  s = skipn pos full /\ pos <= List.length full.

Definition sound_en (P : nat -> str -> Prop) (full : str) (Q : str -> Prop)
    (mr : matcher A) : Prop :=
  forall s pos g (k : cont A) x,
    en full s pos -> capturas_en P full g -> mr s pos g k = Some x ->
    exists s' pos' g',
      en full s' pos' /\ pos <= pos' /\ capturas_en P full g' /\
      Q (slice full pos pos') /\ k s' pos' g' = Some x.

Lemma slice_nil (full : str) (pos : nat) : slice full pos pos = [].
Proof. unfold slice. rewrite Nat.sub_diag. reflexivity. Qed.

Lemma firstn_add (n m : nat) (l : str) :
  firstn (n + m) l = firstn n l ++ firstn m (skipn n l).
Proof.
  revert l. induction n as [|n IH]; intros l; [reflexivity|].
  destruct l as [|c l]; simpl.
  - destruct m; reflexivity.
  - rewrite IH. reflexivity.
Qed.

Lemma skipn_add (n m : nat) (l : str) : skipn (n + m) l = skipn m (skipn n l).
Proof.
  revert l. induction n as [|n IH]; intros l; [reflexivity|].
  destruct l as [|c l]; simpl; [destruct m; reflexivity | apply IH].
Qed.

Lemma slice_app (full : str) (a b c : nat) :
  a <= b -> b <= c -> slice full a c = slice full a b ++ slice full b c.
Proof.
  intros Hab Hbc. unfold slice.
  replace (c - a) with ((b - a) + (c - b)) by lia.
  rewrite firstn_add, <- skipn_add.
  replace (a + (b - a)) with b by lia. reflexivity.
Qed.

Lemma en_cons (full : str) (c : N) (s : str) (pos : nat) :
  en full (c :: s) pos ->
  en full s (S pos) /\ slice full pos (S pos) = [c].
Proof.
  intros [Hs Hl].
  assert (E1 : skipn (S pos) full = s).
  { replace (S pos) with (pos + 1) by lia. rewrite skipn_add, <- Hs. reflexivity. }
  assert (E2 : firstn 1 (skipn pos full) = [c]).
  { rewrite <- Hs. reflexivity. }
  assert (H : List.length (skipn pos full) = List.length full - pos) by apply length_skipn.
  rewrite <- Hs in H. simpl in H.
  unfold en, slice. replace (S pos - pos) with 1 by lia.
  rewrite E1, E2. repeat split. lia.
Qed.

Lemma rep_req_sound_en P full Q (mr : matcher A) (n : nat) :
  sound_en P full Q mr -> sound_en P full (iter Q n) (rep_req mr n).
Proof.
  intros Hmr. induction n as [|n IH]; intros s pos g k x He Hg H; simpl in H.
  - exists s, pos, g. rewrite slice_nil. simpl. repeat split; auto; apply He.
  - apply Hmr in H; [|assumption|assumption].
    destruct H as (s1 & p1 & g1 & He1 & Hp1 & Hg1 & Hq1 & H).
    apply IH in H; [|assumption|assumption].
    destruct H as (s2 & p2 & g2 & He2 & Hp2 & Hg2 & Hq2 & H).
    exists s2, p2, g2. repeat split; try apply He2; auto; [lia|].
    simpl. exists (slice full pos p1), (slice full p1 p2).
    repeat split; auto. apply slice_app; assumption.
Qed.

Lemma rep_opt_sound_en P full Q (mr : matcher A) (greedy : bool) (n : nat) :
  sound_en P full Q mr ->
  sound_en P full (fun w => exists j, j <= n /\ iter Q j w) (rep_opt mr greedy n).
Proof.
  intros Hmr. induction n as [|n IH]; intros s pos g k x He Hg H; simpl in H.
  - exists s, pos, g. rewrite slice_nil. repeat split; auto; try apply He.
    exists 0. simpl. auto.
  - assert (Hcases :
      k s pos g = Some x \/
      mr s pos g (fun s' p' g' =>
        if Nat.eqb p' pos then None else rep_opt mr greedy n s' p' g' k) = Some x).
    { destruct greedy; apply orelse_some in H; tauto. }
    clear H. destruct Hcases as [H | H].
    + exists s, pos, g. rewrite slice_nil. repeat split; auto; try apply He.
      exists 0. simpl. split; [lia | auto].
    + apply Hmr in H; [|assumption|assumption].
      destruct H as (s1 & p1 & g1 & He1 & Hp1 & Hg1 & Hq1 & H).
      destruct (Nat.eqb p1 pos); [discriminate|].
      apply IH in H; [|assumption|assumption].
      destruct H as (s2 & p2 & g2 & He2 & Hp2 & Hg2 & (j & Hj & Hq2) & H).
      exists s2, p2, g2. repeat split; try apply He2; auto; [lia|].
      exists (S j). split; [lia|]. simpl.
      exists (slice full pos p1), (slice full p1 p2).
      repeat split; auto. apply slice_app; assumption.
Qed.

(** The matcher consumes a word of the pattern and records, for every
    group, a word of that group. *)
Lemma run_sound_en P full (r : regex) :
  grupos_en P r -> sound_en P full (matches r) (run (A := A) r).
Proof.
  induction r as [| p | r1 IH1 r2 IH2 | r1 IH1 r2 IH2 | greedy lo hi r1 IH1 | i r1 IH1];
    intros Hgr s pos g k x He Hg H; simpl in H.
  - exists s, pos, g. rewrite slice_nil. simpl. repeat split; auto; apply He.
  - destruct s as [|c s']; [discriminate|].
    destruct (p c) eqn:Hp; [|discriminate].
    destruct (en_cons He) as [He' Hsl].
    exists s', (S pos), g. rewrite Hsl. repeat split; auto; try apply He'.
    exists c. auto.
  - destruct Hgr as [Hgr1 Hgr2].
    apply (IH1 Hgr1) in H; [|assumption|assumption].
    destruct H as (s1 & p1 & g1 & He1 & Hp1 & Hg1 & Hq1 & H).
    apply (IH2 Hgr2) in H; [|assumption|assumption].
    destruct H as (s2 & p2 & g2 & He2 & Hp2 & Hg2 & Hq2 & H).
    exists s2, p2, g2. repeat split; try apply He2; auto; [lia|].
    simpl. exists (slice full pos p1), (slice full p1 p2).
    repeat split; auto. apply slice_app; assumption.
  - destruct Hgr as [Hgr1 Hgr2]. apply orelse_some in H. destruct H as [H | H].
    + apply (IH1 Hgr1) in H; [|assumption|assumption].
      destruct H as (s1 & p1 & g1 & He1 & Hp1 & Hg1 & Hq1 & H).
      exists s1, p1, g1. simpl. repeat split; try apply He1; auto.
    + apply (IH2 Hgr2) in H; [|assumption|assumption].
      destruct H as (s1 & p1 & g1 & He1 & Hp1 & Hg1 & Hq1 & H).
      exists s1, p1, g1. simpl. repeat split; try apply He1; auto.
  - simpl in Hgr.
    apply (rep_req_sound_en lo (IH1 Hgr)) in H; [|assumption|assumption].
    destruct H as (s1 & p1 & g1 & He1 & Hp1 & Hg1 & Hq1 & H).
    apply (rep_opt_sound_en greedy _ (IH1 Hgr)) in H; [|assumption|assumption].
    destruct H as (s2 & p2 & g2 & He2 & Hp2 & Hg2 & (j & Hj & Hq2) & H).
    exists s2, p2, g2. repeat split; try apply He2; auto; [lia|].
    simpl. exists (lo + j). repeat split.
    + lia.
    + destruct hi as [h|]; [lia | exact I].
    + rewrite (@slice_app full pos p1 p2) by assumption.
      apply iter_app; assumption.
  - destruct Hgr as [Hgr1 Hgi].
    apply (IH1 Hgr1) in H; [|assumption|assumption].
    destruct H as (s1 & p1 & g1 & He1 & Hp1 & Hg1 & Hq1 & H).
    exists s1, p1, ((i, (pos, p1)) :: g1). simpl. repeat split; try apply He1; auto.
    constructor; [|exact Hg1]. simpl. apply Hgi, Hq1.
Qed.
End Grupos.

Section GruposSearch.
Import Texto Re.

Lemma cap_lookup_in (i : nat) (g : caps) (a b : nat) :
  cap_lookup i g = Some (a, b) -> In (i, (a, b)) g.
Proof.
  induction g as [|[j se] g IH]; simpl; [discriminate|].
  destruct (Nat.eqb i j) eqn:E.
  - intros H. inversion H; subst. apply Nat.eqb_eq in E. subst. left. reflexivity.
  - intros H. right. apply IH, H.
Qed.

Lemma match_at_grupos P (r : regex) (full : str) (pos : nat) (m : rmatch) :
  grupos_en P r -> pos <= List.length full ->
  match_at r (skipn pos full) pos = Some m ->
  capturas_en P full (m_caps m).
Proof.
  intros Hgr Hpos H. unfold match_at in H.
  apply (@run_sound_en _ P full r Hgr) in H.
  - destruct H as (s' & p' & g' & _ & _ & Hg & _ & H). inversion H; subst. exact Hg.
  - split; [reflexivity | exact Hpos].
  - constructor.
Qed.

Lemma search_from_grupos P (r : regex) (full : str) (m : rmatch) :
  grupos_en P r ->
  forall pos,
    pos <= List.length full ->
    search_from r (skipn pos full) pos = Some m ->
    capturas_en P full (m_caps m).
Proof.
  intros Hgr pos. remember (List.length full - pos) as n eqn:Hn.
  revert pos Hn. induction n as [|n IH]; intros pos Hn Hpos H.
  - assert (E : skipn pos full = []).
    { apply skipn_all2. lia. }
    rewrite E in H. simpl in H.
    destruct (match_at r [] pos) eqn:Em; [|discriminate]. inversion H; subst.
    rewrite <- E in Em. apply (@match_at_grupos P r full pos _ Hgr Hpos Em).
  - destruct (skipn pos full) as [|c s] eqn:E.
    + assert (Hlen : List.length (skipn pos full) = List.length full - pos)
        by apply length_skipn.
      rewrite E in Hlen. simpl in Hlen. lia.
    + simpl in H. destruct (match_at r (c :: s) pos) eqn:Em.
      * inversion H; subst. rewrite <- E in Em.
        apply (@match_at_grupos P r full pos _ Hgr Hpos Em).
      * assert (Es : s = skipn (S pos) full).
        { replace (S pos) with (pos + 1) by lia. rewrite skipn_add, E. reflexivity. }
        rewrite Es in H.
        assert (Hlen : List.length (skipn pos full) = List.length full - pos)
          by apply length_skipn.
        rewrite E in Hlen. simpl in Hlen.
        apply (IH (S pos)); [lia | lia | exact H].
Qed.

(** A group of the match [re.search] finds is a word of the sub-pattern
    of that group. *)
Lemma search_grupo P (r : regex) (s : str) (m : rmatch) (i : nat) (w : str) :
  grupos_en P r -> search r s = Some m -> group s m i = Some w -> P i w.
Proof.
  intros Hgr Hs Hg. unfold search in Hs.
  pose proof (@search_from_grupos P r s m Hgr 0 (Nat.le_0_l _) Hs) as Hc.
  unfold group in Hg. destruct (cap_lookup i (m_caps m)) as [[a b]|] eqn:El; [|discriminate].
  inversion Hg; subst. apply cap_lookup_in in El.
  unfold capturas_en in Hc. rewrite Forall_forall in Hc. apply (Hc _ El).
Qed.

(** The characters of the words of a pattern satisfy what every
    character class of the pattern implies. *)
Fixpoint clases_en (q : N -> Prop) (r : regex) : Prop :=
  match r with
  | Eps => True
  | Chr p => forall c, p c = true -> q c
  | Seq r1 r2 => clases_en q r1 /\ clases_en q r2
  | Alt r1 r2 => clases_en q r1 /\ clases_en q r2
  | Rep _ _ _ r1 => clases_en q r1
  | Grp _ r1 => clases_en q r1
  end.

Lemma iter_forall (q : N -> Prop) (Q : str -> Prop) (n : nat) (w : str) :
  (forall u, Q u -> Forall q u) -> iter Q n w -> Forall q w.
Proof.
  intros HQ. revert w. induction n as [|n IH]; simpl; intros w H.
  - subst. constructor.
  - destruct H as (w1 & w2 & -> & H1 & H2). apply Forall_app. split; auto.
Qed.

Lemma matches_clases (q : N -> Prop) (r : regex) :
  clases_en q r -> forall w, matches r w -> Forall q w.
Proof.
  induction r as [| p | r1 IH1 r2 IH2 | r1 IH1 r2 IH2 | greedy lo hi r1 IH1 | i r1 IH1];
    simpl; intros Hc w H.
  - subst. constructor.
  - destruct H as (c & -> & Hp). constructor; [apply Hc, Hp | constructor].
  - destruct Hc as [Hc1 Hc2]. destruct H as (w1 & w2 & -> & H1 & H2).
    apply Forall_app. split; auto.
  - destruct Hc as [Hc1 Hc2]. destruct H as [H|H]; auto.
  - destruct H as (n & _ & _ & H). apply (@iter_forall q (matches r1) n w (IH1 Hc) H).
  - auto.
Qed.
End GruposSearch.

(* ================================================================== *)
(** * The import theorems on concrete files *)
(* ================================================================== *)

Module Casos.
Import Texto Py Valores Modelo ImportadorEstadoCuenta Ejemplos.

(** A sheet whose header names no date column. *)
Definition hoja_sin_fecha : list (list valor) :=
  [ [VStr (lit "concepto"); VStr (lit "monto")];
    [VStr (lit "Pago proveedor ABC"); VInt 1500] ].


(** A runtime with PyPDF2 in which every PDF file has the pages
    [paginas]. *)
Definition entorno_pdf (paginas : list str) : entorno :=
  mkEntorno true true
            (fun _ => Ok paginas)
            (fun _ => Ok [])
            (fun bs => Ok (utf8 (List.length bs) bs))
            lector_simple
            (Fecha.mkDate 2024 3 31).

(** The pages of a Santander statement with a movement line. *)
Definition paginas_santander : list str :=
  [ lit "Banco Santander Mexico";
    lit "Cuenta: 1234567890";
    lit "01/03/2024 Pago proveedor ABC 1,500.00 cargo" ].

End Casos.

Section Testigos.
Import Texto Re Py Valores Modelo Auxiliares ImportadorEstadoCuenta Especificacion Vocabulario Ejemplos Casos.

Lemma importar_csv_filas_ejemplo :
  decode_utf8 env0 csv_fila_larga
    = Ok (utf8 (List.length csv_fila_larga) csv_fila_larga) /\
  exists e self',
    _importar_csv env0 csv_fila_larga nuevo = (Ok e, self') /\
    errores self' = [error_fila_csv] /\
    transacciones e = [].
Proof.
  split; [reflexivity|].
  destruct (_importar_csv env0 csv_fila_larga nuevo) as [[e|ex] self'] eqn:E.
  - exists e, self'. split; [reflexivity|].
    destruct (@importar_csv_filas env0 csv_fila_larga _ nuevo self' e eq_refl E)
      as (He & Hp & _).
    split.
    + rewrite He. vm_compute. reflexivity.
    + apply Permutation_nil. exact Hp.
  - vm_compute in E. discriminate E.
Defined.

Lemma importar_excel_sin_fecha_ejemplo :
  EXCEL_SUPPORT (entorno_de hoja_sin_fecha) = true /\
  load_workbook (entorno_de hoja_sin_fecha) [] = Ok hoja_sin_fecha /\
  _encontrar_columna (cabeceras hoja_sin_fecha) [lit "fecha"; lit "date"; lit "f"] = None /\
  _importar_excel (entorno_de hoja_sin_fecha) [] nuevo
    = (Ok (estado_vacio (hoy (entorno_de hoja_sin_fecha)) (lit "EXCEL") []), nuevo).
Proof.
  split; [reflexivity|]. split; [reflexivity|]. split; [vm_compute; reflexivity|].
  apply (@importar_excel_sin_fecha (entorno_de hoja_sin_fecha) [] hoja_sin_fecha nuevo);
    [reflexivity | reflexivity | vm_compute; reflexivity].
Defined.


Lemma importar_pdf_santander_banorte_ejemplo :
  PDF_SUPPORT (entorno_pdf paginas_santander) = true /\
  pdf_paginas (entorno_pdf paginas_santander) [] = Ok paginas_santander /\
  ParserBancarioMX.detectar_banco (texto_de paginas_santander) = lit "SANTANDER" /\
  _importar_pdf (entorno_pdf paginas_santander) [] (lit "estado.pdf") nuevo =
    (Ok (estado_vacio (hoy (entorno_pdf paginas_santander))
           (ParserBancarioMX.detectar_banco (texto_de paginas_santander))
           (_extraer_cuenta (texto_de paginas_santander))),
     nuevo).
Proof.
  split; [reflexivity|]. split; [reflexivity|]. split; [vm_compute; reflexivity|].
  apply (@importar_pdf_santander_banorte (entorno_pdf paginas_santander) []
           (lit "estado.pdf") paginas_santander nuevo);
    [reflexivity | reflexivity | left; vm_compute; reflexivity].
Defined.

Lemma transaccion_de_texto_fecha_valida_ejemplo :
  In trans_cargo_abono
     (_parsear_generico (lit "cargo 01/03/2024 comision 1,500.00 abono")) /\
  fecha_valida (fecha trans_cargo_abono).
Proof.
  split.
  - vm_compute. left. reflexivity.
  - apply (@transaccion_de_texto_fecha_valida (mkFila [] false)
             (lit "cargo 01/03/2024 comision 1,500.00 abono") trans_cargo_abono).
    right. right. vm_compute. left. reflexivity.
Defined.
End Testigos.

(* ================================================================== *)
(** * The amounts read from text *)
(* ================================================================== *)

Module CasosMontos.
Import Texto Modelo.

(** The transaction of the line "cargo 01/03/2024 retiro -1,500.00". *)
Definition trans_signo : TransaccionBancaria :=
  Auxiliares.transaccion (Fecha.mkDate 2024 3 1) (lit "cargo") []
    (Dec.mkDec 150000 (-2)) Dec.zero None [] (lit "otros") None.

End CasosMontos.

Section Montos.
Import Texto Re Py Valores Modelo Auxiliares ImportadorEstadoCuenta Especificacion Vocabulario Ejemplos CasosMontos.

(** A text without the minus sign. *)
Definition sin_signo (s : str) : Prop := Forall (fun c => c <> 45%N) s.

Lemma forall_firstn (q : N -> Prop) (n : nat) (s : str) :
  Forall q s -> Forall q (firstn n s).
Proof.
  intros H. rewrite <- (firstn_skipn n s) in H. apply Forall_app in H. apply H.
Qed.

Lemma forall_skipn (q : N -> Prop) (n : nat) (s : str) :
  Forall q s -> Forall q (skipn n s).
Proof.
  intros H. rewrite <- (firstn_skipn n s) in H. apply Forall_app in H. apply H.
Qed.

Lemma forall_slice (q : N -> Prop) (s : str) (a b : nat) :
  Forall q s -> Forall q (slice s a b).
Proof. intros H. unfold slice. apply forall_firstn, forall_skipn, H. Qed.

Lemma forall_lstrip (q : N -> Prop) (s : str) : Forall q s -> Forall q (lstrip s).
Proof.
  induction s as [|c s IH]; simpl; intros H; [constructor|].
  destruct (is_space c); [apply IH; inversion H; assumption | exact H].
Qed.

Lemma forall_strip (q : N -> Prop) (s : str) : Forall q s -> Forall q (strip s).
Proof.
  intros H. unfold strip, rstrip.
  apply Forall_rev, forall_lstrip, Forall_rev, forall_lstrip, H.
Qed.

Lemma forall_remove_char (q : N -> Prop) (c : N) (s : str) :
  Forall q s -> Forall q (remove_char c s).
Proof.
  intros H. unfold remove_char. rewrite Forall_forall in *.
  intros x Hx. apply filter_In in Hx. apply H, Hx.
Qed.

Lemma digits_to_Z_nonneg (s : str) : (0 <= digits_to_Z s)%Z.
Proof.
  unfold digits_to_Z.
  assert (H : forall acc : Z, (0 <= acc)%Z ->
                (0 <= fold_left (fun acc c => (10 * acc + digit_val c)%Z) s acc)%Z).
  { induction s as [|c s IH]; cbn [fold_left]; intros acc Hacc; [exact Hacc|].
    apply IH. unfold digit_val. pose proof (N2Z.is_nonneg (c - 48)). lia. }
  apply H. lia.
Qed.

(** [Decimal(s)] of a text without the minus sign is not negative. *)
Lemma of_str_sin_signo (s : str) (d : Dec.Decimal) :
  sin_signo s -> Dec.of_str s = Some d -> (0 <= Dec.coef d)%Z.
Proof.
  intros Hs. unfold Dec.of_str. cbv zeta.
  assert (Ht : sin_signo (remove_char 95 (strip s)))
    by (apply forall_remove_char, forall_strip, Hs).
  destruct (fullmatch Dec.numero (remove_char 95 (strip s))) as [m|]; [|discriminate].
  assert (Hn : match group (remove_char 95 (strip s)) m 1 with
               | Some [45%N] => true
               | _ => false
               end = false).
  { destruct (group (remove_char 95 (strip s)) m 1) as [w|] eqn:Eg; [|reflexivity].
    assert (Hw : sin_signo w).
    { unfold group in Eg. destruct (cap_lookup 1 (m_caps m)) as [[a b]|]; [|discriminate].
      inversion Eg. apply forall_slice, Ht. }
    destruct w as [|c [|c' w']]; try reflexivity.
    - destruct (N.eq_dec c 45) as [->|Hne].
      + inversion Hw as [|? ? Hc _]. exfalso. apply Hc. reflexivity.
      + destruct c as [|p]; [reflexivity|].
        repeat (destruct p as [p|p|]; try reflexivity).
        exfalso. apply Hne. reflexivity.
    - destruct c as [|p]; [reflexivity|].
      repeat (destruct p as [p|p|]; try reflexivity). }
  rewrite Hn. intros E. inversion E; subst d; clear E. cbn [Dec.coef].
  apply digits_to_Z_nonneg.
Qed.

Lemma value_no_negativo (d : Dec.Decimal) :
  (0 <= Dec.coef d)%Z -> (0 <= Dec.value d)%Q.
Proof.
  intros H. unfold Dec.value. apply Qmult_le_0_compat.
  - change 0%Q with (inject_Z 0). rewrite <- Zle_Qle. exact H.
  - apply Qlt_le_weak, diez_pos.
Qed.

Lemma decimal_sin_comas_no_negativo (s : str) (d : Dec.Decimal) :
  sin_signo s -> decimal_sin_comas s = Some d -> (0 <= Dec.value d)%Q.
Proof.
  intros Hs E. apply value_no_negativo. unfold decimal_sin_comas in E.
  apply (@of_str_sin_signo _ _ (forall_remove_char 44 Hs) E).
Qed.

Lemma clases_monto (i : nat) (w : str) : matches (monto_grp i) w -> sin_signo w.
Proof.
  apply (@matches_clases (fun c => c <> 45%N)).
  unfold monto_grp, plus, rep, chr, d_. cbn [seqs clases_en]. partes;
    intros c Hp Hc; subst c; vm_compute in Hp; discriminate Hp.
Qed.

Lemma grupos_monto (P : nat -> str -> Prop) (i : nat) :
  (forall w, sin_signo w -> P i w) -> grupos_en P (monto_grp i).
Proof.
  intros HP. split.
  - unfold plus, rep, chr, d_. cbn [seqs grupos_en]. partes; exact I.
  - intros w Hw. apply HP, (@clases_monto i w Hw).
Qed.

Lemma grupos_texto_i (P : nat -> str -> Prop) (a : string) : grupos_en P (text_i a).
Proof.
  unfold text_i. generalize (lit a). intros l.
  induction l as [|x [|y l] IH]; try exact I. cbn [map seqs grupos_en] in *.
  split; [exact I | exact IH].
Qed.

(** The amount groups of the two line patterns and of the balance
    patterns hold no minus sign. *)
Lemma grupos_bbva : grupos_en (fun i w => 2 < i -> sin_signo w) patron_bbva.
Proof.
  unfold patron_bbva, opt, plus, plus_lazy, rep. cbn [seqs grupos_en].
  partes; try exact I; try (intros w _ Hi; exfalso; lia);
    apply grupos_monto; intros w Hw _; exact Hw.
Qed.

Lemma grupos_generico : grupos_en (fun i w => i = 2 -> sin_signo w) patron_generico.
Proof.
  unfold patron_generico, star_lazy, star, rep. cbn [seqs grupos_en].
  partes; try exact I; try (intros w _ Hi; exfalso; lia).
  intros w Hw _. revert w Hw. apply (@matches_clases (fun c => c <> 45%N)).
  unfold star, rep, chr, d_. cbn [seqs clases_en]. partes;
    intros c Hp Hc; subst c; vm_compute in Hp; discriminate Hp.
Qed.

Lemma grupos_saldo_palabras (a b c : string) :
  grupos_en (fun i w => i = 2 -> sin_signo w)
            (seqs [ text_i "saldo"; star s_; Grp 1 (alts [text_i a; text_i b; text_i c]);
                    sep; opt (chr 36); monto_grp 2 ]).
Proof.
  unfold opt, star, sep, plus. cbn [seqs alts grupos_en].
  partes; try exact I; try apply grupos_texto_i.
  - intros w _ Hi. discriminate Hi.
  - apply grupos_monto. intros w Hw _. exact Hw.
Qed.

Lemma grupos_saldo_al (a : string) :
  grupos_en (fun i w => i = 2 -> sin_signo w)
            (seqs [ text_i "saldo"; star s_; text_i "al"; star s_; text_i a;
                    sep; opt (chr 36); monto_grp 1 ]).
Proof.
  unfold opt, star, sep, plus. cbn [seqs grupos_en].
  partes; try exact I; try apply grupos_texto_i.
  apply grupos_monto. intros w _ Hi. discriminate Hi.
Qed.

Lemma grupo_opcional_sin_signo (P : nat -> str -> Prop) (r : regex) (linea : str)
    (m : rmatch) (i : nat) :
  grupos_en P r -> search r linea = Some m -> (forall w, P i w -> sin_signo w) ->
  sin_signo (match group linea m i with Some (c :: x) => c :: x | _ => lit "0" end).
Proof.
  intros Hg Hs HP. destruct (group linea m i) as [[|c x]|] eqn:Eg.
  - repeat constructor; discriminate.
  - apply HP. apply (@search_grupo P r linea m i _ Hg Hs Eg).
  - repeat constructor; discriminate.
Qed.

Lemma linea_bbva_no_negativos (linea : str) (t : TransaccionBancaria) :
  linea_bbva linea = Some t ->
  (0 <= Dec.value (cargo t))%Q /\ (0 <= Dec.value (abono t))%Q /\
  match saldo t with Some s => (0 <= Dec.value s)%Q | None => True end.
Proof.
  unfold linea_bbva. destruct (search patron_bbva linea) as [m|] eqn:Es; [|discriminate].
  cbv zeta. destruct (Fecha.strptime _ _); [|discriminate].
  pose proof (@grupo_opcional_sin_signo _ _ linea m 3 grupos_bbva Es
                (fun w H => H ltac:(lia))) as H3.
  pose proof (@grupo_opcional_sin_signo _ _ linea m 4 grupos_bbva Es
                (fun w H => H ltac:(lia))) as H4.
  destruct (decimal_sin_comas _) as [c|] eqn:Ec; [|discriminate].
  destruct (decimal_sin_comas _) as [a|] eqn:Ea in |- *; [|discriminate].
  pose proof (decimal_sin_comas_no_negativo H3 Ec) as Hc.
  pose proof (decimal_sin_comas_no_negativo H4 Ea) as Ha.
  destruct (group linea m 5) as [[|c5 x5]|] eqn:E5.
  - intros E. inversion E. simpl. auto.
  - destruct (decimal_sin_comas (c5 :: x5)) as [s5|] eqn:Es5; [|discriminate].
    intros E. inversion E. simpl. split; [exact Hc|]. split; [exact Ha|].
    apply (@decimal_sin_comas_no_negativo (c5 :: x5) s5); [|exact Es5].
    apply (@search_grupo _ patron_bbva linea m 5 _ grupos_bbva Es E5). lia.
  - intros E. inversion E. simpl. auto.
Qed.

Lemma zero_no_negativo : (0 <= Dec.value Dec.zero)%Q.
Proof. vm_compute. discriminate. Qed.

Lemma linea_generico_no_negativos (linea : str) (t : TransaccionBancaria) :
  linea_generico linea = Some t ->
  (0 <= Dec.value (cargo t))%Q /\ (0 <= Dec.value (abono t))%Q /\ saldo t = None.
Proof.
  unfold linea_generico. destruct (search patron_generico linea) as [m|] eqn:Es; [|discriminate].
  cbv zeta. destruct (primer_formato _ formatos_generico); [|discriminate].
  destruct (decimal_sin_comas _) as [monto|] eqn:Em; [|discriminate].
  assert (Hm : (0 <= Dec.value monto)%Q).
  { apply (decimal_sin_comas_no_negativo (s := match group linea m 2 with
                                                | Some x => x | None => [] end)); [|exact Em].
    destruct (group linea m 2) as [w|] eqn:Eg; [|constructor].
    apply (@search_grupo _ patron_generico linea m 2 _ grupos_generico Es Eg). reflexivity. }
  intros E. inversion E. simpl.
  split; [|split; [|reflexivity]].
  - destruct (contains (lit "cargo") _); [exact Hm | exact zero_no_negativo].
  - destruct (contains (lit "abono") _); [exact Hm | exact zero_no_negativo].
Qed.

(** X18.  The two line parsers of the PDF path never produce a negative
    amount: the patterns capture digits, commas and the point only, so a
    minus sign is never part of an amount, and the charge, the credit and
    the reported balance of every transaction are at least zero. *)
Theorem montos_de_pdf_no_negativos (texto : str) (t : TransaccionBancaria) :
  In t (_parsear_bbva texto) \/ In t (_parsear_generico texto) ->
  (0 <= Dec.value (cargo t))%Q /\ (0 <= Dec.value (abono t))%Q /\
  match saldo t with Some s => (0 <= Dec.value s)%Q | None => True end.
Proof.
  intros [H|H]; apply por_lineas_in in H; destruct H as (linea & _ & H).
  - apply (linea_bbva_no_negativos _ H).
  - destruct (linea_generico_no_negativos _ H) as (Hc & Ha & Hs).
    rewrite Hs. auto.
Qed.

Lemma extraer_grupo2_no_negativo (texto : str) (patrones : list regex) (d : Dec.Decimal) :
  Forall (grupos_en (fun i w => i = 2 -> sin_signo w)) patrones ->
  extraer_grupo2 texto patrones = Some d -> (0 <= Dec.value d)%Q.
Proof.
  induction patrones as [|patron patrones IH]; simpl; intros Hg E; [discriminate|].
  inversion Hg as [|? ? Hp Hps]; subst.
  destruct (search patron texto) as [m|] eqn:Es; [|auto].
  destruct (group texto m 2) as [g|] eqn:Eg; [|auto].
  destruct (Dec.of_str (remove_char 44 g)) as [d'|] eqn:Ed; [|auto].
  inversion E; subst d'. apply value_no_negativo.
  apply (@of_str_sin_signo (remove_char 44 g) d); [|exact Ed].
  apply forall_remove_char.
  apply (@search_grupo _ patron texto m 2 g Hp Es Eg). reflexivity.
Qed.

(** X19.  A balance extracted from the text of a statement is never
    negative: the amount captured holds digits, commas and the point
    only. *)
Theorem saldo_extraido_no_negativo (texto : str) (d : Dec.Decimal) :
  _extraer_saldo_inicial texto = Some d \/ _extraer_saldo_final texto = Some d ->
  (0 <= Dec.value d)%Q.
Proof.
  intros [H|H].
  - apply (@extraer_grupo2_no_negativo texto patrones_saldo_inicial d); [|exact H].
    unfold patrones_saldo_inicial.
    apply Forall_cons; [apply grupos_saldo_palabras|].
    apply Forall_cons; [apply grupos_saldo_al | apply Forall_nil].
  - apply (@extraer_grupo2_no_negativo texto patrones_saldo_final d); [|exact H].
    unfold patrones_saldo_final.
    apply Forall_cons; [apply grupos_saldo_palabras|].
    apply Forall_cons; [apply grupos_saldo_al | apply Forall_nil].
Qed.

Lemma montos_de_pdf_no_negativos_ejemplo :
  In trans_signo (_parsear_generico (lit "cargo 01/03/2024 retiro -1,500.00")) /\
  (0 <= Dec.value (cargo trans_signo))%Q /\ (0 <= Dec.value (abono trans_signo))%Q /\
  match saldo trans_signo with Some s => (0 <= Dec.value s)%Q | None => True end.
Proof.
  split.
  - vm_compute. left. reflexivity.
  - apply (@montos_de_pdf_no_negativos (lit "cargo 01/03/2024 retiro -1,500.00") trans_signo).
    right. vm_compute. left. reflexivity.
Defined.

Lemma saldo_extraido_no_negativo_ejemplo :
  _extraer_saldo_final (lit "Saldo final: $1,250.00") = Some (Dec.mkDec 125000 (-2)) /\
  (0 <= Dec.value (Dec.mkDec 125000 (-2)))%Q.
Proof.
  split; [vm_compute; reflexivity|].
  apply (@saldo_extraido_no_negativo (lit "Saldo final: $1,250.00") (Dec.mkDec 125000 (-2))).
  right. vm_compute. reflexivity.
Defined.

End Montos.

(* ================================================================== *)
(** * [_extraer_cuenta] *)
(* ================================================================== *)

Section ExtraerCuenta.
Import Texto Re Py Valores Modelo Auxiliares ImportadorEstadoCuenta Especificacion Vocabulario.

(** The shape of an account number: digits only, four of them or ten to
    twenty. *)
Definition forma_cuenta (w : str) : Prop :=
  Forall (fun c => is_digit c = true) w /\
  (List.length w = 4 \/ 10 <= List.length w <= 20).

Lemma grupos_digitos (lo hi : nat) :
  (lo = 4 /\ hi = 4) \/ (lo = 10 /\ hi = 20) ->
  grupos_en (fun _ w => forma_cuenta w) (Grp 1 (rep lo hi d_)).
Proof.
  intros H. split; [exact I|]. intros w Hw.
  unfold rep, d_ in Hw. apply matches_rep_chr in Hw. destruct Hw as [Hl Hf].
  split; [exact Hf|]. destruct H as [[-> ->]|[-> ->]]; simpl in Hl; lia.
Qed.

Lemma grupos_cuenta : Forall (grupos_en (fun _ w => forma_cuenta w)) patrones_cuenta.
Proof.
  unfold patrones_cuenta, opt, star, sep, plus.
  repeat (apply Forall_cons; [|]); [ | | | | apply Forall_nil];
    cbn -[rep text_i]; partes; try exact I; try apply grupos_texto_i;
    apply grupos_digitos; auto.
Qed.

Lemma primer_grupo1_forma (P : str -> Prop) (texto : str) (patrones : list regex) :
  Forall (grupos_en (fun _ w => P w)) patrones ->
  primer_grupo1 texto patrones = [] \/ P (primer_grupo1 texto patrones).
Proof.
  induction patrones as [|patron patrones IH]; simpl; intros Hg; [left; reflexivity|].
  inversion Hg as [|? ? Hp Hps]; subst.
  destruct (search patron texto) as [m|] eqn:Es; [|auto].
  destruct (group texto m 1) as [g|] eqn:Eg; [|left; reflexivity].
  right. apply (@search_grupo _ patron texto m 1 g Hp Es Eg).
Qed.

(** X20.  The account number extracted from the text of a statement is
    empty or made of digits only, four of them (after a run of
    asterisks) or ten to twenty (after a label): a longer run of digits
    is cut at twenty. *)
Theorem extraer_cuenta_forma (texto : str) :
  _extraer_cuenta texto = [] \/ forma_cuenta (_extraer_cuenta texto).
Proof. apply primer_grupo1_forma, grupos_cuenta. Qed.

End ExtraerCuenta.

(* ================================================================== *)
(** * The endpoint on a CSV file *)
(* ================================================================== *)

Section EndpointCsv.
Import Texto Re Py Valores Modelo Auxiliares ImportadorEstadoCuenta Especificacion Vocabulario.
Import Resumen Endpoint Ejemplos.

(** X21.  For a file name that holds "csv" and not "pdf" the endpoint
    never answers the error 400.  When the bytes do not decode it
    answers the error 500 with "Error procesando archivo: " and the
    message of the exception.  When it answers the statement, it shows
    the summary of that statement, its first 50 transactions at most
    and, as diagnostics, only those of this request: one for every
    defective row. *)
Theorem endpoint_csv (env : entorno) (contenido : list N) (filename : str) :
  contains (lit "pdf") (lower filename) = false ->
  contains (lit "csv") (lower filename) = true ->
  (forall detail, importar_estado_cuenta env contenido filename <> Http400 detail) /\
  (forall ex, decode_utf8 env contenido = Raise ex -> exc_clase ex <> ImportError ->
     importar_estado_cuenta env contenido filename
     = Http500 (lit "Error procesando archivo: " ++ exc_msg ex)) /\
  (forall estado resumen mostradas diagnosticos texto,
     importar_estado_cuenta env contenido filename
     = Exito estado resumen mostradas diagnosticos ->
     decode_utf8 env contenido = Ok texto ->
     resumen = generar_resumen_categorias estado /\
     mostradas = firstn 50 (transacciones estado) /\
     List.length mostradas <= 50 /\
     diagnosticos =
       repeat error_fila_csv
         (List.length (filter fila_defectuosa
            (csv_DictReader env texto (detectar_delimitador texto))))).
Proof.
  intros Hpdf Hcsv. unfold importar_estado_cuenta, tipo_por_nombre. rewrite Hpdf, Hcsv.
  assert (Hi : importar env contenido (lit "csv") filename nuevo
               = _importar_csv env contenido nuevo) by reflexivity.
  rewrite Hi. unfold _importar_csv.
  destruct (decode_utf8 env contenido) as [texto|e].
  - destruct (filas_csv_cuenta
                (csv_DictReader env texto (detectar_delimitador texto)) [] nuevo)
      as (ts & E & _).
    rewrite E. split; [discriminate|]. split; [discriminate|].
    intros estado resumen mostradas diagnosticos texto' H Ht.
    injection Ht as <-. injection H as <- <- <- <-.
    split; [reflexivity|]. split; [reflexivity|]. split; [|reflexivity].
    exact (@firstn_le_length TransaccionBancaria 50
             (transacciones (_construir_estado_cuenta (hoy env) (lit "CSV") [] ts texto))).
  - split; [|split].
    + intros detail. destruct (exc_clase e); discriminate.
    + intros ex Hex Hcl. inversion Hex; subst ex.
      destruct (exc_clase e); try (exfalso; apply Hcl; reflexivity); reflexivity.
    + intros estado resumen mostradas diagnosticos texto H.
      destruct (exc_clase e); discriminate H.
Qed.

Lemma endpoint_csv_ejemplo :
  contains (lit "pdf") (lower (lit "estado.csv")) = false /\
  contains (lit "csv") (lower (lit "estado.csv")) = true /\
  exists estado resumen mostradas,
    importar_estado_cuenta env0 csv_fila_larga (lit "estado.csv")
    = Exito estado resumen mostradas [error_fila_csv] /\
    mostradas = firstn 50 (transacciones estado).
Proof.
  split; [vm_compute; reflexivity|]. split; [vm_compute; reflexivity|].
  destruct (importar_estado_cuenta env0 csv_fila_larga (lit "estado.csv"))
    as [detail|detail|estado resumen mostradas diagnosticos] eqn:E.
  - vm_compute in E. discriminate E.
  - vm_compute in E. discriminate E.
  - destruct (@endpoint_csv env0 csv_fila_larga (lit "estado.csv") eq_refl eq_refl)
      as (_ & _ & H).
    destruct (H estado resumen mostradas diagnosticos _ E eq_refl) as (_ & Hm & _ & Hd).
    exists estado, resumen, mostradas. split; [|exact Hm].
    rewrite Hd. vm_compute. reflexivity.
Defined.
End EndpointCsv.

(* ================================================================== *)
(** * The statement imported from a PDF *)
(* ================================================================== *)

Section EstadoPdf.
Import Texto Re Py Valores Modelo Auxiliares ImportadorEstadoCuenta Especificacion Vocabulario.
Import Ejemplos Casos.

(** A transaction without a negative amount. *)
Definition sin_negativos (t : TransaccionBancaria) : Prop :=
  (0 <= Dec.value (cargo t))%Q /\ (0 <= Dec.value (abono t))%Q /\
  match saldo t with Some s => (0 <= Dec.value s)%Q | None => True end.

Lemma suma_de_no_negativa (campo : TransaccionBancaria -> Dec.Decimal)
    (l : list TransaccionBancaria) :
  Forall (fun t => (0 <= Dec.value (campo t))%Q) l -> (0 <= suma_de campo l)%Q.
Proof.
  induction 1 as [|t l Ht _ IH]; simpl.
  - apply Qle_refl.
  - change 0%Q with (0 + 0)%Q. apply Qplus_le_compat; assumption.
Qed.

Lemma o_bien_no_negativo (x : option Dec.Decimal) :
  match x with Some s => (0 <= Dec.value s)%Q | None => True end ->
  (0 <= Dec.value (o_bien x Dec.zero))%Q.
Proof.
  destruct x as [d|]; simpl; intros H.
  - destruct (Dec.truthy d); [exact H | exact zero_no_negativo].
  - exact zero_no_negativo.
Qed.

(** The builder keeps amounts that are not negative: the transactions,
    the totals and the opening balance. *)
Lemma construir_no_negativos (hoy : Fecha.date) (banco cuenta texto : str)
    (ts : list TransaccionBancaria) :
  Forall sin_negativos ts ->
  let e := _construir_estado_cuenta hoy banco cuenta ts texto in
  Forall sin_negativos (transacciones e) /\
  (0 <= Dec.value (total_cargos e))%Q /\
  (0 <= Dec.value (total_abonos e))%Q /\
  (0 <= Dec.value (saldo_inicial e))%Q.
Proof.
  intros Hts. cbv zeta.
  assert (Ho : Forall sin_negativos
                 (transacciones (_construir_estado_cuenta hoy banco cuenta ts texto))).
  { rewrite transacciones_construir.
    apply (Permutation_Forall (proj2 (ordenar_sorted_perm ts)) Hts). }
  destruct (@construir_totales_transacciones hoy banco cuenta texto ts) as [Hc Ha].
  split; [exact Ho|]. split; [|split].
  - rewrite Hc. apply suma_de_no_negativa.
    apply (Forall_impl _ (fun t H => proj1 H) Ho).
  - rewrite Ha. apply suma_de_no_negativa.
    apply (Forall_impl _ (fun t H => proj1 (proj2 H)) Ho).
  - destruct ts as [|t0 ts']; [exact zero_no_negativo|].
    rewrite (proj1 (@construir_saldos hoy banco cuenta texto t0 ts')).
    destruct (_extraer_saldo_inicial texto) as [s|] eqn:Es.
    + apply (@extraer_grupo2_no_negativo texto patrones_saldo_inicial s); [|exact Es].
      unfold patrones_saldo_inicial.
      apply Forall_cons; [apply grupos_saldo_palabras|].
      apply Forall_cons; [apply grupos_saldo_al | apply Forall_nil].
    + apply o_bien_no_negativo.
      assert (Hin : In (hd t0 (ordenar (t0 :: ts'))) (ordenar (t0 :: ts'))).
      { destruct (ordenar (t0 :: ts')) as [|u l] eqn:Eo; [|left; reflexivity].
        pose proof (proj2 (ordenar_sorted_perm (t0 :: ts'))) as Hp. rewrite Eo in Hp.
        apply Permutation_sym, Permutation_nil in Hp. discriminate Hp. }
      rewrite transacciones_construir in Ho. rewrite Forall_forall in Ho.
      apply (Ho _ Hin).
Qed.

Lemma por_lineas_forall (P : TransaccionBancaria -> Prop)
    (f : str -> option TransaccionBancaria) (texto : str) :
  (forall linea t, f linea = Some t -> P t) -> Forall P (por_lineas f texto).
Proof.
  intros H. apply Forall_forall. intros t Hin.
  apply por_lineas_in in Hin. destruct Hin as (linea & _ & Hl). apply (H _ _ Hl).
Qed.

(** X22.  A statement imported from a PDF holds no negative amount but,
    possibly, a computed closing balance: the charges, the credits and
    the reported balances of its transactions, its two totals and its
    opening balance are at least zero.  The import adds no diagnostic. *)
Theorem importar_pdf_no_negativos (env : entorno) (archivo : list N) (nombre : str)
    (self self' : importador) (e : EstadoCuentaImportado) :
  _importar_pdf env archivo nombre self = (Ok e, self') ->
  self' = self /\
  Forall sin_negativos (transacciones e) /\
  (0 <= Dec.value (total_cargos e))%Q /\
  (0 <= Dec.value (total_abonos e))%Q /\
  (0 <= Dec.value (saldo_inicial e))%Q.
Proof.
  unfold _importar_pdf. destruct (negb (PDF_SUPPORT env)); [discriminate|].
  destruct (pdf_paginas env archivo) as [paginas|ex]; [|discriminate].
  cbv zeta. fold (texto_de paginas). intros E. inversion E; subst. clear E.
  split; [reflexivity|]. apply construir_no_negativos.
  destruct (str_eqb _ (lit "BBVA")).
  - apply por_lineas_forall. intros linea t H. apply (linea_bbva_no_negativos _ H).
  - destruct (str_eqb _ (lit "SANTANDER")); [constructor|].
    destruct (str_eqb _ (lit "BANORTE")); [constructor|].
    apply por_lineas_forall. intros linea t H.
    destruct (linea_generico_no_negativos _ H) as (Hc & Ha & Hs).
    unfold sin_negativos. rewrite Hs. auto.
Qed.

Lemma importar_pdf_no_negativos_ejemplo :
  exists e,
    _importar_pdf (entorno_pdf [lit "cargo 01/03/2024 retiro -1,500.00"]) []
                  (lit "estado.pdf") nuevo = (Ok e, nuevo) /\
    List.length (transacciones e) = 1 /\
    Forall sin_negativos (transacciones e) /\
    (0 <= Dec.value (total_cargos e))%Q /\
    (0 <= Dec.value (total_abonos e))%Q /\
    (0 <= Dec.value (saldo_inicial e))%Q.
Proof.
  destruct (_importar_pdf (entorno_pdf [lit "cargo 01/03/2024 retiro -1,500.00"]) []
                          (lit "estado.pdf") nuevo) as [[e|ex] self'] eqn:E.
  - destruct (@importar_pdf_no_negativos _ _ _ _ _ _ E) as (Hs & H).
    exists e. subst self'. split; [reflexivity|]. split; [|exact H].
    vm_compute in E. inversion E. reflexivity.
  - vm_compute in E. discriminate E.
Defined.
End EstadoPdf.

(* ================================================================== *)
(** * The order of the transactions read from text *)
(* ================================================================== *)

Section LecturaEstable.
Import Texto Re Py Valores Modelo Auxiliares ImportadorEstadoCuenta Especificacion Vocabulario.
Import Lecturas Ejemplos Casos CasosMontos.


End LecturaEstable.
